(** * DIET classifier: label and tag indices, training guard, prediction decoding

    A shallow embedding of the parts of
    [rasa/nlu/classifiers/diet_classifier.py] that build the label and tag
    indices, check feature shapes, guard training and decode predictions,
    followed by the properties the specification states about them.

    Python values are modelled as follows: [Optional[Text]] is
    [option string], a [set] is a [gset], a [dict] with text keys is a
    [gmap string _], a [list] is a [list], a float is a rational, and a
    raised exception is the [Raise] branch of [Result]. *)

From Stdlib Require Import QArith.
From stdpp Require Import gmap strings list sorting pretty.

Set Warnings "-clear-no-such-hyp,-level-tolerance".

Local Open Scope string_scope.
Local Open Scope nat_scope.
Local Open Scope list_scope.

(** ** Exceptions *)

Inductive Exn :=
  | ValueError (msg : string)
  | TypeError (msg : string)
  | KeyError (key : string)
  | IndexError (msg : string)
  | AttributeError (msg : string).

Inductive Result (A : Type) :=
  | Ok (a : A)
  | Raise (e : Exn).
Arguments Ok {A} a.
Arguments Raise {A} e.

Global Instance Result_bind : MBind Result := λ A B k c,
  match c with
  | Ok a => k a
  | Raise e => Raise e
  end.
Global Instance Result_ret : MRet Result := λ A a, Ok a.
Global Instance Result_fmap : FMap Result := λ A B f c,
  match c with
  | Ok a => Ok (f a)
  | Raise e => Raise e
  end.

Definition is_Ok {A} (r : Result A) : Prop := ∃ a, r = Ok a.

Global Instance Exn_eq_dec : EqDecision Exn.
Proof. solve_decision. Defined.

Global Instance Result_eq_dec `{EqDecision A} : EqDecision (Result A).
Proof. solve_decision. Defined.

(** [d[key]] on a dictionary with text keys. *)
Definition getitem {A} (d : gmap string A) (key : string) : Result A :=
  match d !! key with
  | Some a => Ok a
  | None => Raise (KeyError key)
  end.

(** [l[i]] on a list, for [0 <= i]. *)
Definition getindex {A} (l : list A) (i : nat) : Result A :=
  match l !! i with
  | Some a => Ok a
  | None => Raise (IndexError "list index out of range")
  end.

(** [l[:n]] *)
Definition slice_to {A} (l : list A) (n : Z) : list A :=
  if (n <? 0)%Z then take (length l - Z.to_nat (- n)) l
  else take (Z.to_nat n) l.

(** [str(x)] for an [Optional[Text]] *)
Definition py_str (x : option string) : string := default "None" x.

(** ** The order of Python [str] values

    [sorted] compares [str] values code point by code point, which on
    strings of bytes is [String.leb]. *)

Definition str_le (s1 s2 : string) : Prop := String.leb s1 s2 = true.
Definition str_lt (s1 s2 : string) : Prop := String.ltb s1 s2 = true.

Global Instance str_le_dec : RelDecision str_le.
Proof. intros s1 s2. unfold str_le. apply _. Defined.

(** ** Python built-ins used by the index builders *)

(** [sorted(X)] on a set whose members are [str] once [None] is taken out. *)
Definition sorted (X : gset (option string)) : list string :=
  merge_sort str_le (omap id (elements X)).

(** [enumerate(l, start)] *)
Definition enumerate {A} (l : list A) (start : nat) : list (nat * A) :=
  imap (λ i x, (start + i, x)) l.

(** [{key: idx for idx, key in pairs}]: later pairs overwrite earlier ones. *)
Definition dict_comprehension (pairs : list (nat * string)) : gmap string nat :=
  foldl (λ d '(idx, key), <[key := idx]> d) ∅ pairs.

(** ** Sorting of score arrays *)

Definition Qltb (x y : Q) : bool := negb (Qle_bool y x).

(** [v[i]] for an index of [v] *)
Definition score (v : list Q) (i : nat) : Q := default 0%Q (v !! i).

(** [v.argsort()] is [numpy]'s, called with the default kind of sort, which
    is not stable: it returns the indices of [v] in an order in which the
    scores never decrease, and promises nothing about the order of indices
    whose scores are equal. [numpy] is not part of the file under study;
    [argsort] is a parameter of the development, taken with this contract
    and nothing more. *)
Class Numpy := {
  argsort : list Q → list nat;
  argsort_Permutation (v : list Q) : argsort v ≡ₚ seq 0 (length v);
  argsort_ascending (v : list Q) :
    StronglySorted (λ i j, (score v i <= score v j)%Q) (argsort v);
}.

(** Two sorts that meet the contract and differ on equal scores follow.
    The first is an insertion sort that moves an entry left past the
    entries strictly greater than it, so that indices with equal scores
    stay in increasing order: it lists two indices by score, and for equal
    scores by index. *)
Definition ranks_before (v : list Q) (a b : nat) : Prop :=
  (score v a < score v b)%Q ∨ ((score v a == score v b)%Q ∧ a < b).

Fixpoint insert_index (v : list Q) (i : nat) (l : list nat) : list nat :=
  match l with
  | [] => [i]
  | j :: l' =>
      if Qltb (score v i) (score v j) then i :: j :: l'
      else j :: insert_index v i l'
  end.

Definition insertion_argsort (v : list Q) : list nat :=
  foldl (λ l i, insert_index v i l) [] (seq 0 (length v)).

(** The second lists indices with equal scores in decreasing order: it is
    the first one run on the negated scores, read backwards. *)
Definition descending_ties_argsort (v : list Q) : list nat :=
  reverse (insertion_argsort (Qopp <$> v)).

Fixpoint insert_value (x : Q) (l : list Q) : list Q :=
  match l with
  | [] => [x]
  | y :: l' => if Qltb x y then x :: y :: l' else y :: insert_value x l'
  end.

(** [v.sort()]: the values in ascending order. Equal values are not told
    apart, so that the kind of sort plays no part; it is written as an
    insertion sort. *)
Definition np_sort (v : list Q) : list Q :=
  foldl (λ l x, insert_value x l) [] v.

(** [v[::-1].sort()]: the reversed view is sorted in place, which leaves
    [v] in descending order. *)
Definition sort_reversed_view (v : list Q) : list Q :=
  reverse (np_sort (reverse v)).

(** ** Constants imported from other modules of the package

    [rasa.shared.nlu.constants], [rasa.utils.tensorflow.constants] and
    [rasa.nlu.classifiers] are not part of the file under study; their
    constants are parameters of the development. *)

Class Constants := {
  TEXT : string;
  INTENT : string;
  INTENT_RESPONSE_KEY : string;
  ENTITIES : string;
  ENTITY_ATTRIBUTE_TYPE : string;
  ENTITY_ATTRIBUTE_ROLE : string;
  ENTITY_ATTRIBUTE_GROUP : string;
  NO_ENTITY_TAG : string;
  LABEL : string;
  IDS : string;
  SEQUENCE : string;
  SENTENCE : string;
  SEQUENCE_LENGTH : string;
  SOFTMAX : string;
  DIAGNOSTIC_DATA : string;
  LABEL_RANKING_LENGTH : Z;
}.

Definition SPARSE : string := "sparse".
Definition DENSE : string := "dense".

(** ** Values, messages and training data *)

Global Instance Q_eq_dec : EqDecision Q.
Proof. solve_decision. Defined.

(** A scalar stored in a result dictionary. *)
Inductive Atom :=
  | ANone
  | AStr (s : string)
  | AInt (z : Z)
  | AFloat (q : Q).

Global Instance Atom_eq_dec : EqDecision Atom.
Proof. solve_decision. Defined.

(** A dense array of numbers, by rows. *)
Definition ndarray : Type := list (list Q).

Definition flatten (a : ndarray) : list Q := concat a.

(** An entry of the dictionary a model predicts: an array, or for the
    diagnostic data a dictionary of arrays. *)
Inductive Prediction :=
  | tensor (a : ndarray)
  | tensor_dict (d : gmap string ndarray).

(** What a message stores under a property: a text, a dictionary (the
    intent label) or a list of dictionaries (intent ranking, entities). *)
Inductive Value :=
  | VStr (s : string)
  | VDict (d : gmap string Atom)
  | VList (l : list (gmap string Atom)).

(** A message: the properties set on it, and the diagnostic data that
    components attach under their own name. *)
Record Message := mkMessage {
  data : gmap string Value;
  diagnostic_data : gmap string Prediction;
}.

(** [message.get(prop)] for a property that holds a text, such as the
    intent of a training example ([Optional[Text]]). *)
Definition get_text (message : Message) (prop : string) : option string :=
  match data message !! prop with
  | Some (VStr s) => Some s
  | _ => None
  end.

(** [message.get(prop, [])] for a property that holds a list of dictionaries. *)
Definition get_list (message : Message) (prop : string) : list (gmap string Atom) :=
  match data message !! prop with
  | Some (VList l) => l
  | _ => []
  end.

(** [message.set(prop, info)] *)
Definition set (message : Message) (prop : string) (info : Value) : Message :=
  {| data := <[prop := info]> (data message);
     diagnostic_data := diagnostic_data message |}.

(** [message.add_diagnostic_data(origin, data)] *)
Definition add_diagnostic_data
    (message : Message) (origin : string) (d : Prediction) : Message :=
  {| data := data message;
     diagnostic_data := <[origin := d]> (diagnostic_data message) |}.

(** The views of [TrainingData] the classifier reads. [entities],
    [entity_roles] and [entity_groups] are the sets of tag values found in
    the corpus; an entity without the attribute contributes [None]. *)
Record TrainingData := mkTrainingData {
  intent_examples : list Message;
  nlu_examples : list Message;
  entities : gset (option string);
  entity_roles : gset (option string);
  entity_groups : gset (option string);
}.

(** [EntityTagSpec] of [rasa.nlu.extractors.extractor] *)
Record EntityTagSpec := mkEntityTagSpec {
  tag_name : string;
  ids_to_tags : gmap nat string;
  tags_to_ids : gmap string nat;
  num_tags : nat;
}.

(** The tag spec has tags: [num_tags != 0]. *)
Definition has_tags (tag_spec : EntityTagSpec) : Prop := num_tags tag_spec ≠ 0.

Global Instance has_tags_dec tag_spec : Decision (has_tags tag_spec).
Proof. unfold has_tags. apply _. Defined.

(** The entries of [component_config] read by the code below. *)
Record ComponentConfig := mkComponentConfig {
  NUM_TRANSFORMER_LAYERS : Z;
  RANKING_LENGTH : option Z;
  INTENT_CLASSIFICATION : bool;
  ENTITY_RECOGNITION : bool;
  BILOU_FLAG : bool;
  FEATURIZERS : list string;
  MODEL_CONFIDENCE : string;
}.

(** ** Label and tag index builder ([DIETClassifier]) *)

Section index_builder.
Context `{Constants}.

(** [bilou_utils.build_tag_id_dict], which builds the tag index when BILOU
    tagging is on; it belongs to another module of the package. *)
Context (build_tag_id_dict : TrainingData → string → option (gmap string nat)).

Definition POSSIBLE_TAGS : list string :=
  [ENTITY_ATTRIBUTE_TYPE; ENTITY_ATTRIBUTE_ROLE; ENTITY_ATTRIBUTE_GROUP].

(** The values [example.get(attribute)] of the intent examples. *)
Definition label_values (training_data : TrainingData) (attribute : string)
    : list (option string) :=
  (λ example, get_text example attribute) <$> intent_examples training_data.

Definition _label_id_index_mapping
    (training_data : TrainingData) (attribute : string) : gmap string nat :=
  let distinct_label_ids : gset (option string) :=
    list_to_set (label_values training_data attribute) ∖ {[None]} in
  dict_comprehension (enumerate (sorted distinct_label_ids) 0).

(** [{value: key for key, value in mapping.items()}]; the mappings that
    are inverted are injective, so the order of the items plays no part. *)
Definition _invert_mapping (mapping : gmap string nat) : gmap nat string :=
  foldl (λ d '(key, value), <[value := key]> d) ∅ (map_to_list mapping).

(** The set of tag values the corpus has for [tag_name]. *)
Definition tags_of (tag_name : string) (training_data : TrainingData)
    : gset (option string) :=
  if decide (tag_name = ENTITY_ATTRIBUTE_ROLE) then entity_roles training_data
  else if decide (tag_name = ENTITY_ATTRIBUTE_GROUP) then entity_groups training_data
  else entities training_data.

Definition _tag_id_index_mapping_for
    (tag_name : string) (training_data : TrainingData)
    : option (gmap string nat) :=
  let distinct_tags := tags_of tag_name training_data in
  let distinct_tags := distinct_tags ∖ {[Some NO_ENTITY_TAG]} ∖ {[None]} in
  if decide (distinct_tags = ∅) then None
  else
    let tag_id_dict := dict_comprehension (enumerate (sorted distinct_tags) 1) in
    (* NO_ENTITY_TAG corresponds to non-entity which should correspond to 0 index *)
    Some (<[NO_ENTITY_TAG := 0]> tag_id_dict).

(** One round of the loop of [_create_entity_tag_specs]. [if mapping:] is
    false for [None] and for the empty dictionary. *)
Definition tag_spec_step (config : ComponentConfig) (training_data : TrainingData)
    (_tag_specs : list EntityTagSpec) (tag_name : string) : list EntityTagSpec :=
  let tag_id_index_mapping :=
    if BILOU_FLAG config then build_tag_id_dict training_data tag_name
    else _tag_id_index_mapping_for tag_name training_data in
  match tag_id_index_mapping with
  | Some mapping =>
      if decide (mapping = ∅) then _tag_specs
      else _tag_specs ++
        [ {| tag_name := tag_name;
             tags_to_ids := mapping;
             ids_to_tags := _invert_mapping mapping;
             num_tags := size mapping |} ]
  | None => _tag_specs
  end.

Definition _create_entity_tag_specs
    (config : ComponentConfig) (training_data : TrainingData)
    : list EntityTagSpec :=
  foldl (tag_spec_step config training_data) [] POSSIBLE_TAGS.

End index_builder.

(** ** Feature extraction ([DIETClassifier._extract_features]) *)

(** A feature matrix: a dense array, or a sparse matrix with its shape
    and its stored entries. *)
Inductive Matrix :=
  | dense_matrix (rows : ndarray)
  | sparse_matrix (nrows ncols : nat) (entries : list (nat * nat * Q)).

Global Instance Matrix_eq_dec : EqDecision Matrix.
Proof. solve_decision. Defined.

(** [m.shape[0]] *)
Definition shape0 (m : Matrix) : nat :=
  match m with
  | dense_matrix rows => length rows
  | sparse_matrix nrows _ _ => nrows
  end.

(** [Features] of [rasa.shared.nlu.training_data.features] *)
Record Features := mkFeatures {
  features : Matrix;
}.

Section extract_features.
Context `{Constants}.

(** [Message.get_sparse_features] and [Message.get_dense_features]: the
    sequence and the sentence features of an attribute, each of them
    optional. *)
Context (get_sparse_features get_dense_features :
  Message → string → list string → option Features * option Features).

Definition sequence_mismatch_error (message : Message) (attribute : string) : Exn :=
  ValueError ("Sequence dimensions for sparse and dense sequence features "
    +:+ "don't coincide in '" +:+ py_str (get_text message TEXT) +:+ "'"
    +:+ "for attribute '" +:+ attribute +:+ "'.").

Definition sentence_mismatch_error (message : Message) (attribute : string) : Exn :=
  ValueError ("Sequence dimensions for sparse and dense sentence features "
    +:+ "don't coincide in '" +:+ py_str (get_text message TEXT) +:+ "'"
    +:+ "for attribute '" +:+ attribute +:+ "'.").

(** [if dense is not None and sparse is not None: if shapes differ: raise] *)
Definition check_first_dimension
    (dense sparse : option Features) (error : Exn) : Result unit :=
  match dense, sparse with
  | Some d, Some s =>
      if decide (shape0 (features d) ≠ shape0 (features s)) then Raise error
      else Ok ()
  | _, _ => Ok ()
  end.

(** Both features are present and their first dimensions differ. *)
Definition disagree (dense sparse : option Features) : bool :=
  match dense, sparse with
  | Some d, Some s => bool_decide (shape0 (features d) ≠ shape0 (features s))
  | _, _ => false
  end.

(** [if f is not None: out[key] = f.features] *)
Definition put_features
    (key : string) (f : option Features) (out : gmap string Matrix)
    : gmap string Matrix :=
  match f with
  | Some f => <[key := features f]> out
  | None => out
  end.

Definition _extract_features
    (config : ComponentConfig) (message : Message) (attribute : string)
    : Result (gmap string Matrix) :=
  let '(sparse_sequence_features, sparse_sentence_features) :=
    get_sparse_features message attribute (FEATURIZERS config) in
  let '(dense_sequence_features, dense_sentence_features) :=
    get_dense_features message attribute (FEATURIZERS config) in
  _ ← check_first_dimension dense_sequence_features sparse_sequence_features
        (sequence_mismatch_error message attribute);
  _ ← check_first_dimension dense_sentence_features sparse_sentence_features
        (sentence_mismatch_error message attribute);
  (* without transformer and entity recognition only the sentence features
     are kept *)
  let only_sentence :=
    bool_decide (NUM_TRANSFORMER_LAYERS config = 0%Z)
    && negb (ENTITY_RECOGNITION config)
    && bool_decide (attribute ∉ [INTENT; INTENT_RESPONSE_KEY]) in
  let sparse_sequence_features :=
    if only_sentence then None else sparse_sequence_features in
  let dense_sequence_features :=
    if only_sentence then None else dense_sequence_features in
  let out : gmap string Matrix := ∅ in
  let out := put_features (SPARSE +:+ "_" +:+ SENTENCE) sparse_sentence_features out in
  let out := put_features (SPARSE +:+ "_" +:+ SEQUENCE) sparse_sequence_features out in
  let out := put_features (DENSE +:+ "_" +:+ SENTENCE) dense_sentence_features out in
  let out := put_features (DENSE +:+ "_" +:+ SEQUENCE) dense_sequence_features out in
  Ok out.

End extract_features.

(** ** Training ([DIETClassifier.train]) *)

(** [FeatureArray] of [rasa.utils.tensorflow.model_data]: an array with
    its number of dimensions. *)
Record FeatureArray := mkFeatureArray {
  values : ndarray;
  number_of_dimensions : nat;
}.

(** [RasaModelData]: features by key and sub-key. *)
Record RasaModelData := mkRasaModelData {
  label_key : option string;
  label_sub_key : option string;
  model_data : gmap string (gmap string (list FeatureArray));
}.

(** [RasaModelData()] *)
Definition empty_model_data : RasaModelData :=
  {| label_key := None; label_sub_key := None; model_data := ∅ |}.

(** [model_data.is_empty()]: [not self.data] *)
Definition is_empty (md : RasaModelData) : bool :=
  bool_decide (model_data md = ∅).

(** [model_data.get(key, sub_key)], the empty list when there is none. *)
Definition get_features (md : RasaModelData) (key sub_key : string)
    : list FeatureArray :=
  default [] (model_data md !! key ≫= λ sub, sub !! sub_key).

(** [np.unique] on a list of arrays: the distinct numbers in them. The
    order of the result plays no part below, only its length is read. *)
Definition np_unique (arrays : list FeatureArray) : list Q :=
  remove_dups (Qred <$> concat (flatten ∘ values <$> arrays)).

Inductive LogLevel := DEBUG | ERROR.

Global Instance LogLevel_eq_dec : EqDecision LogLevel.
Proof. solve_decision. Defined.

(** A record handed to the module's [logger]. *)
Definition LogRecord : Type := LogLevel * string.

Section classifier.
Context `{Constants} `{Numpy}.

(** The trained model ([RasaModel]), of which the classifier only calls
    methods. *)
Context {RasaModel : Type}.

(** The attributes of a [DIETClassifier] instance. *)
Record DIETClassifier := mkDIETClassifier {
  component_config : ComponentConfig;
  index_label_id_mapping : option (gmap nat string);
  _entity_tag_specs : option (list EntityTagSpec);
  model : option RasaModel;
  _label_data : option RasaModelData;
  _data_example : option (gmap string (gmap string (list FeatureArray)));
  finetune_mode : bool;
}.

Definition set_component_config (v : ComponentConfig)
    (self : DIETClassifier) : DIETClassifier :=
  {| component_config := v;
     index_label_id_mapping := index_label_id_mapping self;
     _entity_tag_specs := _entity_tag_specs self;
     model := model self;
     _label_data := _label_data self;
     _data_example := _data_example self;
     finetune_mode := finetune_mode self |}.

Definition set_index_label_id_mapping (v : option (gmap nat string))
    (self : DIETClassifier) : DIETClassifier :=
  {| component_config := component_config self;
     index_label_id_mapping := v;
     _entity_tag_specs := _entity_tag_specs self;
     model := model self;
     _label_data := _label_data self;
     _data_example := _data_example self;
     finetune_mode := finetune_mode self |}.

Definition set_entity_tag_specs (v : option (list EntityTagSpec))
    (self : DIETClassifier) : DIETClassifier :=
  {| component_config := component_config self;
     index_label_id_mapping := index_label_id_mapping self;
     _entity_tag_specs := v;
     model := model self;
     _label_data := _label_data self;
     _data_example := _data_example self;
     finetune_mode := finetune_mode self |}.

Definition set_model (v : option RasaModel)
    (self : DIETClassifier) : DIETClassifier :=
  {| component_config := component_config self;
     index_label_id_mapping := index_label_id_mapping self;
     _entity_tag_specs := _entity_tag_specs self;
     model := v;
     _label_data := _label_data self;
     _data_example := _data_example self;
     finetune_mode := finetune_mode self |}.

Definition set_label_data (v : option RasaModelData)
    (self : DIETClassifier) : DIETClassifier :=
  {| component_config := component_config self;
     index_label_id_mapping := index_label_id_mapping self;
     _entity_tag_specs := _entity_tag_specs self;
     model := model self;
     _label_data := v;
     _data_example := _data_example self;
     finetune_mode := finetune_mode self |}.

Definition set_data_example
    (v : option (gmap string (gmap string (list FeatureArray))))
    (self : DIETClassifier) : DIETClassifier :=
  {| component_config := component_config self;
     index_label_id_mapping := index_label_id_mapping self;
     _entity_tag_specs := _entity_tag_specs self;
     model := model self;
     _label_data := _label_data self;
     _data_example := v;
     finetune_mode := finetune_mode self |}.

(** The methods and helpers that [train] and [process] call and that are
    treated as given: the BILOU helpers, the assembly of the model data,
    and the model's own methods. The log is that of the module's [logger];
    two of the helpers write to it, and their results say what they write.

    [_create_label_data] returns the label data and the records it logs:
    when the labels have no features it calls
    [_compute_default_label_features], which logs a debug record.

    [_instantiate_model_class] builds a [DIET] model and hands it the
    configuration dictionary of the classifier itself, not a copy. The
    construction of the model runs [_check_data] and [_log_metric_info],
    which log debug records, and [_check_data] sets [ENTITY_RECOGNITION]
    to [False] in that dictionary when the data has no entities. The
    result is the model, the configuration as the call leaves it, and the
    records logged. *)
Class Collaborators := {
  build_tag_id_dict : TrainingData → string → option (gmap string nat);
  apply_bilou_schema : TrainingData → TrainingData;
  _create_label_data :
    DIETClassifier → TrainingData → gmap string nat → string →
    Result (RasaModelData * list LogRecord);
  _create_model_data :
    DIETClassifier → list Message → option (gmap string nat) →
    option string → bool → Result RasaModelData;
  _check_input_dimension_consistency :
    DIETClassifier → RasaModelData → Result unit;
  check_correct_entity_annotations : TrainingData → Result unit;
  first_data_example :
    RasaModelData → gmap string (gmap string (list FeatureArray));
  _instantiate_model_class :
    DIETClassifier → RasaModelData →
    Result (RasaModel * ComponentConfig * list LogRecord);
  compile : RasaModel → RasaModel;
  fit : DIETClassifier → RasaModel → RasaModelData → Result RasaModel;
  rasa_predict : RasaModel → RasaModelData → Result (gmap string Prediction);
  normalize : list Q → Z → list Q;
  hash : string → Z;
  entity_label_to_tags :
    gmap string Prediction → option (list EntityTagSpec) → bool →
    Result (gmap string (list string) * gmap string (list Q));
  convert_predictions_into_entities :
    Message → gmap string (list string) → gmap string (list Q) →
    list (gmap string Atom);
  add_extractor_name : list (gmap string Atom) → list (gmap string Atom);
  unique_name : DIETClassifier → string;
}.
Context `{Collaborators}.

Definition LABEL_KEY : string := LABEL.
Definition LABEL_SUB_KEY : string := IDS.

(** [preprocess_train_data]: the data for training, the instance with
    its label index, label data and tag specs set, and the log. *)
Definition preprocess_train_data
    (self : DIETClassifier) (log : list LogRecord) (training_data : TrainingData)
    : Result (RasaModelData * DIETClassifier * TrainingData * list LogRecord) :=
  let training_data :=
    if BILOU_FLAG (component_config self) then apply_bilou_schema training_data
    else training_data in
  let label_id_index_mapping := _label_id_index_mapping training_data INTENT in
  if decide (label_id_index_mapping = ∅) then
    (* no labels are present to train *)
    Ok (empty_model_data, self, training_data, log)
  else
    let self :=
      set_index_label_id_mapping
        (Some (_invert_mapping label_id_index_mapping)) self in
    '(label_data, records) ←
      _create_label_data self training_data label_id_index_mapping INTENT;
    let log := log ++ records in
    let self := set_label_data (Some label_data) self in
    let self :=
      set_entity_tag_specs
        (Some (_create_entity_tag_specs build_tag_id_dict
                 (component_config self) training_data)) self in
    let label_attribute :=
      if INTENT_CLASSIFICATION (component_config self) then Some INTENT
      else None in
    md ← _create_model_data self (nlu_examples training_data)
           (Some label_id_index_mapping) label_attribute true;
    _ ← _check_input_dimension_consistency self md;
    Ok (md, self, training_data, log).

Definition _check_enough_labels (md : RasaModelData) : bool :=
  bool_decide (2 ≤ length (np_unique (get_features md LABEL_KEY LABEL_SUB_KEY))).

Definition no_data_message : string :=
  "Cannot train 'DIETClassifier'. No data was provided. "
  +:+ "Skipping training of the classifier.".

Definition not_enough_labels_message : string :=
  "Cannot train 'DIETClassifier'. "
  +:+ "Need at least 2 different intent classes. "
  +:+ "Skipping training of classifier.".

(** [train]: the instance and the log after the call. *)
Definition train
    (self : DIETClassifier) (log : list LogRecord) (training_data : TrainingData)
    : Result (DIETClassifier * list LogRecord) :=
  '(md, self, training_data, log) ← preprocess_train_data self log training_data;
  if is_empty md then
    Ok (self, log ++ [(DEBUG, no_data_message)])
  else if INTENT_CLASSIFICATION (component_config self)
          && negb (_check_enough_labels md) then
    Ok (self, log ++ [(ERROR, not_enough_labels_message)])
  else
    _ ← (if ENTITY_RECOGNITION (component_config self)
         then check_correct_entity_annotations training_data else Ok ());
    (* keep one example for persisting and loading *)
    let self := set_data_example (Some (first_data_example md)) self in
    '(self, log) ←
      (if negb (finetune_mode self) then
         (* no pre-trained model to load from: create a new instance *)
         '(m, config, records) ← _instantiate_model_class self md;
         let self := set_component_config config self in
         Ok (set_model (Some (compile m)) self, log ++ records)
       else Ok (self, log));
    match model self with
    | None => Raise (AttributeError "'NoneType' object has no attribute 'fit'")
    | Some m =>
        m ← fit self m md;
        Ok (set_model (Some m) self, log)
    end.

(** *** Prediction ([_predict], [_predict_label], [_predict_entities],
    [process]) *)

Definition no_model_message : string :=
  "There is no trained model for 'DIETClassifier': The "
  +:+ "component is either not trained or didn't receive enough training "
  +:+ "data.".

Definition _predict
    (self : DIETClassifier) (log : list LogRecord) (message : Message)
    : Result (option (gmap string Prediction) * list LogRecord) :=
  match model self with
  | None => Ok (None, log ++ [(DEBUG, no_model_message)])
  | Some m =>
      (* create session data from message and convert it into a batch of 1 *)
      md ← _create_model_data self [message] None None false;
      out ← rasa_predict m md;
      Ok (Some out, log)
  end.

(** [x.flatten()] on an entry of the prediction *)
Definition as_scores (p : Prediction) : Result (list Q) :=
  match p with
  | tensor a => Ok (flatten a)
  | tensor_dict _ => Raise (AttributeError "'dict' object has no attribute 'flatten'")
  end.

(** [ranking_length > 0] *)
Definition gt_zero (ranking_length : option Z) : Result bool :=
  match ranking_length with
  | Some r => Ok (0 <? r)%Z
  | None =>
      Raise (TypeError "'>' not supported between instances of 'NoneType' and 'int'")
  end.

(** The length the ranking is cut to: the configured one when it is true
    as a condition and lies strictly between 0 and [LABEL_RANKING_LENGTH]. *)
Definition output_length (config : ComponentConfig) : Z :=
  match RANKING_LENGTH config with
  | Some r =>
      if bool_decide (r ≠ 0%Z) && ((0 <? r)%Z && (r <? LABEL_RANKING_LENGTH)%Z)
      then r else LABEL_RANKING_LENGTH
  | None => LABEL_RANKING_LENGTH
  end.

(** [self.index_label_id_mapping[label_idx]] *)
Definition label_name (self : DIETClassifier) (label_idx : nat) : Result string :=
  match index_label_id_mapping self with
  | None => Raise (TypeError "'NoneType' object is not subscriptable")
  | Some mapping =>
      match mapping !! label_idx with
      | Some name => Ok name
      | None => Raise (KeyError (pretty label_idx))
      end
  end.

Definition label_dict (name : string) (confidence : Q) : gmap string Atom :=
  {[ "id" := AInt (hash name); "name" := AStr name;
     "confidence" := AFloat confidence ]}.

Definition null_label : gmap string Atom :=
  {[ "name" := ANone; "id" := ANone; "confidence" := AFloat 0 ]}.

Definition _predict_label
    (self : DIETClassifier) (predict_out : option (gmap string Prediction))
    : Result (gmap string Atom * list (gmap string Atom)) :=
  let label := null_label in
  let label_ranking := [] in
  match predict_out with
  | None => Ok (label, label_ranking)
  | Some predict_out =>
      message_sim ← getitem predict_out "i_scores";
      message_sim ← as_scores message_sim;
      let label_ids := reverse (argsort message_sim) in
      positive ← gt_zero (RANKING_LENGTH (component_config self));
      let message_sim :=
        if positive
           && bool_decide (MODEL_CONFIDENCE (component_config self) = SOFTMAX)
        then normalize message_sim
               (default 0%Z (RANKING_LENGTH (component_config self)))
        else message_sim in
      let message_sim := sort_reversed_view message_sim in
      (* if X contains all zeros do not predict some label *)
      if bool_decide (0 < length label_ids) then
        first_id ← getindex label_ids 0;
        name ← label_name self first_id;
        confidence ← getindex message_sim 0;
        let label := label_dict name confidence in
        let ranking := zip label_ids message_sim in
        let ranking := slice_to ranking (output_length (component_config self)) in
        label_ranking ←
          mapM (λ '(label_idx, score),
                  name ← label_name self label_idx;
                  Ok (label_dict name score)) ranking;
        Ok (label, label_ranking)
      else Ok (label, label_ranking)
  end.

Definition _predict_entities
    (self : DIETClassifier) (predict_out : option (gmap string Prediction))
    (message : Message) : Result (list (gmap string Atom)) :=
  match predict_out with
  | None => Ok []
  | Some predict_out =>
      '(predicted_tags, confidence_values) ←
        entity_label_to_tags predict_out (_entity_tag_specs self)
          (BILOU_FLAG (component_config self));
      let entities :=
        convert_predictions_into_entities message predicted_tags
          confidence_values in
      let entities := add_extractor_name entities in
      let entities := get_list message ENTITIES ++ entities in
      Ok entities
  end.

(** [process]: the message and the log after the call. *)
Definition process
    (self : DIETClassifier) (log : list LogRecord) (message : Message)
    : Result (Message * list LogRecord) :=
  '(out, log) ← _predict self log message;
  message ←
    (if INTENT_CLASSIFICATION (component_config self) then
       '(label, label_ranking) ← _predict_label self out;
       let message := set message INTENT (VDict label) in
       Ok (set message "intent_ranking" (VList label_ranking))
     else Ok message);
  message ←
    (if ENTITY_RECOGNITION (component_config self) then
       entities ← _predict_entities self out message;
       Ok (set message ENTITIES (VList entities))
     else Ok message);
  let message :=
    match out ≫= λ out, out !! DIAGNOSTIC_DATA with
    | Some d => add_diagnostic_data message (unique_name self) d
    | None => message
    end in
  Ok (message, log).

End classifier.

Arguments DIETClassifier : clear implicits.
Arguments Collaborators : clear implicits.

(** ** The model ([DIET]) *)

(** The tensor operations the model applies, as an interface. *)
Class TensorOps (Tensor : Type) := {
  (** [tf.pad(x, [[0, 0], [0, 1], [0, 0]])] *)
  pad_sentence : Tensor → Tensor;
  (** [tf.one_hot(tf.cast(x, tf.int32), depth)] *)
  one_hot : Tensor → nat → Tensor;
  (** [x[:, :, 0]] *)
  first_feature : Tensor → Tensor;
  (** [tf.concat([x, y], axis=-1)] *)
  concat_last : Tensor → Tensor → Tensor;
  (** [x - 1] *)
  minus_one : Tensor → Tensor;
  (** [x[:, tf.newaxis, :]] for axis 1 and [x[tf.newaxis, :, :]] for axis 0 *)
  new_axis : nat → Tensor → Tensor;
}.

Module DIET.
Section model.
Context `{Constants} {Tensor : Type} `{!TensorOps Tensor}.

(** The layers kept in [_tf_layers], by what can be called on them. *)
Inductive Layer :=
  | Embed (call : Tensor → Tensor)
  | CRF (call : Tensor → Tensor → Tensor * Tensor)
  | DotProductLoss
      (similarity_confidence_from_embeddings : Tensor → Tensor → Tensor * Tensor).

(** The attributes of a [DIET] instance. [metrics] lists the values the
    [Mean] metrics were updated with, by metric name. *)
Record Model := mkModel {
  config : ComponentConfig;
  _entity_tag_specs : list EntityTagSpec;
  _tf_layers : gmap string Layer;
  tf_label_data : gmap string (gmap string (list Tensor));
  label_name : string;
  all_labels_embed : option Tensor;
  metrics : list (string * Tensor);
}.

Definition set_all_labels_embed (v : option Tensor) (self : Model) : Model :=
  {| config := config self;
     _entity_tag_specs := _entity_tag_specs self;
     _tf_layers := _tf_layers self;
     tf_label_data := tf_label_data self;
     label_name := label_name self;
     all_labels_embed := v;
     metrics := metrics self |}.

Definition update_state (updates : list (string * Tensor)) (self : Model) : Model :=
  {| config := config self;
     _entity_tag_specs := _entity_tag_specs self;
     _tf_layers := _tf_layers self;
     tf_label_data := tf_label_data self;
     label_name := label_name self;
     all_labels_embed := all_labels_embed self;
     metrics := metrics self ++ updates |}.

(** Methods of [TransformerRasaModel], the parent class, which is outside
    the file. *)
Context (_calculate_entity_loss :
  Model → Tensor → Tensor → Tensor → Tensor → string → option Tensor →
  Result (Tensor * Tensor * Tensor)).
Context (_last_token : Tensor → Tensor → Tensor).
Context (_get_mask_for :
  gmap string (gmap string (list Tensor)) → string → string → option Tensor).
Context (_create_bow :
  Model → list Tensor → list Tensor → option Tensor → option Tensor → string →
  Result Tensor).

(** [self._tf_layers[key](x)] *)
Definition call_layer (self : Model) (key : string) (x : Tensor) : Result Tensor :=
  layer ← getitem (_tf_layers self) key;
  match layer with
  | Embed call => Ok (call x)
  | _ => Raise (TypeError "__call__() missing 1 required positional argument")
  end.

(** [self._tf_layers[key](x, y)] for a CRF layer *)
Definition call_crf (self : Model) (key : string) (x y : Tensor)
    : Result (Tensor * Tensor) :=
  layer ← getitem (_tf_layers self) key;
  match layer with
  | CRF call => Ok (call x y)
  | _ => Raise (TypeError "__call__() takes 2 positional arguments but 3 were given")
  end.

(** [data[key][sub_key]] on batch data, whose dictionaries give the empty
    list for a key they do not have *)
Definition batch_features
    (batch : gmap string (gmap string (list Tensor))) (key sub_key : string)
    : list Tensor :=
  default [] (batch !! key ≫= λ sub, sub !! sub_key).

Definition _ordered_tag_specs (entity_tag_specs : option (list EntityTagSpec))
    : list EntityTagSpec :=
  match entity_tag_specs with
  | None => []
  | Some entity_tag_specs =>
      let crf_order :=
        [ENTITY_ATTRIBUTE_TYPE; ENTITY_ATTRIBUTE_ROLE; ENTITY_ATTRIBUTE_GROUP] in
      crf_order ≫= λ name,
        filter (λ tag_spec, name = tag_name tag_spec) entity_tag_specs
  end.

Definition _update_entity_metrics
    (self : Model) (loss f1 : Tensor) (name : string) : Model :=
  if decide (name = ENTITY_ATTRIBUTE_TYPE) then
    update_state [("e_loss", loss); ("e_f1", f1)] self
  else if decide (name = ENTITY_ATTRIBUTE_GROUP) then
    update_state [("g_loss", loss); ("g_f1", f1)] self
  else if decide (name = ENTITY_ATTRIBUTE_ROLE) then
    update_state [("r_loss", loss); ("r_f1", f1)] self
  else self.

(** The loop of [_batch_loss_entities] over the tag specs that are left,
    with the tags of the entity type found so far, the losses collected so
    far and the instance as the metrics updates left it. *)
Fixpoint loss_loop
    (tag_specs : list EntityTagSpec)
    (mask_text sequence_lengths text_transformed : Tensor)
    (tf_batch_data : gmap string (gmap string (list Tensor)))
    (entity_tags : option Tensor) (losses : list Tensor) (self : Model)
    : Result (list Tensor * Model) :=
  match tag_specs with
  | [] => Ok (losses, self)
  | tag_spec :: tag_specs =>
      if decide (num_tags tag_spec = 0) then
        loss_loop tag_specs mask_text sequence_lengths text_transformed
          tf_batch_data entity_tags losses self
      else
        tag_ids ←
          getindex (batch_features tf_batch_data ENTITIES (tag_name tag_spec)) 0;
        (* add a zero (no entity) for the sentence features *)
        let tag_ids := pad_sentence tag_ids in
        '(loss, f1, _logits) ←
          _calculate_entity_loss self text_transformed tag_ids mask_text
            sequence_lengths (tag_name tag_spec) entity_tags;
        let entity_tags :=
          if decide (tag_name tag_spec = ENTITY_ATTRIBUTE_TYPE) then
            (* use the entity tags as additional input for the role and
               group CRF *)
            Some (one_hot (first_feature tag_ids) (num_tags tag_spec))
          else entity_tags in
        let self := _update_entity_metrics self loss f1 (tag_name tag_spec) in
        loss_loop tag_specs mask_text sequence_lengths text_transformed
          tf_batch_data entity_tags (losses ++ [loss]) self
  end.

Definition _batch_loss_entities
    (self : Model) (mask_text sequence_lengths text_transformed : Tensor)
    (tf_batch_data : gmap string (gmap string (list Tensor)))
    : Result (list Tensor * Model) :=
  let losses := [] in
  let sequence_lengths := minus_one sequence_lengths in (* remove sentence features *)
  let entity_tags := None in
  loss_loop (_entity_tag_specs self) mask_text sequence_lengths text_transformed
    tf_batch_data entity_tags losses self.

(** The loop of [_batch_predict_entities]. *)
Fixpoint predict_loop
    (self : Model) (tag_specs : list EntityTagSpec)
    (sequence_lengths text_transformed : Tensor)
    (entity_tags : option Tensor) (predictions : gmap string Tensor)
    : Result (gmap string Tensor) :=
  match tag_specs with
  | [] => Ok predictions
  | tag_spec :: tag_specs =>
      (* skip crf layer if it was not trained *)
      if decide (num_tags tag_spec = 0) then
        predict_loop self tag_specs sequence_lengths text_transformed
          entity_tags predictions
      else
        let name := tag_name tag_spec in
        let _input := text_transformed in
        _input ←
          match entity_tags with
          | Some entity_tags =>
              _tags ← call_layer self ("embed." +:+ name +:+ ".tags") entity_tags;
              Ok (concat_last _input _tags)
          | None => Ok _input
          end;
        _logits ← call_layer self ("embed." +:+ name +:+ ".logits") _input;
        '(pred_ids, confidences) ←
          call_crf self ("crf." +:+ name) _logits (minus_one sequence_lengths);
        let predictions := <["e_" +:+ name +:+ "_ids" := pred_ids]> predictions in
        let predictions :=
          <["e_" +:+ name +:+ "_scores" := confidences]> predictions in
        let entity_tags :=
          if decide (name = ENTITY_ATTRIBUTE_TYPE) then
            Some (one_hot pred_ids (num_tags tag_spec))
          else entity_tags in
        predict_loop self tag_specs sequence_lengths text_transformed
          entity_tags predictions
  end.

Definition _batch_predict_entities
    (self : Model) (sequence_lengths text_transformed : Tensor)
    : Result (gmap string Tensor) :=
  let predictions : gmap string Tensor := ∅ in
  let entity_tags := None in
  predict_loop self (_entity_tag_specs self) sequence_lengths text_transformed
    entity_tags predictions.

Definition _create_all_labels (self : Model) : Result (Tensor * Tensor) :=
  all_label_ids ←
    getindex (batch_features (tf_label_data self) LABEL_KEY LABEL_SUB_KEY) 0;
  let mask_sequence_label :=
    _get_mask_for (tf_label_data self) LABEL SEQUENCE_LENGTH in
  x ← _create_bow self
        (batch_features (tf_label_data self) LABEL SEQUENCE)
        (batch_features (tf_label_data self) LABEL SENTENCE)
        mask_sequence_label mask_sequence_label (label_name self);
  all_labels_embed ← call_layer self ("embed." +:+ LABEL) x;
  Ok (all_label_ids, all_labels_embed).

(** [prepare_for_predict]: the instance after the call. *)
Definition prepare_for_predict (self : Model) : Result Model :=
  if INTENT_CLASSIFICATION (config self) then
    '(_, all_labels_embed) ← _create_all_labels self;
    Ok (set_all_labels_embed (Some all_labels_embed) self)
  else Ok self.

Definition not_prepared_message : string :=
  "The model was not prepared for prediction. "
  +:+ "Call `prepare_for_predict` first.".

Definition _batch_predict_intents
    (self : Model) (sequence_lengths text_transformed : Tensor)
    : Result (gmap string Tensor) :=
  match all_labels_embed self with
  | None => Raise (ValueError not_prepared_message)
  | Some all_labels_embed =>
      (* get sentence feature vector for intent classification *)
      let sentence_vector := _last_token text_transformed sequence_lengths in
      sentence_vector_embed ← call_layer self ("embed." +:+ TEXT) sentence_vector;
      layer ← getitem (_tf_layers self) ("loss." +:+ LABEL);
      match layer with
      | DotProductLoss similarity_confidence_from_embeddings =>
          let '(_, scores) :=
            similarity_confidence_from_embeddings
              (new_axis 1 sentence_vector_embed) (new_axis 0 all_labels_embed) in
          Ok ({[ "i_scores" := scores ]} : gmap string Tensor)
      | _ =>
          Raise (AttributeError
            "object has no attribute 'similarity_confidence_from_embeddings'")
      end
  end.

(** *** Prediction for a batch ([batch_predict]) *)

(** An entry of the dictionary that [batch_predict] returns: a tensor, or
    for the diagnostic data a dictionary of tensors. *)
Inductive Output :=
  | output (t : Tensor)
  | outputs (d : gmap string Tensor).

(** Further methods of [RasaModel] and [TransformerRasaModel], and the
    signature of the data for prediction that the instance keeps. *)
Context (DataSignature : Type).
Context (predict_data_signature : Model → DataSignature).
Context (batch_to_model_data_format :
  list Tensor → DataSignature → gmap string (gmap string (list Tensor))).
Context (_get_sequence_lengths :
  gmap string (gmap string (list Tensor)) → string → string → Z → Tensor).
Context (_compute_mask : Tensor → Tensor).
Context (_create_sequence :
  Model → list Tensor → list Tensor → option Tensor → Tensor → string →
  Result (Tensor * Tensor * Tensor * Tensor * Tensor)).

(** [predictions.update(d)]: the entries of [d] are written over those of
    [predictions]. *)
Definition update (predictions : gmap string Output) (d : gmap string Tensor)
    : gmap string Output :=
  (output <$> d) ∪ predictions.

(** [batch_predict]; [self.text_name] is [TEXT], as [_prepare_layers]
    sets it. *)
Definition batch_predict (self : Model) (batch_in : list Tensor)
    : Result (gmap string Output) :=
  let tf_batch_data :=
    batch_to_model_data_format batch_in (predict_data_signature self) in
  let mask_sequence_text := _get_mask_for tf_batch_data TEXT SEQUENCE_LENGTH in
  let sequence_lengths :=
    _get_sequence_lengths tf_batch_data TEXT SEQUENCE_LENGTH 1 in
  let mask := _compute_mask sequence_lengths in
  '(text_transformed, _, _, _, attention_weights) ←
    _create_sequence self
      (batch_features tf_batch_data TEXT SEQUENCE)
      (batch_features tf_batch_data TEXT SENTENCE)
      mask_sequence_text mask TEXT;
  let predictions : gmap string Output :=
    {[ DIAGNOSTIC_DATA :=
         outputs {[ "attention_weights" := attention_weights;
                    "text_transformed" := text_transformed ]} ]} in
  predictions ←
    (if INTENT_CLASSIFICATION (config self) then
       d ← _batch_predict_intents self sequence_lengths text_transformed;
       Ok (update predictions d)
     else Ok predictions);
  predictions ←
    (if ENTITY_RECOGNITION (config self) then
       d ← _batch_predict_entities self sequence_lengths text_transformed;
       Ok (update predictions d)
     else Ok predictions);
  Ok predictions.

End model.

Arguments Layer : clear implicits.
Arguments Model : clear implicits.
Arguments Output : clear implicits.
End DIET.

(** ** Scenario data *)

(** A training example that carries only an intent. *)
Definition intent_example (intent : string) : Message :=
  {| data := {[ "intent" := VStr intent ]}; diagnostic_data := ∅ |}.

(** Three examples with the intents greet, greet and bye. *)
Definition greet_bye_corpus : TrainingData :=
  {| intent_examples :=
       [intent_example "greet"; intent_example "greet"; intent_example "bye"];
     nlu_examples :=
       [intent_example "greet"; intent_example "greet"; intent_example "bye"];
     entities := ∅; entity_roles := ∅; entity_groups := ∅ |}.

(** Two examples that share the one intent greet. *)
Definition single_intent_corpus : TrainingData :=
  {| intent_examples := [intent_example "greet"; intent_example "greet"];
     nlu_examples := [intent_example "greet"; intent_example "greet"];
     entities := ∅; entity_roles := ∅; entity_groups := ∅ |}.

(** A corpus whose entities are of the type city or carry no type. *)
Definition city_corpus : TrainingData :=
  {| intent_examples := []; nlu_examples := [];
     entities := {[ Some "city"; None ]};
     entity_roles := ∅; entity_groups := ∅ |}.

(** Values for the imported constants, with the no-entity tag written as
    in the scenario of the specification. *)
Definition scenario_constants : Constants :=
  {| TEXT := "text"; INTENT := "intent";
     INTENT_RESPONSE_KEY := "intent_response_key"; ENTITIES := "entities";
     ENTITY_ATTRIBUTE_TYPE := "entity"; ENTITY_ATTRIBUTE_ROLE := "role";
     ENTITY_ATTRIBUTE_GROUP := "group"; NO_ENTITY_TAG := "no-entity";
     LABEL := "label"; IDS := "ids"; SEQUENCE := "sequence";
     SENTENCE := "sentence"; SEQUENCE_LENGTH := "sequence_lengths";
     SOFTMAX := "softmax"; DIAGNOSTIC_DATA := "diagnostic_data";
     LABEL_RANKING_LENGTH := 10 |}.

(** An entity as the classifier would predict it. *)
Definition predicted_entity : gmap string Atom :=
  {[ "entity" := AStr "city"; "value" := AStr "Berlin";
     "start" := AInt 11; "end" := AInt 17;
     "extractor" := AStr "DIETClassifier" ]}.

(** A stand-in for the trained model: it predicts the scores it holds. *)
Inductive ScoreModel :=
  | score_model (scores : ndarray).

(** The label ids of the examples, as the [label]/[ids] feature. *)
Definition scenario_model_data
    (messages : list Message) (label_id_dict : option (gmap string nat))
    : RasaModelData :=
  let ids :=
    omap (λ message,
            intent ← get_text message "intent";
            d ← label_id_dict;
            idx ← d !! intent;
            Some [inject_Z (Z.of_nat idx)]) messages in
  {| label_key := Some "label"; label_sub_key := Some "ids";
     model_data :=
       {[ "label" := {[ "ids" := [ {| values := ids; number_of_dimensions := 2 |} ] ]};
          "text" := {[ "sentence" := [] ]} ]} |}.

(** Scores divided by their sum when it is positive. *)
Definition scenario_normalize (v : list Q) (ranking_length : Z) : list Q :=
  let total := foldr Qplus 0%Q v in
  if Qltb 0 total then (λ x, Qred (x / total)) <$> v else v.

(** The record that [_compute_default_label_features] logs. *)
Definition default_label_features_record : LogRecord :=
  (DEBUG, "No label features found. Computing default label features.").

(** The record that [DIET._check_data] logs when it turns entity
    recognition off. *)
Definition no_entities_record : LogRecord :=
  (DEBUG, "You specified 'DIET' to train entities, but "
     +:+ "no entities are present in the training data. Skipping training of "
     +:+ "entities.").

(** [config[ENTITY_RECOGNITION] = False] *)
Definition without_entity_recognition (config : ComponentConfig) : ComponentConfig :=
  {| NUM_TRANSFORMER_LAYERS := NUM_TRANSFORMER_LAYERS config;
     RANKING_LENGTH := RANKING_LENGTH config;
     INTENT_CLASSIFICATION := INTENT_CLASSIFICATION config;
     ENTITY_RECOGNITION := false;
     BILOU_FLAG := BILOU_FLAG config;
     FEATURIZERS := FEATURIZERS config;
     MODEL_CONFIDENCE := MODEL_CONFIDENCE config |}.

(** Stand-ins for the helpers, for corpora whose labels have no features
    and whose examples have no entities: the label data is built with the
    default features, and the model that is instantiated turns entity
    recognition off. *)
Definition scenario_collaborators : Collaborators ScoreModel :=
  {| build_tag_id_dict := λ _ _, None;
     apply_bilou_schema := λ training_data, training_data;
     _create_label_data := λ _ _ _ _,
       Ok (empty_model_data, [default_label_features_record]);
     _create_model_data := λ _ messages label_id_dict _ _,
       Ok (scenario_model_data messages label_id_dict);
     _check_input_dimension_consistency := λ _ _, Ok ();
     check_correct_entity_annotations := λ _, Ok ();
     first_data_example := model_data;
     _instantiate_model_class := λ self _,
       Ok (score_model [],
           without_entity_recognition (component_config self),
           [no_entities_record]);
     compile := λ m, m;
     fit := λ _ m _, Ok m;
     rasa_predict := λ m _,
       match m with
       | score_model scores => Ok {[ "i_scores" := tensor scores ]}
       end;
     normalize := scenario_normalize;
     hash := λ name, Z.of_nat (String.length name);
     entity_label_to_tags := λ _ _ _, Ok (∅, ∅);
     convert_predictions_into_entities := λ _ _ _, [predicted_entity];
     add_extractor_name := λ entities, entities;
     unique_name := λ _, "DIETClassifier" |}.

Definition scenario_config (ranking_length : option Z) : ComponentConfig :=
  {| NUM_TRANSFORMER_LAYERS := 2; RANKING_LENGTH := ranking_length;
     INTENT_CLASSIFICATION := true; ENTITY_RECOGNITION := true;
     BILOU_FLAG := false; FEATURIZERS := [];
     MODEL_CONFIDENCE := "linear_norm" |}.

(** A classifier that has not been trained. *)
Definition untrained_classifier : DIETClassifier ScoreModel :=
  {| component_config := scenario_config (Some 10%Z);
     index_label_id_mapping := None; _entity_tag_specs := None;
     model := None; _label_data := None; _data_example := None;
     finetune_mode := false |}.

Definition five_intents : gmap nat string :=
  {[ 0 := "affirm"; 1 := "bye"; 2 := "deny"; 3 := "greet"; 4 := "thanks" ]}.

(** Similarities of five intents, the first two of them equal. *)
Definition tied_scores : list Q := [1#2; 1#2; 1#4; 1#4; 1#10]%Q.

(** A trained classifier with five intents and the given ranking length. *)
Definition trained_classifier (ranking_length : option Z)
    : DIETClassifier ScoreModel :=
  {| component_config := scenario_config ranking_length;
     index_label_id_mapping := Some five_intents; _entity_tag_specs := Some [];
     model := Some (score_model [tied_scores]);
     _label_data := None; _data_example := None;
     finetune_mode := false |}.

Definition tied_prediction : gmap string Prediction :=
  {[ "i_scores" := tensor [tied_scores] ]}.

(** What [_predict_label] returns for the tied similarities and ranking
    length 2, with a given [argsort]. *)
Definition tied_ranking (numpy : Numpy)
    : Result (gmap string Atom * list (gmap string Atom)) :=
  @_predict_label scenario_constants numpy ScoreModel scenario_collaborators
    (trained_classifier (Some 2%Z)) (Some tied_prediction).

(** An entity found by an extractor earlier in the pipeline. *)
Definition upstream_entity : gmap string Atom :=
  {[ "entity" := AStr "city"; "value" := AStr "Berlin";
     "start" := AInt 11; "end" := AInt 17;
     "extractor" := AStr "RegexEntityExtractor" ]}.

Definition upstream_message : Message :=
  {| data := {[ "text" := VStr "a flight to Berlin";
                "entities" := VList [upstream_entity] ]};
     diagnostic_data := ∅ |}.

(** Sequence features of three tokens in the sparse matrix and of two in
    the dense one; sentence features of one row each. *)
Definition three_token_sparse : option Features * option Features :=
  (Some {| features := sparse_matrix 3 4 [(0, 1, 1%Q)] |},
   Some {| features := sparse_matrix 1 4 [] |}).

Definition two_token_dense : option Features * option Features :=
  (Some {| features := dense_matrix [[1%Q; 0%Q]; [0%Q; 1%Q]] |},
   Some {| features := dense_matrix [[1%Q; 1%Q]] |}).

Definition three_token_dense : option Features * option Features :=
  (Some {| features := dense_matrix [[1%Q]; [0%Q]; [1%Q]] |},
   Some {| features := dense_matrix [[1%Q]] |}).

(** * Further parts of the classifier and of the model *)

(** ** Examples for the labels ([_find_example_for_label], [_create_label_data]) *)

Fixpoint _find_example_for_label
    (label : string) (examples : list Message) (attribute : string)
    : option Message :=
  match examples with
  | [] => None
  | ex :: examples =>
      if decide (get_text ex attribute = Some label) then Some ex
      else _find_example_for_label label examples attribute
  end.

(** [key=lambda x: x[0]]: the pairs are compared by their id. *)
Definition by_idx (x y : nat * option Message) : Prop := x.1 ≤ y.1.

Global Instance by_idx_dec : RelDecision by_idx.
Proof. intros x y. unfold by_idx. apply _. Defined.

(** The first step of [_create_label_data]: one example for each label,
    found among the intent examples, and the pairs sorted by the id of the
    label. The ids of a label index are distinct, so that the order of the
    items of the dictionary plays no part in the sorted list. *)
Definition labels_idx_examples
    (training_data : TrainingData) (label_id_dict : gmap string nat)
    (attribute : string) : list (nat * option Message) :=
  let labels_idx_examples :=
    (λ '(label_name, idx),
       (idx, _find_example_for_label label_name
               (intent_examples training_data) attribute))
      <$> map_to_list label_id_dict in
  merge_sort by_idx labels_idx_examples.

(** [[example for (_, example) in labels_idx_examples]] *)
Definition labels_example
    (training_data : TrainingData) (label_id_dict : gmap string nat)
    (attribute : string) : list (option Message) :=
  snd <$> labels_idx_examples training_data label_id_dict attribute.

(** [np.array([idx for (idx, _) in labels_idx_examples])] *)
Definition label_data_ids
    (training_data : TrainingData) (label_id_dict : gmap string nat)
    (attribute : string) : list nat :=
  fst <$> labels_idx_examples training_data label_id_dict attribute.

(** ** Further scenario data *)

Global Instance EntityTagSpec_eq_dec : EqDecision EntityTagSpec.
Proof. solve_decision. Defined.

(** The tag spec of the entity type for the corpus with the one type city. *)
Definition city_tag_spec : EntityTagSpec :=
  {| tag_name := "entity";
     ids_to_tags := {[ 0 := "no-entity"; 1 := "city" ]};
     tags_to_ids := {[ "city" := 1; "no-entity" := 0 ]};
     num_tags := 2 |}.

(** A tag spec of the roles, with the roles origin and destination. *)
Definition role_tag_spec : EntityTagSpec :=
  {| tag_name := "role";
     ids_to_tags := {[ 0 := "no-entity"; 1 := "destination"; 2 := "origin" ]};
     tags_to_ids := {[ "destination" := 1; "no-entity" := 0; "origin" := 2 ]};
     num_tags := 3 |}.

(** A model whose tensors are integers, with an embedding of the text, the
    loss layer of the labels and the layers of the entity type, prepared
    for prediction. *)
Definition integer_ops : TensorOps Z :=
  {| pad_sentence := λ x, x;
     one_hot := λ x _, x;
     first_feature := λ x, x;
     concat_last := Z.add;
     minus_one := Z.pred;
     new_axis := λ _ x, x |}.

Definition scenario_model : DIET.Model Z :=
  {| DIET.config := scenario_config (Some 10%Z);
     DIET._entity_tag_specs := [city_tag_spec];
     DIET._tf_layers :=
       {[ "embed.text" := DIET.Embed (λ x, x);
          "loss.label" := DIET.DotProductLoss (λ x y, (x, x * y)%Z);
          "embed.entity.logits" := DIET.Embed (λ x, x);
          "crf.entity" := DIET.CRF (λ x y, (x, y)) ]};
     DIET.tf_label_data := ∅;
     DIET.label_name := "label";
     DIET.all_labels_embed := Some 1%Z;
     DIET.metrics := [] |}.

(** [batch_predict] of that model, with stand-ins for the methods of the
    parent class. *)
Definition scenario_batch_predict (batch_in : list Z)
    : Result (gmap string (DIET.Output Z)) :=
  @DIET.batch_predict scenario_constants Z integer_ops
    (λ x _, x) (λ _ _ _, None) unit (λ _, ()) (λ _ _, ∅) (λ _ _ _ _, 3%Z)
    (λ x, x) (λ _ _ _ _ _ _, Ok (1, 1, 1, 1, 1)%Z)
    scenario_model batch_in.

(** * Properties *)

(** A closed equation between values with decidable equality, settled by
    evaluating the decision. *)
Ltac by_evaluation := apply (bool_decide_eq_true_1 _); vm_compute; reflexivity.

(** ** The order on texts *)

Lemma ascii_compare_lt_trans a b c :
  Ascii.compare a b = Lt → Ascii.compare b c = Lt → Ascii.compare a c = Lt.
Proof.
  unfold Ascii.compare. rewrite !N.compare_lt_iff. apply N.lt_trans.
Qed.

Lemma ascii_compare_refl a : Ascii.compare a a = Eq.
Proof. unfold Ascii.compare. apply N.compare_refl. Qed.

Lemma str_compare_refl s : String.compare s s = Eq.
Proof. induction s as [|a s IH]; simpl; [done|]. by rewrite ascii_compare_refl. Qed.

Lemma str_compare_lt_trans s1 s2 s3 :
  String.compare s1 s2 = Lt → String.compare s2 s3 = Lt →
  String.compare s1 s3 = Lt.
Proof.
  revert s2 s3. induction s1 as [|a s1 IH]; intros [|b s2] [|c s3]; simpl; try done.
  destruct (Ascii.compare a b) eqn:Hab; try done.
  - apply Ascii.compare_eq_iff in Hab as ->.
    destruct (Ascii.compare b c); try done. apply IH.
  - destruct (Ascii.compare b c) eqn:Hbc; try done.
    + apply Ascii.compare_eq_iff in Hbc as <-. by rewrite Hab.
    + by rewrite (ascii_compare_lt_trans _ _ _ Hab Hbc).
Qed.

Lemma str_le_lt_eq s1 s2 : str_le s1 s2 ↔ str_lt s1 s2 ∨ s1 = s2.
Proof.
  unfold str_le, str_lt, String.leb, String.ltb. split.
  - destruct (String.compare s1 s2) eqn:H; try done; [|by left].
    right. by apply String.compare_eq_iff.
  - intros [H| ->]; [by destruct (String.compare s1 s2)|].
    by rewrite str_compare_refl.
Qed.

Lemma str_lt_irrefl s : ¬ str_lt s s.
Proof. unfold str_lt, String.ltb. by rewrite str_compare_refl. Qed.

Lemma str_lt_trans s1 s2 s3 : str_lt s1 s2 → str_lt s2 s3 → str_lt s1 s3.
Proof.
  unfold str_lt, String.ltb. intros H1 H2.
  destruct (String.compare s1 s2) eqn:E1; try done.
  destruct (String.compare s2 s3) eqn:E2; try done.
  by rewrite (str_compare_lt_trans _ _ _ E1 E2).
Qed.

Global Instance str_le_refl : Reflexive str_le.
Proof. intros s. apply str_le_lt_eq. by right. Qed.

Global Instance str_le_trans : Transitive str_le.
Proof.
  intros s1 s2 s3. rewrite !str_le_lt_eq.
  intros [H1| ->] [H2| ->]; eauto using str_lt_trans.
Qed.

Global Instance str_le_antisym : AntiSymm (=) str_le.
Proof. intros s1 s2. apply String.leb_antisym. Qed.

Global Instance str_le_total : Total str_le.
Proof. intros s1 s2. apply String.leb_total. Qed.

Global Instance str_lt_trans_inst : Transitive str_lt.
Proof. intros s1 s2 s3. apply str_lt_trans. Qed.

Lemma StronglySorted_str_le_lt l :
  StronglySorted str_le l → NoDup l → StronglySorted str_lt l.
Proof.
  induction 1 as [|x l Hl IH Hx]; intros Hnd; [constructor|].
  apply NoDup_cons in Hnd as [Hx' Hnd]. constructor; [by apply IH|].
  rewrite Forall_forall in Hx |- *. intros y Hy.
  destruct (proj1 (str_le_lt_eq x y) (Hx y Hy)) as [?| ->]; done.
Qed.

Lemma StronglySorted_str_lt_le l :
  StronglySorted str_lt l → StronglySorted str_le l.
Proof.
  induction 1 as [|x l Hl IH Hx]; constructor; [done|].
  eapply Forall_impl; [done|]. intros y Hy. apply str_le_lt_eq. by left.
Qed.

Lemma StronglySorted_str_lt_NoDup l : StronglySorted str_lt l → NoDup l.
Proof.
  induction 1 as [|x l Hl IH Hx]; constructor; [|done].
  intros Hin. rewrite Forall_forall in Hx. by apply Hx, str_lt_irrefl in Hin.
Qed.

(** Two strictly increasing lists with the same members are the same list. *)
Lemma StronglySorted_str_lt_unique l1 l2 :
  StronglySorted str_lt l1 → StronglySorted str_lt l2 →
  (∀ s, s ∈ l1 ↔ s ∈ l2) → l1 = l2.
Proof.
  intros H1 H2 Hel.
  apply (StronglySorted_unique str_le); auto using StronglySorted_str_lt_le.
  apply NoDup_Permutation; auto using StronglySorted_str_lt_NoDup.
Qed.

Lemma NoDup_omap_id {A} (l : list (option A)) : NoDup l → NoDup (omap id l).
Proof.
  induction 1 as [|x l Hx Hl IH]; [constructor|].
  destruct x as [a|]; simpl; [|done].
  constructor; [|done]. rewrite list_elem_of_omap.
  intros ([b|] & Hb & ?); simplify_eq/=. done.
Qed.

Lemma sorted_elem_of X s : s ∈ sorted X ↔ Some s ∈ X.
Proof.
  unfold sorted. rewrite merge_sort_Permutation, list_elem_of_omap.
  setoid_rewrite elem_of_elements. split.
  - intros ([b|] & Hb & ?); simplify_eq/=. done.
  - intros ?. by exists (Some s).
Qed.

Lemma sorted_NoDup X : NoDup (sorted X).
Proof.
  unfold sorted. rewrite merge_sort_Permutation.
  apply NoDup_omap_id, NoDup_elements.
Qed.

Lemma sorted_StronglySorted X : StronglySorted str_lt (sorted X).
Proof.
  apply StronglySorted_str_le_lt; [|apply sorted_NoDup].
  apply StronglySorted_merge_sort; apply _.
Qed.

(** Nothing is lost by reading the members of [X - {None}] as [str]. *)
Lemma sorted_no_None (X : gset (option string)) :
  Some <$> omap id (elements (X ∖ {[None]})) = elements (X ∖ {[None]}).
Proof.
  assert (Forall (λ o : option string, o ≠ None) (elements (X ∖ {[None]}))) as H.
  { apply Forall_forall. intros o ?%elem_of_elements. set_solver. }
  induction H as [|[a|] l Ha Hl IH]; csimpl; [done| |done].
  by f_equal.
Qed.

Lemma enumerate_lookup {A} (l : list A) start i x :
  (i, x) ∈ enumerate l start ↔ ∃ j, i = start + j ∧ l !! j = Some x.
Proof.
  unfold enumerate. rewrite list_elem_of_lookup.
  setoid_rewrite list_lookup_imap. split.
  - intros (j & Hj). exists j. destruct (l !! j); simplify_eq/=. done.
  - intros (j & -> & Hj). exists j. by rewrite Hj.
Qed.

Lemma enumerate_snd {A} (l : list A) start : (enumerate l start).*2 = l.
Proof.
  unfold enumerate. revert start. induction l as [|x l IH]; intros start; [done|].
  simpl. f_equal. rewrite <-(IH (S start)) at 2. f_equal.
  apply imap_ext. intros; simpl. f_equal. lia.
Qed.

Lemma dict_comprehension_foldl pairs (d : gmap string nat) s i :
  NoDup (pairs.*2) →
  foldl (λ d '(idx, key), <[key := idx]> d) d pairs !! s = Some i ↔
  (i, s) ∈ pairs ∨ (s ∉ pairs.*2 ∧ d !! s = Some i).
Proof.
  revert d. induction pairs as [|[j k] pairs IH]; intros d Hnd; simpl.
  { set_solver. }
  apply NoDup_cons in Hnd as [Hk Hnd]. rewrite IH by done.
  rewrite elem_of_cons, not_elem_of_cons. split.
  - intros [?|[Hs Hl]]; [by left; right|].
    destruct (decide (k = s)) as [->|Hne].
    + rewrite lookup_insert_eq in Hl. simplify_eq. by left; left.
    + rewrite lookup_insert_ne in Hl by done. by right.
  - intros [[?|?]|[[Hne Hs] Hl]]; simplify_eq.
    + right. split; [done|]. by rewrite lookup_insert_eq.
    + by left.
    + right. split; [done|]. by rewrite lookup_insert_ne.
Qed.

Lemma dict_comprehension_enumerate l start s i :
  NoDup l →
  dict_comprehension (enumerate l start) !! s = Some i ↔
  ∃ j, i = start + j ∧ l !! j = Some s.
Proof.
  intros Hnd. unfold dict_comprehension.
  rewrite dict_comprehension_foldl by (by rewrite enumerate_snd).
  rewrite enumerate_lookup, lookup_empty. naive_solver.
Qed.


(** ** The label index *)

Lemma elem_of_distinct_labels (l : list (option string)) s :
  Some s ∈ (list_to_set l ∖ {[None]} : gset (option string)) ↔ Some s ∈ l.
Proof. rewrite elem_of_difference, elem_of_list_to_set. set_solver. Qed.

(** C1: the label index gives the distinct non-null values of the label
    attribute, taken in increasing order of text, the ids 0, 1, ..., N-1: a
    text has id [i] exactly when it is the [i]-th of that sorted list. The
    index depends only on the set of values, so that a corpus with the same
    values in another order or with other repetitions has the same index.
    This holds for every corpus, in particular for one with two distinct
    intents or more; the intents greet, greet, bye give bye 0 and greet 1. *)
Theorem label_id_index_mapping_sorted_contiguous
    (training_data : TrainingData) (attribute : string) :
  (∃ labels : list string,
    StronglySorted str_lt labels ∧
    (∀ s, s ∈ labels ↔ Some s ∈ label_values training_data attribute) ∧
    (∀ s i, _label_id_index_mapping training_data attribute !! s = Some i ↔
            labels !! i = Some s) ∧
    (∀ i, i < length labels ↔
          ∃ s, _label_id_index_mapping training_data attribute !! s = Some i)) ∧
  (∀ training_data',
    (∀ s, Some s ∈ label_values training_data' attribute ↔
          Some s ∈ label_values training_data attribute) →
    _label_id_index_mapping training_data' attribute =
    _label_id_index_mapping training_data attribute) ∧
  _label_id_index_mapping greet_bye_corpus "intent" =
    {[ "bye" := 0; "greet" := 1 ]}.
Proof.
  split; [|split].
  - exists (sorted (list_to_set (label_values training_data attribute) ∖ {[None]})).
    split; [apply sorted_StronglySorted|].
    split; [intros s; by rewrite sorted_elem_of, elem_of_distinct_labels|].
    assert (∀ s i, _label_id_index_mapping training_data attribute !! s = Some i ↔
      sorted (list_to_set (label_values training_data attribute) ∖ {[None]}) !! i
        = Some s) as Hlookup.
    { intros s i. unfold _label_id_index_mapping.
      rewrite dict_comprehension_enumerate by apply sorted_NoDup. naive_solver. }
    split; [done|]. intros i. rewrite <-lookup_lt_is_Some. unfold is_Some.
    by setoid_rewrite Hlookup.
  - intros training_data' Hsame. unfold _label_id_index_mapping. do 2 f_equal.
    apply StronglySorted_str_lt_unique; try apply sorted_StronglySorted.
    intros s. by rewrite !sorted_elem_of, !elem_of_distinct_labels.
  - by_evaluation.
Qed.

(** ** The tag index *)

Section tag_index.
Context `{Constants}.

(** The real tags of an attribute: its tag values other than [None] and
    the no-entity tag. *)
Lemma elem_of_real_tags (X : gset (option string)) tag :
  Some tag ∈ X ∖ {[Some NO_ENTITY_TAG]} ∖ {[None]} ↔
  Some tag ∈ X ∧ tag ≠ NO_ENTITY_TAG.
Proof. rewrite !elem_of_difference, !elem_of_singleton. naive_solver. Qed.

Lemma real_tags_empty (X : gset (option string)) :
  X ∖ {[Some NO_ENTITY_TAG]} ∖ {[None]} = ∅ ↔
  ∀ tag, Some tag ∈ X → tag = NO_ENTITY_TAG.
Proof.
  split.
  - intros Hempty tag Htag. destruct (decide (tag = NO_ENTITY_TAG)); [done|].
    assert (Some tag ∈ X ∖ {[Some NO_ENTITY_TAG]} ∖ {[None]}) as Hin
      by by apply elem_of_real_tags.
    rewrite Hempty in Hin. set_solver.
  - intros Hall. apply set_eq. intros [tag|]; [|set_solver].
    rewrite elem_of_real_tags. split; [|set_solver].
    intros [Htag Hne]. by apply Hall in Htag.
Qed.

Lemma tag_id_index_mapping_None tag_name training_data :
  _tag_id_index_mapping_for tag_name training_data = None ↔
  ∀ tag, Some tag ∈ tags_of tag_name training_data → tag = NO_ENTITY_TAG.
Proof.
  unfold _tag_id_index_mapping_for. rewrite <-real_tags_empty.
  case_decide; naive_solver.
Qed.

(** C2: when the attribute has a real tag, the tag index sends the
    no-entity tag to 0 and the real tags, in increasing order of text, to
    1, 2, ..., K, wherever the no-entity tag would fall in that order. *)
Theorem tag_id_index_mapping_reserves_zero
    (tag_name : string) (training_data : TrainingData) :
  (∃ tag, Some tag ∈ tags_of tag_name training_data ∧ tag ≠ NO_ENTITY_TAG) →
  ∃ (mapping : gmap string nat) (tags : list string),
    _tag_id_index_mapping_for tag_name training_data = Some mapping ∧
    mapping !! NO_ENTITY_TAG = Some 0 ∧
    StronglySorted str_lt tags ∧
    (∀ tag, tag ∈ tags ↔
            Some tag ∈ tags_of tag_name training_data ∧ tag ≠ NO_ENTITY_TAG) ∧
    (∀ tag i, mapping !! tag = Some i ↔
              (tag = NO_ENTITY_TAG ∧ i = 0) ∨ (∃ j, i = S j ∧ tags !! j = Some tag)).
Proof.
  intros (tag0 & Htag0 & Hne0).
  set (real := tags_of tag_name training_data ∖ {[Some NO_ENTITY_TAG]} ∖ {[None]}).
  assert (∀ tag, tag ∈ sorted real ↔
    Some tag ∈ tags_of tag_name training_data ∧ tag ≠ NO_ENTITY_TAG) as Hmem.
  { intros tag. unfold real. by rewrite sorted_elem_of, elem_of_real_tags. }
  exists (<[NO_ENTITY_TAG := 0]> (dict_comprehension (enumerate (sorted real) 1))),
    (sorted real).
  split.
  { unfold _tag_id_index_mapping_for. fold real. case_decide as Hempty; [|done].
    assert (Some tag0 ∈ real) as Hin by by apply elem_of_real_tags.
    clearbody real.
    rewrite Hempty in Hin. set_solver. }
  split; [apply lookup_insert_eq|].
  split; [apply sorted_StronglySorted|].
  split; [done|].
  intros tag i. destruct (decide (NO_ENTITY_TAG = tag)) as [<-|Hne].
  - rewrite lookup_insert_eq. split.
    + intros [= <-]. by left.
    + intros [[_ ->]|(j & -> & Hj)]; [done|].
      apply list_elem_of_lookup_2, Hmem in Hj. naive_solver.
  - rewrite lookup_insert_ne by done.
    rewrite dict_comprehension_enumerate by apply sorted_NoDup. naive_solver.
Qed.

End tag_index.

(** ** Agreement of sparse and dense features *)

Section extract_features_properties.
Context `{Constants}.
Context (get_sparse_features get_dense_features :
  Message → string → list string → option Features * option Features).

Lemma check_first_dimension_disagree dense sparse error :
  check_first_dimension dense sparse error =
  if disagree dense sparse then Raise error else Ok ().
Proof.
  unfold check_first_dimension, disagree.
  destruct dense, sparse; try done. by case_decide; case_bool_decide.
Qed.

(** C5: feature extraction raises a [ValueError] when the sparse and the
    dense features of one granularity, sequence or sentence, are both
    present with different first dimensions, and it returns the feature
    dictionary, raising nothing, when neither granularity disagrees. *)
Theorem extract_features_first_dimension
    (config : ComponentConfig) (message : Message) (attribute : string) :
  let sparse := get_sparse_features message attribute (FEATURIZERS config) in
  let dense := get_dense_features message attribute (FEATURIZERS config) in
  let result :=
    _extract_features get_sparse_features get_dense_features
      config message attribute in
  (disagree dense.1 sparse.1 || disagree dense.2 sparse.2 = true →
     ∃ msg, result = Raise (ValueError msg)) ∧
  (disagree dense.1 sparse.1 = true →
     result = Raise (sequence_mismatch_error message attribute)) ∧
  (disagree dense.1 sparse.1 = false → disagree dense.2 sparse.2 = true →
     result = Raise (sentence_mismatch_error message attribute)) ∧
  (disagree dense.1 sparse.1 = false → disagree dense.2 sparse.2 = false →
     is_Ok result).
Proof.
  intros sparse dense result. subst sparse dense result.
  unfold _extract_features.
  destruct (get_sparse_features _ _ _) as [sseq ssen].
  destruct (get_dense_features _ _ _) as [dseq dsen]. simpl.
  rewrite !check_first_dimension_disagree.
  destruct (disagree dseq sseq), (disagree dsen ssen); simpl;
    repeat split; try done; intros; by eexists.
Qed.

End extract_features_properties.

(** ** The training guard *)

Lemma bind_Ok {A B} (c : Result A) (k : A → Result B) b :
  c ≫= k = Ok b ↔ ∃ a, c = Ok a ∧ k a = Ok b.
Proof. destruct c; simpl; naive_solver. Qed.

Section train_properties.
Context `{Constants} {RasaModel : Type} `{!Collaborators RasaModel}.

(** Preprocessing sets the label index, the label data and the tag specs,
    leaves the model and the configuration as they were, and adds to the
    log the records that the making of the label data logs. *)
Lemma preprocess_train_data_frame self log training_data md self' training_data' log' :
  preprocess_train_data self log training_data = Ok (md, self', training_data', log') →
  model self' = model self ∧ component_config self' = component_config self ∧
  ∃ records, log' = log ++ records.
Proof.
  unfold preprocess_train_data. case_decide.
  { intros [= <- <- <- <-]. split_and!; try done. exists []. by rewrite app_nil_r. }
  intros ([label_data records] & _ & Hrest)%bind_Ok.
  apply bind_Ok in Hrest as (md' & _ & Hrest).
  apply bind_Ok in Hrest as ([] & _ & Hrest). simplify_eq.
  split_and!; try done. by exists records.
Qed.

(** C4: when preprocessing returns model data that is empty, or, with
    intent classification on, model data with fewer than two distinct label
    ids, [train] returns without raising, with the model the instance had
    before, and with one record added to the log as preprocessing left it:
    a debug record for empty data, an error record for too few labels.
    Preprocessing itself only adds records to the log (the debug record of
    the default label features, when the labels have none). *)
Theorem train_skips_insufficient_data
    (self : DIETClassifier RasaModel) (log : list LogRecord) (training_data : TrainingData)
    (md : RasaModelData) (self' : DIETClassifier RasaModel) (training_data' : TrainingData)
    (log' : list LogRecord) :
  preprocess_train_data self log training_data = Ok (md, self', training_data', log') →
  is_empty md = true ∨
    (INTENT_CLASSIFICATION (component_config self) = true ∧
     length (np_unique (get_features md LABEL_KEY LABEL_SUB_KEY)) < 2) →
  ∃ record,
    train self log training_data = Ok (self', log' ++ [record]) ∧
    model self' = model self ∧
    (∃ records, log' = log ++ records) ∧
    record = (if is_empty md then (DEBUG, no_data_message)
              else (ERROR, not_enough_labels_message)).
Proof.
  intros Hpre Hcase.
  destruct (preprocess_train_data_frame _ _ _ _ _ _ _ Hpre)
    as (Hmodel & Hconfig & Hlog).
  unfold train. rewrite Hpre. simpl.
  destruct (is_empty md) eqn:Hempty.
  { eexists. by split_and!. }
  destruct Hcase as [?|[Hintent Hfew]]; [done|].
  rewrite Hconfig, Hintent. unfold _check_enough_labels.
  rewrite bool_decide_eq_false_2 by lia. simpl.
  eexists. by split_and!.
Qed.

End train_properties.

(** ** Sorting of score arrays *)

Lemma Qltb_true x y : Qltb x y = true ↔ (x < y)%Q.
Proof.
  unfold Qltb. rewrite negb_true_iff. split.
  - intros Hb. apply Qnot_le_lt. intros Hle%Qle_bool_iff. congruence.
  - intros Hlt. apply not_true_is_false. intros Hle%Qle_bool_iff.
    by apply Qlt_not_le in Hlt.
Qed.

Lemma Qltb_false x y : Qltb x y = false ↔ (y <= x)%Q.
Proof.
  unfold Qltb. rewrite negb_false_iff. apply Qle_bool_iff.
Qed.

Lemma ranks_before_trans v a b c :
  ranks_before v a b → ranks_before v b c → ranks_before v a c.
Proof.
  unfold ranks_before. intros [Hab|[Hab Hlt]] [Hbc|[Hbc Hlt']].
  - left. by eapply Qlt_trans.
  - left. by rewrite <-Hbc.
  - left. by rewrite Hab.
  - right. split; [by rewrite Hab|lia].
Qed.

Lemma ranks_before_irrefl v a : ¬ ranks_before v a a.
Proof. intros [Hlt%Qlt_irrefl|[_ ?]]; [done|lia]. Qed.

Lemma ranks_before_total v a b : a ≠ b → ranks_before v a b ∨ ranks_before v b a.
Proof.
  intros Hne. unfold ranks_before.
  destruct (Q_dec (score v a) (score v b)) as [[?|?]|Heq]; [by left; left|by right; left|].
  destruct (decide (a < b)); [left|right]; right; split; try done; lia.
Qed.

Lemma insert_index_Permutation v i l : insert_index v i l ≡ₚ i :: l.
Proof.
  induction l as [|j l IH]; simpl; [done|].
  destruct (Qltb _ _); [done|]. rewrite IH. apply Permutation_swap.
Qed.

Lemma insert_index_sorted v i l :
  StronglySorted (ranks_before v) l → Forall (λ j, j < i) l →
  StronglySorted (ranks_before v) (insert_index v i l).
Proof.
  induction 1 as [|j l Hl IH Hj]; intros Hlt; simpl.
  { repeat constructor. }
  apply Forall_cons in Hlt as [Hji Hlt].
  destruct (Qltb _ _) eqn:Hcmp.
  - apply Qltb_true in Hcmp.
    assert (ranks_before v i j) as Hij by by left.
    constructor; [by constructor|]. constructor; [done|].
    eapply Forall_impl; [exact Hj|]. intros k Hjk.
    by eapply ranks_before_trans.
  - apply Qltb_false in Hcmp. constructor; [by apply IH|].
    rewrite insert_index_Permutation. constructor; [|done].
    apply Qle_lteq in Hcmp as [?|?]; [by left|by right].
Qed.

Lemma foldl_insert_index_Permutation v ixs acc :
  foldl (λ l i, insert_index v i l) acc ixs ≡ₚ acc ++ ixs.
Proof.
  revert acc. induction ixs as [|i ixs IH]; intros acc; simpl.
  { by rewrite app_nil_r. }
  rewrite IH, insert_index_Permutation. simpl. apply Permutation_middle.
Qed.

Lemma insertion_argsort_Permutation v :
  insertion_argsort v ≡ₚ seq 0 (length v).
Proof. unfold insertion_argsort. by rewrite foldl_insert_index_Permutation. Qed.

Lemma foldl_insert_index_sorted v n a acc :
  StronglySorted (ranks_before v) acc → Forall (λ j, j < a) acc →
  StronglySorted (ranks_before v)
    (foldl (λ l i, insert_index v i l) acc (seq a n)).
Proof.
  revert a acc. induction n as [|n IH]; intros a acc Hacc Hlt; simpl; [done|].
  apply IH; [by apply insert_index_sorted|].
  rewrite insert_index_Permutation. constructor; [lia|].
  eapply Forall_impl; [exact Hlt|]. intros; simpl in *; lia.
Qed.

Lemma insertion_argsort_sorted v :
  StronglySorted (ranks_before v) (insertion_argsort v).
Proof. apply foldl_insert_index_sorted; constructor. Qed.

Lemma StronglySorted_reverse {A} (R : relation A) l :
  StronglySorted R l → StronglySorted (flip R) (reverse l).
Proof.
  induction 1 as [|x l Hl IH Hx]; [constructor|].
  rewrite reverse_cons. apply StronglySorted_app. split_and!.
  - intros x1 x2 Hx1 Hx2. rewrite elem_of_reverse in Hx1.
    apply list_elem_of_singleton in Hx2. subst x2.
    rewrite Forall_forall in Hx. unfold flip. by apply Hx.
  - done.
  - repeat constructor.
Qed.

Lemma StronglySorted_lookup {A} (R : relation A) l p q x y :
  StronglySorted R l → p < q → l !! p = Some x → l !! q = Some y → R x y.
Proof.
  intros Hl. revert p q. induction Hl as [|z l Hl IH Hz]; intros p q Hpq Hp Hq.
  { done. }
  destruct q as [|q]; [lia|]. destruct p as [|p]; simplify_eq/=.
  - rewrite Forall_forall in Hz. by eapply Hz, list_elem_of_lookup_2.
  - eapply (IH p q); [lia|done..].
Qed.

Lemma insert_value_Permutation x l : insert_value x l ≡ₚ x :: l.
Proof.
  induction l as [|y l IH]; simpl; [done|].
  destruct (Qltb _ _); [done|]. rewrite IH. apply Permutation_swap.
Qed.

Lemma insert_value_sorted x l :
  StronglySorted Qle l → StronglySorted Qle (insert_value x l).
Proof.
  induction 1 as [|y l Hl IH Hy]; simpl.
  { repeat constructor. }
  destruct (Qltb _ _) eqn:Hcmp.
  - apply Qltb_true in Hcmp. constructor; [by constructor|].
    constructor; [by apply Qlt_le_weak|].
    eapply Forall_impl; [exact Hy|]. intros z Hz; simpl in *.
    eapply Qle_trans; [by apply Qlt_le_weak|done].
  - apply Qltb_false in Hcmp. constructor; [done|].
    rewrite insert_value_Permutation. by constructor.
Qed.

Lemma np_sort_Permutation v : np_sort v ≡ₚ v.
Proof.
  unfold np_sort. assert (∀ acc, foldl (λ l x, insert_value x l) acc v ≡ₚ acc ++ v)
    as Hgen; [|by rewrite Hgen].
  induction v as [|x v IH]; intros acc; simpl; [by rewrite app_nil_r|].
  rewrite IH, insert_value_Permutation. simpl. apply Permutation_middle.
Qed.

Lemma np_sort_sorted v : StronglySorted Qle (np_sort v).
Proof.
  unfold np_sort.
  assert (∀ acc, StronglySorted Qle acc →
    StronglySorted Qle (foldl (λ l x, insert_value x l) acc v)) as Hgen.
  { induction v as [|x v IH]; intros acc Hacc; simpl; [done|].
    by apply IH, insert_value_sorted. }
  apply Hgen. constructor.
Qed.

Lemma sort_reversed_view_length v : length (sort_reversed_view v) = length v.
Proof.
  unfold sort_reversed_view.
  by rewrite length_reverse, np_sort_Permutation, length_reverse.
Qed.

Lemma sort_reversed_view_descending v :
  StronglySorted (flip Qle) (sort_reversed_view v).
Proof. apply StronglySorted_reverse, np_sort_sorted. Qed.

(** *** The two sorts meet the contract of [argsort] *)

Lemma StronglySorted_impl {A} (R R' : relation A) l :
  (∀ x y, R x y → R' x y) → StronglySorted R l → StronglySorted R' l.
Proof.
  intros HR. induction 1 as [|x l Hl IH Hx]; constructor; [done|].
  eapply Forall_impl; [exact Hx|]. auto.
Qed.

Lemma ranks_before_le v a b : ranks_before v a b → (score v a <= score v b)%Q.
Proof.
  intros [Hlt|[Heq _]]; [by apply Qlt_le_weak|]. apply Qle_lteq. by right.
Qed.

Lemma insertion_argsort_ascending v :
  StronglySorted (λ i j, (score v i <= score v j)%Q) (insertion_argsort v).
Proof.
  eapply StronglySorted_impl; [|apply insertion_argsort_sorted].
  apply ranks_before_le.
Qed.

Lemma score_opp v i : score (Qopp <$> v) i = (- score v i)%Q.
Proof. unfold score. rewrite list_lookup_fmap. by destruct (v !! i). Qed.

Lemma descending_ties_argsort_Permutation v :
  descending_ties_argsort v ≡ₚ seq 0 (length v).
Proof.
  unfold descending_ties_argsort.
  by rewrite reverse_Permutation, insertion_argsort_Permutation, length_fmap.
Qed.

Lemma descending_ties_argsort_ascending v :
  StronglySorted (λ i j, (score v i <= score v j)%Q) (descending_ties_argsort v).
Proof.
  unfold descending_ties_argsort.
  eapply StronglySorted_impl;
    [|apply StronglySorted_reverse, insertion_argsort_sorted].
  intros i j Hji%ranks_before_le. rewrite !score_opp in Hji.
  unfold Qle, Qopp in *. simpl in *. lia.
Qed.

Definition insertion_numpy : Numpy :=
  {| argsort := insertion_argsort;
     argsort_Permutation := insertion_argsort_Permutation;
     argsort_ascending := insertion_argsort_ascending |}.

Definition descending_ties_numpy : Numpy :=
  {| argsort := descending_ties_argsort;
     argsort_Permutation := descending_ties_argsort_Permutation;
     argsort_ascending := descending_ties_argsort_ascending |}.

(** *** What follows from the contract *)

Section argsort_contract.
Context `{Numpy}.

Lemma argsort_length v : length (argsort v) = length v.
Proof. by rewrite argsort_Permutation, length_seq. Qed.

Lemma argsort_elem_of v i : i ∈ argsort v ↔ i < length v.
Proof. rewrite argsort_Permutation, elem_of_seq. lia. Qed.

Lemma argsort_NoDup v : NoDup (argsort v).
Proof. rewrite argsort_Permutation. apply NoDup_seq. Qed.

(** The reverse of [argsort] lists the indices by descending score. *)
Lemma reverse_argsort_descending v :
  StronglySorted (λ i j, (score v j <= score v i)%Q) (reverse (argsort v)).
Proof. apply (StronglySorted_reverse _ _ (argsort_ascending v)). Qed.

End argsort_contract.

(** ** Decoding the prediction *)

Section predict_properties.
Context `{Constants} `{Numpy} {RasaModel : Type} `{!Collaborators RasaModel}.

Lemma label_name_Some (self : DIETClassifier RasaModel) mapping idx name :
  index_label_id_mapping self = Some mapping → mapping !! idx = Some name →
  label_name self idx = Ok name.
Proof. intros Hmap Hname. unfold label_name. by rewrite Hmap, Hname. Qed.

Lemma mapM_label_dicts (self : DIETClassifier RasaModel) mapping (l : list (nat * Q)) :
  index_label_id_mapping self = Some mapping →
  Forall (λ p, is_Some (mapping !! p.1)) l →
  ∃ k,
    mapM (λ '(label_idx, score),
            name ← label_name self label_idx; Ok (label_dict name score)) l
      = Ok k ∧
    Forall2 (λ p d, ∃ name, mapping !! p.1 = Some name ∧ d = label_dict name p.2)
      l k.
Proof.
  intros Hmap. induction 1 as [|[idx sc] l [name Hname] Hl (k & Hk & Hall)].
  { by exists []. }
  exists (label_dict name sc :: k). simpl in Hname.
  split; [|constructor; [by exists name|done]].
  cbn [mapM]. rewrite (label_name_Some _ _ _ _ Hmap Hname). simpl.
  rewrite Hk. done.
Qed.

Lemma slice_to_nonneg {A} (l : list A) n :
  (0 ≤ n)%Z → slice_to l n = take (Z.to_nat n) l.
Proof. intros. unfold slice_to. by rewrite (proj2 (Z.ltb_ge n 0)). Qed.

(** The ranking that [_predict_label] returns for a configured integer
    ranking length: the first [output_length] label ids in the reverse of
    [argsort], each with the confidence at its position. The ids are
    distinct candidates and come by descending similarity. *)
Lemma predict_label_ranking_cut
    (self : DIETClassifier RasaModel) (out : gmap string Prediction) (a : ndarray)
    (r : Z) (mapping : gmap nat string) :
  out !! "i_scores" = Some (tensor a) →
  RANKING_LENGTH (component_config self) = Some r →
  (0 ≤ output_length (component_config self))%Z →
  index_label_id_mapping self = Some mapping →
  (∀ i, i < length (flatten a) → is_Some (mapping !! i)) →
  (∀ v n, length (normalize v n) = length v) →
  ∃ label ranking ids confidences,
    _predict_label self (Some out) = Ok (label, ranking) ∧
    length ranking =
      Z.to_nat (output_length (component_config self)) `min` length (flatten a) ∧
    length ids = length ranking ∧
    length confidences = length ranking ∧
    NoDup ids ∧
    (∀ i, i ∈ ids → i < length (flatten a)) ∧
    (∀ p id c, ids !! p = Some id → confidences !! p = Some c →
       ∃ name, mapping !! id = Some name ∧
               ranking !! p = Some (label_dict name c)) ∧
    (∀ p q cp cq, p < q → confidences !! p = Some cp →
       confidences !! q = Some cq → (cq <= cp)%Q) ∧
    (∀ p q i j, p < q → ids !! p = Some i → ids !! q = Some j →
       (score (flatten a) j <= score (flatten a) i)%Q) ∧
    (∀ i j, i ∈ ids → j < length (flatten a) → j ∉ ids →
       (score (flatten a) j <= score (flatten a) i)%Q).
Proof.
  intros Hout Hr Hrange Hmap Hcover Hnorm.
  unfold _predict_label, getitem. rewrite Hout. simpl. rewrite Hr. simpl.
  set (scores := flatten a) in *.
  set (ids0 := reverse (argsort scores)).
  set (sims := sort_reversed_view _).
  assert (length ids0 = length scores) as Hlen_ids.
  { unfold ids0. by rewrite length_reverse, argsort_length. }
  assert (length sims = length scores) as Hlen_sims.
  { unfold sims. rewrite sort_reversed_view_length.
    destruct (_ && _); [apply Hnorm|done]. }
  rewrite slice_to_nonneg by lia.
  set (n := Z.to_nat (output_length (component_config self))).
  assert (∀ i, i ∈ ids0 ↔ i < length scores) as Hids_lt.
  { intros i. unfold ids0. by rewrite elem_of_reverse, argsort_elem_of. }
  assert (NoDup ids0) as Hnodup.
  { unfold ids0. rewrite reverse_Permutation. apply argsort_NoDup. }
  assert (StronglySorted (λ i j, (score scores j <= score scores i)%Q) ids0)
    as Hsorted_ids.
  { apply reverse_argsort_descending. }
  assert (StronglySorted (flip Qle) sims) as Hsorted_sims.
  { apply sort_reversed_view_descending. }
  clearbody ids0 sims.
  destruct (mapM_label_dicts self mapping (take n (zip ids0 sims)) Hmap)
    as (k & Hk & Hall).
  { apply Forall_forall. intros [i c] Hin%elem_of_take.
    destruct Hin as (p & Hp & _). apply list_elem_of_lookup_2, elem_of_zip_l in Hp.
    apply Hcover, Hids_lt, Hp. }
  case_bool_decide as Hpos.
  - destruct (ids0 !! 0) as [first|] eqn:Hfirst;
      [|apply lookup_ge_None in Hfirst; lia].
    destruct (sims !! 0) as [c0|] eqn:Hc0; [|apply lookup_ge_None in Hc0; lia].
    destruct (Hcover first) as [name Hname].
    { by eapply Hids_lt, list_elem_of_lookup_2. }
    unfold getindex. rewrite Hfirst. simpl.
    rewrite (label_name_Some _ _ _ _ Hmap Hname). simpl.
    rewrite Hc0. simpl. rewrite Hk. simpl.
    exists (label_dict name c0), k, (take n ids0), (take n sims).
    apply Forall2_length in Hall as Hlen_k.
    rewrite length_take, length_zip_with_l_eq in Hlen_k by lia.
    split; [done|]. split; [lia|].
    split; [rewrite length_take; lia|]. split; [rewrite length_take; lia|].
    split_and!.
    + eapply sublist_NoDup; [done|apply sublist_take].
    + intros i (p & Hp & _)%elem_of_take.
      by eapply Hids_lt, list_elem_of_lookup_2.
    + intros p i c Hi Hc.
      assert (take n (zip ids0 sims) !! p = Some (i, c)) as Hp.
      { apply lookup_take_Some in Hi as [Hi ?], Hc as [Hc ?].
        apply lookup_take_Some. split; [|done].
        apply lookup_zip_with_Some. by exists i, c. }
      destruct (Forall2_lookup_l _ _ _ _ _ Hall Hp) as (d & Hd & name' & ? & ->).
      by exists name'.
    + intros p q cp cq Hpq [Hp _]%lookup_take_Some [Hq _]%lookup_take_Some.
      by apply (StronglySorted_lookup _ _ _ _ _ _ Hsorted_sims Hpq Hp Hq).
    + intros p q i j Hpq [Hp _]%lookup_take_Some [Hq _]%lookup_take_Some.
      by apply (StronglySorted_lookup _ _ _ _ _ _ Hsorted_ids Hpq Hp Hq).
    + intros i j (p & Hp & Hpn)%elem_of_take Hj Hnotin.
      apply Hids_lt, list_elem_of_lookup in Hj as [q Hq].
      assert (n ≤ q) as Hnq.
      { destruct (decide (n ≤ q)); [done|]. destruct Hnotin.
        apply elem_of_take. exists q. split; [done|lia]. }
      apply (StronglySorted_lookup _ _ p q _ _ Hsorted_ids); [lia|done..].
  - exists null_label, [], [], [].
    split; [done|]. split; [simpl; lia|]. split_and!; try done.
    + constructor.
    + intros i Hin. by apply elem_of_nil in Hin.
    + intros i j Hin. by apply elem_of_nil in Hin.
Qed.


Lemma output_length_configured (config : ComponentConfig) r :
  RANKING_LENGTH config = Some r → (0 < r < LABEL_RANKING_LENGTH)%Z →
  output_length config = r.
Proof.
  intros Hr Hrange. unfold output_length.
  rewrite Hr, bool_decide_eq_true_2 by lia.
  by rewrite (proj2 (Z.ltb_lt 0 r)), (proj2 (Z.ltb_lt r _)) by lia.
Qed.

Lemma output_length_default (config : ComponentConfig) r :
  RANKING_LENGTH config = Some r → (r ≤ 0 ∨ LABEL_RANKING_LENGTH ≤ r)%Z →
  output_length config = LABEL_RANKING_LENGTH.
Proof.
  intros Hr Hrange. unfold output_length. rewrite Hr.
  destruct (bool_decide _); simpl; [|done].
  destruct (Z.ltb_spec 0 r); simpl; [|done].
  destruct (Z.ltb_spec r LABEL_RANKING_LENGTH); [lia|done].
Qed.

(** C6, amended in the order of ties: for a ranking length [r] with
    [0 < r < LABEL_RANKING_LENGTH] and [K] candidate labels, the ranking
    that [_predict_label] returns has [min r K] entries, its confidences
    never increase, and its labels are [min r K] distinct candidates, the
    first ones of the reversed [argsort] of the similarities: an entry
    placed before another has a similarity at least as great, and so has
    every entry against every candidate left out. This holds for every
    [argsort] that meets the contract of [numpy]'s; the order of labels
    with equal similarities is left to [argsort], and the code adds no
    rule of its own. *)
Theorem predict_label_ranking
    (self : DIETClassifier RasaModel) (out : gmap string Prediction) (a : ndarray)
    (r : Z) (mapping : gmap nat string) :
  out !! "i_scores" = Some (tensor a) →
  RANKING_LENGTH (component_config self) = Some r →
  (0 < r < LABEL_RANKING_LENGTH)%Z →
  index_label_id_mapping self = Some mapping →
  (∀ i, i < length (flatten a) → is_Some (mapping !! i)) →
  (∀ v n, length (normalize v n) = length v) →
  ∃ label ranking ids confidences,
    _predict_label self (Some out) = Ok (label, ranking) ∧
    length ranking = Z.to_nat r `min` length (flatten a) ∧
    length ids = length ranking ∧
    length confidences = length ranking ∧
    NoDup ids ∧
    (∀ i, i ∈ ids → i < length (flatten a)) ∧
    (∀ p id c, ids !! p = Some id → confidences !! p = Some c →
       ∃ name, mapping !! id = Some name ∧
               ranking !! p = Some (label_dict name c)) ∧
    (∀ p q cp cq, p < q → confidences !! p = Some cp →
       confidences !! q = Some cq → (cq <= cp)%Q) ∧
    (∀ p q i j, p < q → ids !! p = Some i → ids !! q = Some j →
       (score (flatten a) j <= score (flatten a) i)%Q) ∧
    (∀ i j, i ∈ ids → j < length (flatten a) → j ∉ ids →
       (score (flatten a) j <= score (flatten a) i)%Q).
Proof.
  intros Hout Hr Hrange Hmap Hcover Hnorm.
  pose proof (output_length_configured _ _ Hr Hrange) as Hlen.
  destruct (predict_label_ranking_cut self out a r mapping)
    as (label & ranking & ids & confidences & Hres); try done; [lia|].
  rewrite Hlen in Hres. by exists label, ranking, ids, confidences.
Qed.

(** Outside that range the ranking is cut at [LABEL_RANKING_LENGTH]. *)
Lemma predict_label_ranking_default
    (self : DIETClassifier RasaModel) (out : gmap string Prediction) (a : ndarray)
    (r : Z) (mapping : gmap nat string) :
  out !! "i_scores" = Some (tensor a) →
  RANKING_LENGTH (component_config self) = Some r →
  (r ≤ 0 ∨ LABEL_RANKING_LENGTH ≤ r)%Z →
  (0 ≤ LABEL_RANKING_LENGTH)%Z →
  index_label_id_mapping self = Some mapping →
  (∀ i, i < length (flatten a) → is_Some (mapping !! i)) →
  (∀ v n, length (normalize v n) = length v) →
  ∃ label ranking,
    _predict_label self (Some out) = Ok (label, ranking) ∧
    length ranking = Z.to_nat LABEL_RANKING_LENGTH `min` length (flatten a).
Proof.
  intros Hout Hr Hrange Hpos Hmap Hcover Hnorm.
  pose proof (output_length_default _ _ Hr Hrange) as Hlen.
  destruct (predict_label_ranking_cut self out a r mapping)
    as (label & ranking & ids & confidences & Hres & Hlength & _); try done; [lia|].
  rewrite Hlen in Hlength. by exists label, ranking.
Qed.

(** With no ranking length configured the comparison with 0 that guards
    the normalisation raises before any ranking is built. *)
Lemma predict_label_ranking_length_None
    (self : DIETClassifier RasaModel) (out : gmap string Prediction) (a : ndarray) :
  out !! "i_scores" = Some (tensor a) →
  RANKING_LENGTH (component_config self) = None →
  _predict_label self (Some out) =
    Raise (TypeError "'>' not supported between instances of 'NoneType' and 'int'").
Proof.
  intros Hout Hr. unfold _predict_label, getitem. rewrite Hout. simpl.
  by rewrite Hr.
Qed.

(** C8: without a trained model [_predict] returns [None], for which
    [_predict_label] returns the label with no name, no id and confidence 0
    together with an empty ranking, and [_predict_entities] returns no
    entity; none of them raises. *)
Theorem untrained_prediction_is_null
    (self : DIETClassifier RasaModel) (log : list LogRecord) (message : Message) :
  model self = None →
  _predict self log message = Ok (None, log ++ [(DEBUG, no_model_message)]) ∧
  _predict_label self None =
    Ok ({[ "name" := ANone; "id" := ANone; "confidence" := AFloat 0 ]}, []) ∧
  _predict_entities self None message = Ok [].
Proof. intros Hmodel. unfold _predict. by rewrite Hmodel. Qed.

(** *** Entities written back by [process] *)

Lemma get_list_set message prop l :
  get_list (set message prop (VList l)) prop = l.
Proof. unfold get_list, set. simpl. by rewrite lookup_insert_eq. Qed.

Lemma get_list_set_ne message prop prop' v :
  prop' ≠ prop → get_list (set message prop' v) prop = get_list message prop.
Proof. intros. unfold get_list, set. simpl. by rewrite lookup_insert_ne. Qed.

(** With a trained model and entity recognition on, the entities that
    [process] writes back are those the message had, in their order,
    followed by the predicted ones. *)
Lemma process_trained_appends
    (self : DIETClassifier RasaModel) (log log' : list LogRecord)
    (message message' : Message) :
  is_Some (model self) →
  ENTITY_RECOGNITION (component_config self) = true →
  ENTITIES ≠ INTENT → ENTITIES ≠ "intent_ranking" →
  process self log message = Ok (message', log') →
  ∃ predicted,
    get_list message' ENTITIES = get_list message ENTITIES ++ predicted.
Proof.
  intros [m Hm] Hner Hne1 Hne2. unfold process, _predict. rewrite Hm, Hner.
  intros ([out log''] & Hout & Hrest)%bind_Ok.
  apply bind_Ok in Hout as (md & _ & Hout).
  apply bind_Ok in Hout as (out' & _ & Hout). simplify_eq.
  apply bind_Ok in Hrest as (message1 & Hintent & Hrest).
  apply bind_Ok in Hrest as (message2 & Hentities & Hrest).
  assert (get_list message1 ENTITIES = get_list message ENTITIES) as Hkeep.
  { destruct (INTENT_CLASSIFICATION _); [|by simplify_eq].
    apply bind_Ok in Hintent as ([label ranking] & _ & ?). simplify_eq.
    by rewrite !get_list_set_ne. }
  apply bind_Ok in Hentities as (entities & Hpred & ?).
  unfold _predict_entities in Hpred.
  apply bind_Ok in Hpred as ([tags confs] & _ & ?). simplify_eq.
  eexists. rewrite <-Hkeep.
  destruct (out' !! DIAGNOSTIC_DATA); simpl; apply get_list_set.
Qed.

(** Without a trained model and with entity recognition on, [process]
    returns and writes back the empty list, whatever entities the message
    had. *)
Lemma process_untrained_entities
    (self : DIETClassifier RasaModel) (log : list LogRecord) (message : Message) :
  model self = None →
  ENTITY_RECOGNITION (component_config self) = true →
  ∃ message',
    process self log message = Ok (message', log ++ [(DEBUG, no_model_message)]) ∧
    get_list message' ENTITIES = [].
Proof.
  intros Hmodel Hner. unfold process, _predict. rewrite Hmodel, Hner. simpl.
  destruct (INTENT_CLASSIFICATION _); simpl; eexists; split; try done;
    apply get_list_set.
Qed.

End predict_properties.

(** ** Attributes without tags *)

Section tag_spec_properties.
Context `{Constants} {Tensor : Type} `{!TensorOps Tensor}.
Context (build_tag_id_dict : TrainingData → string → option (gmap string nat)).
Context (_calculate_entity_loss :
  DIET.Model Tensor → Tensor → Tensor → Tensor → Tensor → string → option Tensor →
  Result (Tensor * Tensor * Tensor)).

(** A spec comes out of the loop of [_create_entity_tag_specs] only for a
    name whose tag index is a non-empty dictionary. *)
Lemma tag_spec_step_elem_of config training_data names specs0 spec :
  spec ∈ foldl (tag_spec_step build_tag_id_dict config training_data) specs0 names →
  spec ∈ specs0 ∨
  ∃ mapping,
    (if BILOU_FLAG config then build_tag_id_dict training_data (tag_name spec)
     else _tag_id_index_mapping_for (tag_name spec) training_data) = Some mapping ∧
    mapping ≠ ∅ ∧ num_tags spec = size mapping.
Proof.
  revert specs0. induction names as [|name names IH]; intros specs0; simpl.
  { by left. }
  intros [Hin|?]%IH; [|by right]. unfold tag_spec_step in Hin.
  destruct (BILOU_FLAG config).
  - destruct (build_tag_id_dict training_data name) as [mapping|] eqn:Hmapping;
      [|by left].
    case_decide; [by left|].
    apply elem_of_app in Hin as [?|Hin]; [by left|].
    apply list_elem_of_singleton in Hin as ->. right. by exists mapping.
  - destruct (_tag_id_index_mapping_for name training_data)
      as [mapping|] eqn:Hmapping; [|by left].
    case_decide; [by left|].
    apply elem_of_app in Hin as [?|Hin]; [by left|].
    apply list_elem_of_singleton in Hin as ->. right. by exists mapping.
Qed.

Lemma loss_loop_filter tag_specs mask_text sequence_lengths text_transformed
    tf_batch_data entity_tags losses (self : DIET.Model Tensor) :
  DIET.loss_loop _calculate_entity_loss tag_specs mask_text sequence_lengths
    text_transformed tf_batch_data entity_tags losses self =
  DIET.loss_loop _calculate_entity_loss (filter has_tags tag_specs) mask_text
    sequence_lengths text_transformed tf_batch_data entity_tags losses self.
Proof.
  revert entity_tags losses self.
  induction tag_specs as [|tag_spec tag_specs IH]; intros entity_tags losses self.
  { done. }
  rewrite filter_cons. simpl. destruct (decide (num_tags tag_spec = 0)) as [Hz|Hnz].
  { rewrite decide_False by (unfold has_tags; naive_solver). apply IH. }
  rewrite decide_True by done. simpl. rewrite decide_False by done.
  destruct (getindex _ _) as [tag_ids|]; simpl; [|done].
  destruct (_calculate_entity_loss _ _ _ _ _ _ _) as [[[loss f1] logits]|];
    simpl; [|done].
  apply IH.
Qed.

Lemma loss_loop_length tag_specs mask_text sequence_lengths text_transformed
    tf_batch_data entity_tags losses (self : DIET.Model Tensor) losses' self' :
  DIET.loss_loop _calculate_entity_loss tag_specs mask_text sequence_lengths
    text_transformed tf_batch_data entity_tags losses self = Ok (losses', self') →
  length losses' = length losses + length (filter has_tags tag_specs).
Proof.
  revert entity_tags losses self.
  induction tag_specs as [|tag_spec tag_specs IH]; intros entity_tags losses self.
  { simpl. intros [= <- <-]. lia. }
  rewrite filter_cons. simpl. destruct (decide (num_tags tag_spec = 0)) as [Hz|Hnz].
  { rewrite decide_False by (unfold has_tags; naive_solver). apply IH. }
  rewrite decide_True by done.
  destruct (getindex _ _) as [tag_ids|]; simpl; [|done].
  destruct (_calculate_entity_loss _ _ _ _ _ _ _) as [[[loss f1] logits]|];
    simpl; [|done].
  intros Hloop%IH. rewrite length_app in Hloop. simpl in *. lia.
Qed.

Lemma predict_loop_filter (self : DIET.Model Tensor) tag_specs sequence_lengths
    text_transformed entity_tags predictions :
  DIET.predict_loop self tag_specs sequence_lengths text_transformed
    entity_tags predictions =
  DIET.predict_loop self (filter has_tags tag_specs) sequence_lengths
    text_transformed entity_tags predictions.
Proof.
  revert entity_tags predictions.
  induction tag_specs as [|tag_spec tag_specs IH]; intros entity_tags predictions.
  { done. }
  rewrite filter_cons. simpl. destruct (decide (num_tags tag_spec = 0)) as [Hz|Hnz].
  { rewrite decide_False by (unfold has_tags; naive_solver). apply IH. }
  rewrite decide_True by done. simpl. rewrite decide_False by done.
  destruct (match entity_tags with Some _ => _ | None => _ end) as [_input|];
    simpl; [|done].
  destruct (DIET.call_layer _ _ _) as [_logits|]; simpl; [|done].
  destruct (DIET.call_crf _ _ _ _) as [[pred_ids confidences]|]; simpl; [|done].
  apply IH.
Qed.

Lemma predict_loop_keys (self : DIET.Model Tensor) tag_specs sequence_lengths
    text_transformed entity_tags predictions predictions' key :
  DIET.predict_loop self tag_specs sequence_lengths text_transformed
    entity_tags predictions = Ok predictions' →
  is_Some (predictions' !! key) →
  is_Some (predictions !! key) ∨
  ∃ tag_spec, tag_spec ∈ tag_specs ∧ num_tags tag_spec ≠ 0 ∧
    (key = "e_" +:+ tag_name tag_spec +:+ "_ids" ∨
     key = "e_" +:+ tag_name tag_spec +:+ "_scores").
Proof.
  revert entity_tags predictions.
  induction tag_specs as [|tag_spec tag_specs IH]; intros entity_tags predictions.
  { simpl. intros [= <-]. by left. }
  simpl. destruct (decide (num_tags tag_spec = 0)) as [Hz|Hnz].
  { intros Hloop Hkey. destruct (IH _ _ Hloop Hkey) as [?|(s & ? & ?)]; [by left|].
    right. exists s. split; [by right|done]. }
  destruct (match entity_tags with Some _ => _ | None => _ end) as [_input|];
    simpl; [|done].
  destruct (DIET.call_layer _ _ _) as [_logits|]; simpl; [|done].
  destruct (DIET.call_crf _ _ _ _) as [[pred_ids confidences]|]; simpl; [|done].
  intros Hloop Hkey. destruct (IH _ _ Hloop Hkey) as [Hold|(s & ? & ?)].
  - destruct (decide (key = "e_" +:+ tag_name tag_spec +:+ "_scores")) as [->|Hne1].
    { right. exists tag_spec. split; [by left|]. split; [done|by right]. }
    rewrite lookup_insert_ne in Hold by done.
    destruct (decide (key = "e_" +:+ tag_name tag_spec +:+ "_ids")) as [->|Hne2].
    { right. exists tag_spec. split; [by left|]. split; [done|by left]. }
    rewrite lookup_insert_ne in Hold by done. by left.
  - right. exists s. split; [by right|done].
Qed.

(** C3: an attribute without real tags gets no tag spec, every tag spec
    that is built has tags, and a tag spec with [num_tags = 0] is passed
    over by the loss loop and by the prediction loop: both run as on the
    list without such specs, the losses number the specs that have tags,
    every prediction key belongs to a spec that has tags, and with no such
    spec there is no loss and no key. *)
Theorem zero_tag_attributes_are_skipped :
  (∀ config training_data name spec,
     (if BILOU_FLAG config
      then build_tag_id_dict training_data name = None ∨
           build_tag_id_dict training_data name = Some ∅
      else ∀ tag, Some tag ∈ tags_of name training_data → tag = NO_ENTITY_TAG) →
     spec ∈ _create_entity_tag_specs build_tag_id_dict config training_data →
     tag_name spec ≠ name ∧ num_tags spec ≠ 0) ∧
  (∀ (self : DIET.Model Tensor) mask_text sequence_lengths text_transformed tf_batch_data,
     DIET._batch_loss_entities _calculate_entity_loss self mask_text
       sequence_lengths text_transformed tf_batch_data =
     DIET.loss_loop _calculate_entity_loss
       (filter has_tags (DIET._entity_tag_specs self)) mask_text
       (minus_one sequence_lengths) text_transformed tf_batch_data None [] self ∧
     (∀ losses self',
        DIET._batch_loss_entities _calculate_entity_loss self mask_text
          sequence_lengths text_transformed tf_batch_data = Ok (losses, self') →
        length losses = length (filter has_tags (DIET._entity_tag_specs self))) ∧
     (Forall (λ tag_spec, num_tags tag_spec = 0) (DIET._entity_tag_specs self) →
        DIET._batch_loss_entities _calculate_entity_loss self mask_text
          sequence_lengths text_transformed tf_batch_data = Ok ([], self))) ∧
  (∀ (self : DIET.Model Tensor) sequence_lengths text_transformed,
     DIET._batch_predict_entities self sequence_lengths text_transformed =
     DIET.predict_loop self (filter has_tags (DIET._entity_tag_specs self))
       sequence_lengths text_transformed None ∅ ∧
     (∀ predictions key,
        DIET._batch_predict_entities self sequence_lengths text_transformed
          = Ok predictions →
        is_Some (predictions !! key) →
        ∃ tag_spec, tag_spec ∈ DIET._entity_tag_specs self ∧
          num_tags tag_spec ≠ 0 ∧
          (key = "e_" +:+ tag_name tag_spec +:+ "_ids" ∨
           key = "e_" +:+ tag_name tag_spec +:+ "_scores")) ∧
     (Forall (λ tag_spec, num_tags tag_spec = 0) (DIET._entity_tag_specs self) →
        DIET._batch_predict_entities self sequence_lengths text_transformed
          = Ok ∅)).
Proof.
  assert (∀ l : list EntityTagSpec,
    Forall (λ tag_spec, num_tags tag_spec = 0) l → filter has_tags l = []) as Hnone.
  { induction 1 as [|s l Hs Hl IH]; [done|].
    rewrite filter_cons, decide_False by naive_solver. done. }
  split_and!.
  - intros config training_data name spec Hnone' Hin.
    apply tag_spec_step_elem_of in Hin as [Hin|(mapping & Hmapping & Hne & Hsize)].
    { by apply elem_of_nil in Hin. }
    split.
    + intros Heq. rewrite Heq in Hmapping.
      destruct (BILOU_FLAG config); [destruct Hnone'; congruence|].
      apply tag_id_index_mapping_None in Hnone'. congruence.
    + rewrite Hsize. by intros ?%map_size_empty_iff.
  - intros self mask_text sequence_lengths text_transformed tf_batch_data.
    unfold DIET._batch_loss_entities. split_and!.
    + apply loss_loop_filter.
    + intros losses self' Hloop%loss_loop_length. simpl in Hloop. lia.
    + intros Hzero. by rewrite loss_loop_filter, Hnone.
  - intros self sequence_lengths text_transformed.
    unfold DIET._batch_predict_entities. split_and!.
    + apply predict_loop_filter.
    + intros predictions key Hloop Hkey.
      destruct (predict_loop_keys _ _ _ _ _ _ _ _ Hloop Hkey) as [Hold|?]; [|done].
      rewrite lookup_empty in Hold. by destruct Hold.
    + intros Hzero. by rewrite predict_loop_filter, Hnone.
Qed.

End tag_spec_properties.

(** ** Preparation for prediction *)

Section prepare_properties.
Context `{Constants} {Tensor : Type} `{!TensorOps Tensor}.
Context (_last_token : Tensor → Tensor → Tensor).
Context (_get_mask_for :
  gmap string (gmap string (list Tensor)) → string → string → option Tensor).
Context (_create_bow :
  DIET.Model Tensor → list Tensor → list Tensor → option Tensor →
  option Tensor → string → Result Tensor).

Lemma call_layer_no_ValueError (self : DIET.Model Tensor) key x msg :
  DIET.call_layer self key x ≠ Raise (ValueError msg).
Proof.
  unfold DIET.call_layer, getitem.
  destruct (DIET._tf_layers self !! key) as [[]|]; simpl; congruence.
Qed.

(** C7: the intent scores of a model whose label embedding has not been
    set are refused with a [ValueError] that says to call
    [prepare_for_predict] first; once [prepare_for_predict] has run on a
    model with intent classification, the embedding is set and that error
    is not raised. *)
Theorem batch_predict_intents_needs_preparation :
  (∀ (self : DIET.Model Tensor) sequence_lengths text_transformed,
     DIET.all_labels_embed self = None →
     DIET._batch_predict_intents _last_token self sequence_lengths
       text_transformed =
     Raise (ValueError ("The model was not prepared for prediction. "
                        +:+ "Call `prepare_for_predict` first."))) ∧
  (∀ (self self' : DIET.Model Tensor),
     INTENT_CLASSIFICATION (DIET.config self) = true →
     DIET.prepare_for_predict _get_mask_for _create_bow self = Ok self' →
     is_Some (DIET.all_labels_embed self') ∧
     ∀ sequence_lengths text_transformed msg,
       DIET._batch_predict_intents _last_token self' sequence_lengths
         text_transformed ≠ Raise (ValueError msg)).
Proof.
  split.
  - intros self sequence_lengths text_transformed Hnone.
    unfold DIET._batch_predict_intents. by rewrite Hnone.
  - intros self self' Hintent. unfold DIET.prepare_for_predict. rewrite Hintent.
    intros ([ids embed] & _ & [= <-])%bind_Ok. split; [by eexists|].
    intros sequence_lengths text_transformed msg.
    unfold DIET._batch_predict_intents. simpl.
    destruct (DIET.call_layer _ _ _) as [sentence_vector_embed|e] eqn:Hcall; simpl.
    + unfold getitem.
      destruct (DIET._tf_layers self !! _) as [[call|call|similarity]|]; simpl;
        try congruence.
      by destruct (similarity _ _).
    + intros [= ->]. by eapply call_layer_no_ValueError.
Qed.

End prepare_properties.

(** ** The scenarios *)

Section scenarios.
Local Existing Instance scenario_constants.
Local Existing Instance scenario_collaborators.
Local Existing Instance insertion_numpy.

(** The tag vocabulary city with BILOU off: city 1, no-entity 0. *)
Example city_tag_index :
  _tag_id_index_mapping_for "entity" city_corpus =
    Some {[ "city" := 1; "no-entity" := 0 ]}.
Proof. by_evaluation. Qed.

Lemma tag_id_index_mapping_reserves_zero_witness :
  (∃ tag, Some tag ∈ tags_of "entity" city_corpus ∧ tag ≠ NO_ENTITY_TAG) ∧
  ∃ (mapping : gmap string nat) (tags : list string),
    _tag_id_index_mapping_for "entity" city_corpus = Some mapping ∧
    mapping !! NO_ENTITY_TAG = Some 0 ∧
    StronglySorted str_lt tags ∧
    (∀ tag, tag ∈ tags ↔
            Some tag ∈ tags_of "entity" city_corpus ∧ tag ≠ NO_ENTITY_TAG) ∧
    (∀ tag i, mapping !! tag = Some i ↔
              (tag = NO_ENTITY_TAG ∧ i = 0) ∨ (∃ j, i = S j ∧ tags !! j = Some tag)).
Proof.
  assert (∃ tag, Some tag ∈ tags_of "entity" city_corpus ∧ tag ≠ NO_ENTITY_TAG)
    as Hreal.
  { exists "city". split; [|done]. unfold tags_of. simpl. set_solver. }
  split; [exact Hreal|].
  exact (tag_id_index_mapping_reserves_zero "entity" city_corpus Hreal).
Defined.

(** One intent only, and labels without features: the debug record of the
    default label features, then training is skipped with an error
    record. *)
Lemma train_skips_insufficient_data_witness :
  ∃ self',
    train untrained_classifier [] single_intent_corpus =
      Ok (self', [default_label_features_record;
                  (ERROR, not_enough_labels_message)]) ∧
    model self' = None.
Proof.
  assert (match preprocess_train_data untrained_classifier [] single_intent_corpus
          with
          | Ok (md, _, _, log') =>
              bool_decide (log' = [default_label_features_record])
              && negb (is_empty md)
              && bool_decide
                   (length (np_unique (get_features md LABEL_KEY LABEL_SUB_KEY)) < 2)
          | Raise _ => false
          end = true) as Hpre by (vm_compute; reflexivity).
  destruct (preprocess_train_data untrained_classifier [] single_intent_corpus)
    as [[[[md self'] training_data'] log']|e] eqn:Hrun; [|discriminate Hpre].
  apply andb_prop in Hpre as [Hpre Hfew]. apply andb_prop in Hpre as [Hlog Hempty].
  apply bool_decide_eq_true_1 in Hlog. apply bool_decide_eq_true_1 in Hfew.
  apply negb_true_iff in Hempty.
  destruct (train_skips_insufficient_data untrained_classifier []
              single_intent_corpus md self' training_data' log' Hrun)
    as (record & Htrain & Hmodel & _ & Hrecord).
  { right. split; [reflexivity|exact Hfew]. }
  exists self'. split; [|exact Hmodel].
  rewrite Htrain, Hrecord, Hempty, Hlog. reflexivity.
Defined.

Lemma scenario_normalize_length v n : length (scenario_normalize v n) = length v.
Proof.
  unfold scenario_normalize. destruct (Qltb _ _); [|done]. apply length_fmap.
Qed.

(** Ranking length 2 with five candidate intents: two entries. *)
Lemma predict_label_ranking_witness :
  ∃ label ranking,
    _predict_label (trained_classifier (Some 2%Z)) (Some tied_prediction)
      = Ok (label, ranking) ∧
    length ranking = 2.
Proof.
  destruct (predict_label_ranking (trained_classifier (Some 2%Z)) tied_prediction
              [tied_scores] 2 five_intents)
    as (label & ranking & ids & confidences & Hres & Hlen & _).
  - reflexivity.
  - reflexivity.
  - simpl. lia.
  - reflexivity.
  - intros i Hi. do 5 (destruct i as [|i]; [by eexists|]). simpl in Hi. lia.
  - apply scenario_normalize_length.
  - exists label, ranking. split; [exact Hres|exact Hlen].
Defined.

Lemma untrained_prediction_is_null_witness :
  _predict untrained_classifier [] upstream_message =
    Ok (None, [(DEBUG, no_model_message)]) ∧
  _predict_label untrained_classifier None =
    Ok ({[ "name" := ANone; "id" := ANone; "confidence" := AFloat 0 ]}, []) ∧
  _predict_entities untrained_classifier None upstream_message = Ok [].
Proof.
  exact (untrained_prediction_is_null untrained_classifier [] upstream_message
           eq_refl).
Defined.

(** With a trained model the entity of the message is kept and comes
    before the predicted one. *)
Example process_trained_keeps_entities :
  ∃ message' log',
    process (trained_classifier (Some 2%Z)) [] upstream_message =
      Ok (message', log') ∧
    get_list message' ENTITIES = [upstream_entity; predicted_entity].
Proof.
  assert (match process (trained_classifier (Some 2%Z)) [] upstream_message with
          | Ok (message', _) =>
              bool_decide
                (get_list message' ENTITIES = [upstream_entity; predicted_entity])
          | Raise _ => false
          end = true) as Hrun by (vm_compute; reflexivity).
  destruct (process _ _ _) as [[message' log']|]; [|done].
  exists message', log'. split; [done|]. by apply bool_decide_eq_true_1 in Hrun.
Qed.

(** Ranking lengths 0 and 10 with five candidate intents: all five. *)
Example predict_label_ranking_uncut :
  (∃ label ranking,
     _predict_label (trained_classifier (Some 0%Z)) (Some tied_prediction)
       = Ok (label, ranking) ∧ length ranking = 5) ∧
  (∃ label ranking,
     _predict_label (trained_classifier (Some 10%Z)) (Some tied_prediction)
       = Ok (label, ranking) ∧ length ranking = 5).
Proof.
  assert (∀ r,
    match _predict_label (trained_classifier (Some r)) (Some tied_prediction) with
    | Ok (_, ranking) => bool_decide (length ranking = 5)
    | Raise _ => false
    end = true →
    ∃ label ranking,
      _predict_label (trained_classifier (Some r)) (Some tied_prediction)
        = Ok (label, ranking) ∧ length ranking = 5) as Hrun.
  { intros r Hr. destruct (_predict_label _ _) as [[label ranking]|]; [|done].
    exists label, ranking. split; [done|]. by apply bool_decide_eq_true_1 in Hr. }
  split; apply Hrun; vm_compute; reflexivity.
Qed.

(** Three tokens in the sparse sequence features and two in the dense
    ones: a [ValueError]; three in both: the four feature arrays. *)
Example extract_features_scenarios :
  _extract_features (λ _ _ _, three_token_sparse) (λ _ _ _, two_token_dense)
    (scenario_config (Some 10%Z)) upstream_message "text" =
    Raise (ValueError ("Sequence dimensions for sparse and dense sequence "
      +:+ "features don't coincide in 'a flight to Berlin'"
      +:+ "for attribute 'text'.")) ∧
  (size <$> _extract_features (λ _ _ _, three_token_sparse)
     (λ _ _ _, three_token_dense) (scenario_config (Some 10%Z))
     upstream_message "text") = Ok 4.
Proof. split; by_evaluation. Qed.

End scenarios.

(** *** Scenarios that hold whatever [argsort] does with equal scores *)

Section scenarios_of_any_argsort.
Local Existing Instance scenario_constants.
Local Existing Instance scenario_collaborators.

(** The tie rule of the specification does not follow from the code. On
    the similarities 1/2, 1/2, 1/4, 1/4, 1/10 of affirm, bye, deny, greet,
    thanks, the two sorts that meet the contract of [argsort] give the
    two orders of the tied labels: with the one that keeps equal scores in
    index order, bye, with label id 1, is ranked before affirm, with label
    id 0; with the other one affirm is ranked before bye. So no rule on
    ties holds for every [argsort] that [numpy] may provide, the rule of
    ascending label ids no more than another. *)
Lemma predict_label_ties_counterexample :
  tied_ranking insertion_numpy =
    Ok (label_dict "bye" (1#2),
        [label_dict "bye" (1#2); label_dict "affirm" (1#2)]) ∧
  tied_ranking descending_ties_numpy =
    Ok (label_dict "affirm" (1#2),
        [label_dict "affirm" (1#2); label_dict "bye" (1#2)]) ∧
  five_intents !! 1 = Some "bye" ∧ five_intents !! 0 = Some "affirm" ∧
  score tied_scores 1 = score tied_scores 0 ∧
  ¬ (∀ (numpy : Numpy) label ranking p q i j name_i name_j c_i c_j,
       tied_ranking numpy = Ok (label, ranking) →
       p < q →
       five_intents !! i = Some name_i → five_intents !! j = Some name_j →
       ranking !! p = Some (label_dict name_i c_i) →
       ranking !! q = Some (label_dict name_j c_j) →
       (score tied_scores i == score tied_scores j)%Q →
       i < j).
Proof.
  assert (tied_ranking insertion_numpy =
    Ok (label_dict "bye" (1#2),
        [label_dict "bye" (1#2); label_dict "affirm" (1#2)])) as Hres.
  { by_evaluation. }
  assert (tied_ranking descending_ties_numpy =
    Ok (label_dict "affirm" (1#2),
        [label_dict "affirm" (1#2); label_dict "bye" (1#2)])) as Hres'.
  { by_evaluation. }
  split; [exact Hres|]. split; [exact Hres'|]. split_and!; try done.
  intros Hties.
  specialize (Hties insertion_numpy _ _ 0 1 1 0 "bye" "affirm"
                (1#2)%Q (1#2)%Q Hres).
  assert (1 < 0); [|lia].
  apply Hties; [lia|done|done|done|done|by vm_compute].
Qed.

Context `{Numpy}.

(** C10, at the input on which the code departs from it: with the ranking
    length set to [None], [_predict_label] raises a [TypeError] at the
    comparison with 0 and returns no ranking, instead of a ranking cut at
    [LABEL_RANKING_LENGTH]. *)
Theorem predict_label_ranking_length_None_raises :
  RANKING_LENGTH (component_config (trained_classifier None)) = None ∧
  _predict_label (trained_classifier None) (Some tied_prediction) =
    Raise (TypeError "'>' not supported between instances of 'NoneType' and 'int'").
Proof.
  split; [done|]. by apply (predict_label_ranking_length_None _ _ [tied_scores]).
Qed.

(** C9, at the input on which the code departs from it: a classifier
    without a trained model, with entity recognition on, writes the empty
    list over the entity that the message carried. *)
Theorem process_untrained_overwrites_entities :
  get_list upstream_message ENTITIES = [upstream_entity] ∧
  ∃ message',
    process untrained_classifier [] upstream_message =
      Ok (message', [(DEBUG, no_model_message)]) ∧
    get_list message' ENTITIES = [].
Proof.
  split; [done|].
  destruct (process_untrained_entities untrained_classifier [] upstream_message)
    as (message' & Hprocess & Hentities); [done..|].
  by exists message'.
Qed.

End scenarios_of_any_argsort.

(** * Further properties *)

(** ** Inverse of the label index and of the tag index *)

Lemma invert_mapping_foldl (pairs : list (string * nat)) (d : gmap nat string) i s :
  NoDup (pairs.*2) →
  foldl (λ d '(key, value), <[value := key]> d) d pairs !! i = Some s ↔
  (s, i) ∈ pairs ∨ (i ∉ pairs.*2 ∧ d !! i = Some s).
Proof.
  revert d. induction pairs as [|[k v] pairs IH]; intros d Hnd; simpl.
  { set_solver. }
  apply NoDup_cons in Hnd as [Hv Hnd]. rewrite IH by done.
  rewrite elem_of_cons, not_elem_of_cons. split.
  - intros [?|[Hs Hl]]; [by left; right|].
    destruct (decide (v = i)) as [->|Hne].
    + rewrite lookup_insert_eq in Hl. simplify_eq. by left; left.
    + rewrite lookup_insert_ne in Hl by done. by right.
  - intros [[?|?]|[[Hne Hs] Hl]]; simplify_eq.
    + right. split; [done|]. by rewrite lookup_insert_eq.
    + by left.
    + right. split; [done|]. by rewrite lookup_insert_ne.
Qed.

(** A dictionary in which no two keys share a value is inverted by
    [_invert_mapping]. *)
Lemma invert_mapping_lookup (mapping : gmap string nat) i s :
  (∀ s1 s2 j, mapping !! s1 = Some j → mapping !! s2 = Some j → s1 = s2) →
  _invert_mapping mapping !! i = Some s ↔ mapping !! s = Some i.
Proof.
  intros Hinj. unfold _invert_mapping. rewrite invert_mapping_foldl.
  - rewrite elem_of_map_to_list, lookup_empty. naive_solver.
  - apply NoDup_fmap_2_strong; [|apply NoDup_map_to_list].
    intros [s1 j1] [s2 j2] H1%elem_of_map_to_list H2%elem_of_map_to_list ?.
    simplify_eq/=. f_equal. by eapply Hinj.
Qed.

Lemma label_index_lookup (training_data : TrainingData) (attribute : string) s i :
  _label_id_index_mapping training_data attribute !! s = Some i ↔
  sorted (list_to_set (label_values training_data attribute) ∖ {[None]}) !! i
    = Some s.
Proof.
  unfold _label_id_index_mapping.
  rewrite dict_comprehension_enumerate by apply sorted_NoDup. naive_solver.
Qed.

Lemma label_index_inj (training_data : TrainingData) (attribute : string) s1 s2 i :
  _label_id_index_mapping training_data attribute !! s1 = Some i →
  _label_id_index_mapping training_data attribute !! s2 = Some i → s1 = s2.
Proof. rewrite !label_index_lookup. congruence. Qed.

(** X1: the index from ids to labels that training keeps is the inverse
    of the label index: an id leads back to the label that has this id,
    and only ids of the label index lead to a label. *)
Theorem invert_label_index
    (training_data : TrainingData) (attribute : string) (i : nat) (s : string) :
  _invert_mapping (_label_id_index_mapping training_data attribute) !! i = Some s ↔
  _label_id_index_mapping training_data attribute !! s = Some i.
Proof.
  apply invert_mapping_lookup. intros s1 s2 j. apply label_index_inj.
Qed.

(** ** Examples for the labels *)

Lemma find_example_for_label_spec label examples attribute :
  match _find_example_for_label label examples attribute with
  | Some ex =>
      ∃ k, examples !! k = Some ex ∧ get_text ex attribute = Some label ∧
        ∀ j ex', j < k → examples !! j = Some ex' →
          get_text ex' attribute ≠ Some label
  | None => ∀ ex, ex ∈ examples → get_text ex attribute ≠ Some label
  end.
Proof.
  induction examples as [|ex examples IH]; simpl.
  { intros ex Hin. by apply elem_of_nil in Hin. }
  case_decide as Hex.
  - exists 0. split_and!; [done..|]. intros; lia.
  - destruct (_find_example_for_label _ _ _) as [found|].
    + destruct IH as (k & Hk & Hlabel & Hfirst). exists (S k).
      split_and!; [done..|]. intros [|j] ex' Hj Hex'; simplify_eq/=; [done|].
      eapply Hfirst; [|done]. lia.
    + intros ex' [->|?]%elem_of_cons; auto.
Qed.

Lemma seq_StronglySorted a n : StronglySorted le (seq a n).
Proof.
  revert a. induction n as [|n IH]; intros a; simpl; constructor; [done|].
  apply Forall_forall. intros j Hj%elem_of_seq. lia.
Qed.

Lemma nat_sorted_seq (l : list nat) n :
  StronglySorted le l → l ≡ₚ seq 0 n → l = seq 0 n.
Proof.
  intros Hl Hperm.
  apply (StronglySorted_unique le); [done|apply seq_StronglySorted|done].
Qed.

Lemma label_index_values (training_data : TrainingData) (attribute : string) :
  (map_to_list (_label_id_index_mapping training_data attribute)).*2 ≡ₚ
  seq 0 (size (_label_id_index_mapping training_data attribute)).
Proof.
  set (index := _label_id_index_mapping training_data attribute).
  set (labels :=
    sorted (list_to_set (label_values training_data attribute) ∖ {[None]})).
  assert (NoDup (map_to_list index).*2) as Hnd.
  { apply NoDup_fmap_2_strong; [|apply NoDup_map_to_list].
    intros [s1 j1] [s2 j2] H1%elem_of_map_to_list H2%elem_of_map_to_list ?.
    simplify_eq/=. f_equal. by eapply label_index_inj. }
  assert ((map_to_list index).*2 ≡ₚ seq 0 (length labels)) as Hperm.
  { apply NoDup_Permutation; [done|apply NoDup_seq|]. intros i.
    rewrite elem_of_seq, list_elem_of_fmap. split.
    - intros ([s j] & -> & Hin%elem_of_map_to_list). simpl.
      apply label_index_lookup, lookup_lt_Some in Hin. fold labels in Hin. lia.
    - intros [_ Hi]. simpl in Hi.
      apply lookup_lt_is_Some in Hi as [s Hs]. exists (s, i). split; [done|].
      apply elem_of_map_to_list. by apply label_index_lookup. }
  rewrite Hperm. f_equal.
  by rewrite <-length_map_to_list, <-(length_fmap snd), Hperm, length_seq.
Qed.

(** X2: the examples that stand for the labels are listed by label id:
    the ids are 0, 1, ..., N-1 in this order, and at position [i] comes
    the first intent example whose label has the id [i]; no label is left
    without an example. *)
Theorem label_examples_follow_ids
    (training_data : TrainingData) (attribute : string) :
  let index := _label_id_index_mapping training_data attribute in
  label_data_ids training_data index attribute = seq 0 (size index) ∧
  length (labels_example training_data index attribute) = size index ∧
  ∀ label i, index !! label = Some i →
    ∃ ex k,
      labels_example training_data index attribute !! i = Some (Some ex) ∧
      intent_examples training_data !! k = Some ex ∧
      get_text ex attribute = Some label ∧
      ∀ j ex', j < k → intent_examples training_data !! j = Some ex' →
        get_text ex' attribute ≠ Some label.
Proof.
  intros index.
  set (pairs := (λ '(label_name, idx),
    (idx, _find_example_for_label label_name
            (intent_examples training_data) attribute))
    <$> map_to_list index).
  assert (labels_idx_examples training_data index attribute ≡ₚ pairs) as Hperm.
  { unfold labels_idx_examples. apply merge_sort_Permutation. }
  assert (pairs.*1 = (map_to_list index).*2) as Hfst.
  { unfold pairs. rewrite <-list_fmap_compose. apply list_fmap_ext.
    by intros ? [??]. }
  assert (label_data_ids training_data index attribute = seq 0 (size index))
    as Hids.
  { unfold label_data_ids. apply nat_sorted_seq.
    - apply (StronglySorted_fmap fst by_idx le); [done|].
      apply StronglySorted_merge_sort.
      + intros x y z. unfold by_idx. lia.
      + intros x y. unfold by_idx. lia.
    - rewrite Hperm, Hfst. apply label_index_values. }
  split; [done|]. split.
  { unfold labels_example. rewrite length_fmap, <-(length_fmap fst).
    fold (label_data_ids training_data index attribute).
    by rewrite Hids, length_seq. }
  intros label i Hlabel.
  assert (i < size index) as Hi.
  { assert (i ∈ (map_to_list index).*2) as Hin.
    { apply list_elem_of_fmap. exists (label, i). split; [done|].
      by apply elem_of_map_to_list. }
    unfold index in Hin. rewrite label_index_values in Hin.
    apply elem_of_seq in Hin. fold index in Hin. lia. }
  assert (label_data_ids training_data index attribute !! i = Some i) as Hith.
  { rewrite Hids. apply lookup_seq. lia. }
  unfold label_data_ids in Hith.
  apply list_lookup_fmap_Some in Hith as ([i' oex] & Hi' & Hpair).
  simpl in Hi'. subst i'.
  assert ((i, oex) ∈ pairs) as Hin.
  { rewrite <-Hperm. by eapply list_elem_of_lookup_2. }
  apply list_elem_of_fmap in Hin as ([label' i'] & Heq & Hin').
  apply elem_of_map_to_list in Hin'. injection Heq as <- ->.
  assert (label' = label) as -> by by eapply label_index_inj.
  pose proof (find_example_for_label_spec label
    (intent_examples training_data) attribute) as Hfind.
  destruct (_find_example_for_label _ _ _) as [ex|] eqn:Hex.
  - destruct Hfind as (k & Hk & Hlab & Hfirst). exists ex, k.
    split_and!; [|done..]. unfold labels_example.
    by rewrite list_lookup_fmap, Hpair.
  - exfalso. apply label_index_lookup, list_elem_of_lookup_2 in Hlabel.
    apply sorted_elem_of, elem_of_distinct_labels in Hlabel.
    apply list_elem_of_fmap in Hlabel as (ex & Hex' & Hin).
    by apply (Hfind ex).
Qed.

(** ** The tag specs that training builds *)

Lemma contiguous_size (m : gmap string nat) n :
  (∀ s1 s2 i, m !! s1 = Some i → m !! s2 = Some i → s1 = s2) →
  (∀ i, i < n ↔ ∃ s, m !! s = Some i) →
  size m = n.
Proof.
  intros Hinj Hrange.
  assert ((map_to_list m).*2 ≡ₚ seq 0 n) as Hperm.
  { apply NoDup_Permutation; [|apply NoDup_seq|].
    - apply NoDup_fmap_2_strong; [|apply NoDup_map_to_list].
      intros [s1 j1] [s2 j2] H1%elem_of_map_to_list H2%elem_of_map_to_list ?.
      simplify_eq/=. f_equal. by eapply Hinj.
    - intros i. rewrite elem_of_seq, list_elem_of_fmap. split.
      + intros ([s j] & -> & Hin%elem_of_map_to_list). simpl.
        assert (j < n) by (apply Hrange; by exists s). lia.
      + intros [_ Hi]. simpl in Hi. apply Hrange in Hi as [s Hs].
        exists (s, i). split; [done|]. by apply elem_of_map_to_list. }
  by rewrite <-length_map_to_list, <-(length_fmap snd), Hperm, length_seq.
Qed.

Section created_tag_specs.
Context `{Constants}.
Context (build_tag_id_dict : TrainingData → string → option (gmap string nat)).

(** The tag index of an attribute, entry by entry. *)
Lemma tag_index_lookup tag_name training_data mapping tag i :
  _tag_id_index_mapping_for tag_name training_data = Some mapping →
  mapping !! tag = Some i ↔
  (tag = NO_ENTITY_TAG ∧ i = 0) ∨
  (∃ j, i = S j ∧
     sorted (tags_of tag_name training_data ∖ {[Some NO_ENTITY_TAG]} ∖ {[None]})
       !! j = Some tag).
Proof.
  unfold _tag_id_index_mapping_for. case_decide as Hempty; [done|].
  intros [= <-]. destruct (decide (NO_ENTITY_TAG = tag)) as [<-|Hne].
  - rewrite lookup_insert_eq. split.
    + intros [= <-]. by left.
    + intros [[_ ->]|(j & -> & Hj)]; [done|].
      apply list_elem_of_lookup_2, sorted_elem_of, elem_of_real_tags in Hj.
      naive_solver.
  - rewrite lookup_insert_ne by done.
    rewrite dict_comprehension_enumerate by apply sorted_NoDup. naive_solver.
Qed.

Lemma tag_index_inj tag_name training_data mapping tag1 tag2 i :
  _tag_id_index_mapping_for tag_name training_data = Some mapping →
  mapping !! tag1 = Some i → mapping !! tag2 = Some i → tag1 = tag2.
Proof.
  intros Hmapping H1 H2.
  apply (tag_index_lookup _ _ _ _ _ Hmapping) in H1.
  apply (tag_index_lookup _ _ _ _ _ Hmapping) in H2.
  destruct H1 as [[-> ->]|(j1 & -> & H1)], H2 as [[-> ?]|(j2 & ? & H2)];
    simplify_eq; done.
Qed.

Lemma tag_index_size tag_name training_data mapping :
  _tag_id_index_mapping_for tag_name training_data = Some mapping →
  size mapping =
  S (length (sorted
    (tags_of tag_name training_data ∖ {[Some NO_ENTITY_TAG]} ∖ {[None]}))).
Proof.
  intros Hmapping. apply contiguous_size.
  - intros tag1 tag2 i. apply (tag_index_inj _ _ _ _ _ _ Hmapping).
  - intros i. setoid_rewrite (tag_index_lookup _ _ _ _ _ Hmapping). split.
    + intros Hi. destruct i as [|j]; [exists NO_ENTITY_TAG; by left|].
      assert (is_Some (sorted
        (tags_of tag_name training_data ∖ {[Some NO_ENTITY_TAG]} ∖ {[None]})
        !! j)) as [tag Htag] by (apply lookup_lt_is_Some; lia).
      exists tag. right. by exists j.
    + intros (tag & [[_ ->]|(j & -> & Hj%lookup_lt_Some)]); lia.
Qed.

Lemma tag_index_real_tag tag_name training_data mapping :
  _tag_id_index_mapping_for tag_name training_data = Some mapping →
  0 < length (sorted
    (tags_of tag_name training_data ∖ {[Some NO_ENTITY_TAG]} ∖ {[None]})).
Proof.
  unfold _tag_id_index_mapping_for. case_decide as Hempty; [done|]. intros _.
  destruct (sorted _) as [|tag l] eqn:Hsorted; [|simpl; lia].
  destruct Hempty. apply set_eq. intros [tag|].
  - rewrite <-sorted_elem_of, Hsorted. set_solver.
  - set_solver.
Qed.

(** A spec that the loop of [_create_entity_tag_specs] adds carries one of
    the names the loop runs over, the tag index of that name, its inverse
    and its size. *)
Lemma tag_spec_step_fields config training_data names specs0 spec :
  spec ∈ foldl (tag_spec_step build_tag_id_dict config training_data) specs0 names →
  spec ∈ specs0 ∨
  tag_name spec ∈ names ∧
  ∃ mapping,
    (if BILOU_FLAG config then build_tag_id_dict training_data (tag_name spec)
     else _tag_id_index_mapping_for (tag_name spec) training_data) = Some mapping ∧
    mapping ≠ ∅ ∧ tags_to_ids spec = mapping ∧
    ids_to_tags spec = _invert_mapping mapping ∧ num_tags spec = size mapping.
Proof.
  revert specs0. induction names as [|name names IH]; intros specs0; simpl.
  { by left. }
  intros [Hin|[? ?]]%IH; [|right; split; [by right|done]].
  unfold tag_spec_step in Hin.
  destruct (BILOU_FLAG config).
  - destruct (build_tag_id_dict training_data name) as [mapping|] eqn:Hmapping;
      [|by left].
    case_decide; [by left|].
    apply elem_of_app in Hin as [?|Hin]; [by left|].
    apply list_elem_of_singleton in Hin as ->. right.
    split; [by left|]. by exists mapping.
  - destruct (_tag_id_index_mapping_for name training_data)
      as [mapping|] eqn:Hmapping; [|by left].
    case_decide; [by left|].
    apply elem_of_app in Hin as [?|Hin]; [by left|].
    apply list_elem_of_singleton in Hin as ->. right.
    split; [by left|]. by exists mapping.
Qed.

(** X3: without BILOU tagging every tag spec that training builds is
    named after the entity type, the role or the group, gives the
    no-entity tag the id 0, has two tags at least, uses exactly the ids
    0, ..., [num_tags - 1], each for one tag, and has in [ids_to_tags] the
    inverse of [tags_to_ids]. *)
Theorem created_tag_specs_well_formed
    (config : ComponentConfig) (training_data : TrainingData)
    (spec : EntityTagSpec) :
  BILOU_FLAG config = false →
  spec ∈ _create_entity_tag_specs build_tag_id_dict config training_data →
  tag_name spec ∈ POSSIBLE_TAGS ∧
  tags_to_ids spec !! NO_ENTITY_TAG = Some 0 ∧
  2 ≤ num_tags spec ∧
  (∀ i, i < num_tags spec ↔ ∃ tag, tags_to_ids spec !! tag = Some i) ∧
  (∀ tag1 tag2 i, tags_to_ids spec !! tag1 = Some i →
     tags_to_ids spec !! tag2 = Some i → tag1 = tag2) ∧
  (∀ tag i, ids_to_tags spec !! i = Some tag ↔ tags_to_ids spec !! tag = Some i).
Proof.
  intros Hbilou Hin.
  apply tag_spec_step_fields in Hin as [Hin|[Hname Hspec]].
  { by apply elem_of_nil in Hin. }
  rewrite Hbilou in Hspec.
  destruct Hspec as (mapping & Hmapping & _ & -> & -> & ->).
  assert (∀ tag1 tag2 i, mapping !! tag1 = Some i →
    mapping !! tag2 = Some i → tag1 = tag2) as Hinj.
  { intros tag1 tag2 i. apply (tag_index_inj _ _ _ _ _ _ Hmapping). }
  pose proof (tag_index_size _ _ _ Hmapping) as Hsize.
  pose proof (tag_index_real_tag _ _ _ Hmapping) as Hreal.
  split_and!.
  - done.
  - apply (tag_index_lookup _ _ _ _ _ Hmapping). by left.
  - lia.
  - intros i. rewrite Hsize.
    setoid_rewrite (tag_index_lookup _ _ _ _ _ Hmapping). split.
    + intros Hi. destruct i as [|j]; [exists NO_ENTITY_TAG; by left|].
      assert (is_Some (sorted
        (tags_of (tag_name spec) training_data ∖ {[Some NO_ENTITY_TAG]} ∖ {[None]})
        !! j)) as [tag Htag] by (apply lookup_lt_is_Some; lia).
      exists tag. right. by exists j.
    + intros (tag & [[_ ->]|(j & -> & Hj%lookup_lt_Some)]); lia.
  - done.
  - intros tag i. by apply invert_mapping_lookup.
Qed.

End created_tag_specs.

(** ** The order of the tag specs in the model *)

Lemma StronglySorted_pairwise {A} (R : relation A) (l : list A) :
  (∀ x y, x ∈ l → y ∈ l → R x y) → StronglySorted R l.
Proof.
  induction l as [|x l IH]; intros HR; constructor.
  - apply IH. intros y z Hy Hz. apply HR; by right.
  - apply Forall_forall. intros y Hy. apply HR; [by left|by right].
Qed.

Section ordered_tag_specs.
Context `{Constants}.
Context (build_tag_id_dict : TrainingData → string → option (gmap string nat)).

Lemma ordered_tag_specs_app (entity_tag_specs : list EntityTagSpec) :
  DIET._ordered_tag_specs (Some entity_tag_specs) =
  filter (λ tag_spec, ENTITY_ATTRIBUTE_TYPE = tag_name tag_spec) entity_tag_specs ++
  filter (λ tag_spec, ENTITY_ATTRIBUTE_ROLE = tag_name tag_spec) entity_tag_specs ++
  filter (λ tag_spec, ENTITY_ATTRIBUTE_GROUP = tag_name tag_spec) entity_tag_specs.
Proof. unfold DIET._ordered_tag_specs. simpl. by rewrite app_nil_r. Qed.

(** X4: the model keeps the tag specs whose name is the entity type, the
    role or the group, each of them once, and lists them in the order of
    the CRF layers: nothing but specs of the entity type comes before a
    spec of the entity type, and nothing but specs of the group comes after
    a spec of the group. Without tag specs ([None]) it keeps none. The
    three names are taken to be distinct. *)
Theorem ordered_tag_specs_crf_order (entity_tag_specs : list EntityTagSpec) :
  ENTITY_ATTRIBUTE_TYPE ≠ ENTITY_ATTRIBUTE_ROLE →
  ENTITY_ATTRIBUTE_TYPE ≠ ENTITY_ATTRIBUTE_GROUP →
  ENTITY_ATTRIBUTE_ROLE ≠ ENTITY_ATTRIBUTE_GROUP →
  DIET._ordered_tag_specs None = [] ∧
  DIET._ordered_tag_specs (Some entity_tag_specs) ≡ₚ
    filter (λ tag_spec, tag_name tag_spec ∈ POSSIBLE_TAGS) entity_tag_specs ∧
  ∀ p q a b, p < q →
    DIET._ordered_tag_specs (Some entity_tag_specs) !! p = Some a →
    DIET._ordered_tag_specs (Some entity_tag_specs) !! q = Some b →
    (tag_name b = ENTITY_ATTRIBUTE_TYPE → tag_name a = ENTITY_ATTRIBUTE_TYPE) ∧
    (tag_name a = ENTITY_ATTRIBUTE_GROUP → tag_name b = ENTITY_ATTRIBUTE_GROUP).
Proof.
  intros Htr Htg Hrg. split; [done|]. rewrite ordered_tag_specs_app. split.
  - induction entity_tag_specs as [|tag_spec l IH]; [done|].
    rewrite !filter_cons. unfold POSSIBLE_TAGS in *.
    destruct (decide (ENTITY_ATTRIBUTE_TYPE = tag_name tag_spec)) as [Ht|Ht].
    { rewrite decide_False, decide_False, decide_True by (set_solver || congruence).
      simpl. by constructor. }
    destruct (decide (ENTITY_ATTRIBUTE_ROLE = tag_name tag_spec)) as [Hr|Hr].
    { rewrite decide_False, decide_True by (set_solver || congruence).
      cbn [app]. rewrite <-Permutation_middle. by constructor. }
    destruct (decide (ENTITY_ATTRIBUTE_GROUP = tag_name tag_spec)) as [Hg|Hg].
    { rewrite decide_True by set_solver.
      rewrite app_assoc, <-Permutation_middle, <-app_assoc. by constructor. }
    rewrite decide_False; [done|]. set_solver.
  - set (R := λ a b : EntityTagSpec,
      (tag_name b = ENTITY_ATTRIBUTE_TYPE → tag_name a = ENTITY_ATTRIBUTE_TYPE) ∧
      (tag_name a = ENTITY_ATTRIBUTE_GROUP → tag_name b = ENTITY_ATTRIBUTE_GROUP)).
    intros p q a b Hpq Hp Hq.
    eapply (StronglySorted_lookup R); [|apply Hpq|apply Hp|apply Hq].
    assert (∀ name1 name2 (l1 l2 : list EntityTagSpec) x y,
      (name1 = ENTITY_ATTRIBUTE_TYPE ∨ name2 ≠ ENTITY_ATTRIBUTE_TYPE) →
      (name2 = ENTITY_ATTRIBUTE_GROUP ∨ name1 ≠ ENTITY_ATTRIBUTE_GROUP) →
      x ∈ filter (λ tag_spec, name1 = tag_name tag_spec) l1 →
      y ∈ filter (λ tag_spec, name2 = tag_name tag_spec) l2 → R x y) as HR.
    { intros name1 name2 l1 l2 x y H1 H2 [Hx _]%list_elem_of_filter
        [Hy _]%list_elem_of_filter.
      unfold R. split; intros ?; destruct H1, H2; congruence. }
    apply StronglySorted_app_2; [|apply StronglySorted_pairwise
                                 |apply StronglySorted_app_2;
                                    [|apply StronglySorted_pairwise..]].
    + intros x y Hx [Hy|Hy]%elem_of_app; eapply HR; try done; auto.
    + intros x y. apply HR; auto.
    + intros x y. apply HR; auto.
    + intros x y. apply HR; auto.
    + intros x y. apply HR; auto.
Qed.

Lemma tag_spec_step_app config training_data specs name :
  tag_spec_step build_tag_id_dict config training_data specs name =
  specs ++ tag_spec_step build_tag_id_dict config training_data [] name.
Proof.
  unfold tag_spec_step.
  destruct (if BILOU_FLAG config then _ else _) as [mapping|];
    [|by rewrite app_nil_r].
  case_decide; [by rewrite app_nil_r|done].
Qed.

Lemma tag_spec_step_name config training_data name :
  Forall (λ tag_spec, tag_name tag_spec = name)
    (tag_spec_step build_tag_id_dict config training_data [] name).
Proof.
  unfold tag_spec_step.
  destruct (if BILOU_FLAG config then _ else _) as [mapping|]; [|done].
  case_decide; [done|]. by repeat constructor.
Qed.

Lemma filter_name_all (l : list EntityTagSpec) name :
  Forall (λ tag_spec, tag_name tag_spec = name) l →
  filter (λ tag_spec, name = tag_name tag_spec) l = l.
Proof.
  induction 1 as [|x l Hx Hl IH]; [done|].
  by rewrite filter_cons, decide_True, IH.
Qed.

Lemma filter_name_none (l : list EntityTagSpec) name name' :
  name ≠ name' →
  Forall (λ tag_spec, tag_name tag_spec = name') l →
  filter (λ tag_spec, name = tag_name tag_spec) l = [].
Proof.
  intros Hne. induction 1 as [|x l Hx Hl IH]; [done|].
  by rewrite filter_cons, decide_False, IH by congruence.
Qed.

(** X5: the tag specs that training builds are already in the order of
    the CRF layers: the model that is instantiated with them keeps the list
    as it is. The names of the three attributes are taken to be distinct. *)
Theorem ordered_tag_specs_of_created
    (config : ComponentConfig) (training_data : TrainingData) :
  ENTITY_ATTRIBUTE_TYPE ≠ ENTITY_ATTRIBUTE_ROLE →
  ENTITY_ATTRIBUTE_TYPE ≠ ENTITY_ATTRIBUTE_GROUP →
  ENTITY_ATTRIBUTE_ROLE ≠ ENTITY_ATTRIBUTE_GROUP →
  DIET._ordered_tag_specs
    (Some (_create_entity_tag_specs build_tag_id_dict config training_data)) =
  _create_entity_tag_specs build_tag_id_dict config training_data.
Proof.
  intros Htr Htg Hrg. rewrite ordered_tag_specs_app.
  unfold _create_entity_tag_specs, POSSIBLE_TAGS. simpl.
  rewrite (tag_spec_step_app _ _ (tag_spec_step _ _ _ _ _) ENTITY_ATTRIBUTE_GROUP).
  rewrite (tag_spec_step_app _ _ (tag_spec_step _ _ _ _ _) ENTITY_ATTRIBUTE_ROLE).
  pose proof (tag_spec_step_name config training_data ENTITY_ATTRIBUTE_TYPE) as Ht.
  pose proof (tag_spec_step_name config training_data ENTITY_ATTRIBUTE_ROLE) as Hr.
  pose proof (tag_spec_step_name config training_data ENTITY_ATTRIBUTE_GROUP) as Hg.
  rewrite !filter_app.
  rewrite (filter_name_all _ _ Ht), (filter_name_all _ _ Hr),
    (filter_name_all _ _ Hg).
  rewrite (filter_name_none _ _ _ Htr Hr), (filter_name_none _ _ _ Htg Hg),
    (filter_name_none _ _ _ (not_eq_sym Htr) Ht), (filter_name_none _ _ _ Hrg Hg),
    (filter_name_none _ _ _ (not_eq_sym Htg) Ht),
    (filter_name_none _ _ _ (not_eq_sym Hrg) Hr).
  by rewrite !app_nil_r, !app_nil_l, app_assoc.
Qed.

End ordered_tag_specs.

(** ** The confidences of the ranking *)

Lemma fmap_score_seq (v : list Q) : score v <$> seq 0 (length v) = v.
Proof.
  apply list_eq. intros i. rewrite list_lookup_fmap.
  destruct (v !! i) as [x|] eqn:Hx.
  - rewrite lookup_seq_lt by by eapply lookup_lt_Some. simpl.
    unfold score. by rewrite Hx.
  - rewrite lookup_seq_ge; [done|]. by apply lookup_ge_None.
Qed.

Lemma Qred_le x y : (Qred x <= Qred y)%Q ↔ (x <= y)%Q.
Proof.
  pose proof (Qred_correct x) as Hx. pose proof (Qred_correct y) as Hy.
  split; intros Hle.
  - apply Qle_trans with (Qred x); [apply Qle_lteq; right; by symmetry|].
    apply Qle_trans with (Qred y); [done|]. apply Qle_lteq; by right.
  - apply Qle_trans with x; [apply Qle_lteq; by right|].
    apply Qle_trans with y; [done|]. apply Qle_lteq; right; by symmetry.
Qed.

Lemma sort_reversed_view_Permutation v : sort_reversed_view v ≡ₚ v.
Proof.
  unfold sort_reversed_view.
  by rewrite reverse_Permutation, np_sort_Permutation, reverse_Permutation.
Qed.

Section confidences_and_ids.
Context `{Numpy}.

(** The scores in descending order are the scores of the indices in the
    reverse of [argsort], position by position, whatever [argsort] does
    with equal scores. *)
Lemma sort_reversed_view_argsort v :
  Qred <$> sort_reversed_view v = Qred <$> (score v <$> reverse (argsort v)).
Proof.
  apply (StronglySorted_unique_strong (flip Qle)).
  - intros x1 x2 (a & -> & _)%list_elem_of_fmap (b & -> & _)%list_elem_of_fmap.
    unfold flip. rewrite !Qred_le. intros Hba Hab.
    apply Qred_complete. by apply Qle_antisym.
  - apply (StronglySorted_fmap Qred (flip Qle) (flip Qle)).
    + intros x y. unfold flip. by rewrite Qred_le.
    + apply sort_reversed_view_descending.
  - apply (StronglySorted_fmap Qred (flip Qle) (flip Qle)).
    + intros x y. unfold flip. by rewrite Qred_le.
    + apply (StronglySorted_fmap (score v)
               (λ i j, (score v j <= score v i)%Q) (flip Qle)); [done|].
      apply reverse_argsort_descending.
  - apply fmap_Permutation.
    rewrite sort_reversed_view_Permutation, reverse_Permutation, argsort_Permutation.
    by rewrite fmap_score_seq.
Qed.

Lemma sort_reversed_view_score v p i c :
  reverse (argsort v) !! p = Some i →
  sort_reversed_view v !! p = Some c →
  (c == score v i)%Q.
Proof.
  intros Hi Hc.
  assert ((Qred <$> sort_reversed_view v) !! p = Some (Qred c)) as H1.
  { by rewrite list_lookup_fmap, Hc. }
  rewrite sort_reversed_view_argsort, !list_lookup_fmap, Hi in H1.
  simpl in H1. injection H1 as H1.
  apply Qeq_trans with (Qred c); [symmetry; apply Qred_correct|].
  rewrite <-H1. apply Qred_correct.
Qed.

End confidences_and_ids.

Section ranking_properties.
Context `{Constants} `{Numpy} {RasaModel : Type} `{!Collaborators RasaModel}.

(** What [_predict_label] returns when there is a candidate label: the
    label of the first id in the reverse of [argsort] with the first of the
    confidences, and the ranking read off the pairs of ids and confidences
    that the cut leaves. *)
Lemma predict_label_explicit
    (self : DIETClassifier RasaModel) (out : gmap string Prediction) (a : ndarray)
    (r : Z) (mapping : gmap nat string) :
  out !! "i_scores" = Some (tensor a) →
  RANKING_LENGTH (component_config self) = Some r →
  index_label_id_mapping self = Some mapping →
  (∀ i, i < length (flatten a) → is_Some (mapping !! i)) →
  length (if (0 <? r)%Z
             && bool_decide (MODEL_CONFIDENCE (component_config self) = SOFTMAX)
          then normalize (flatten a) r else flatten a) = length (flatten a) →
  0 < length (flatten a) →
  ∃ first name c0 ranking,
    reverse (argsort (flatten a)) !! 0 = Some first ∧
    mapping !! first = Some name ∧
    sort_reversed_view
      (if (0 <? r)%Z && bool_decide (MODEL_CONFIDENCE (component_config self) = SOFTMAX)
       then normalize (flatten a) r else flatten a) !! 0 = Some c0 ∧
    _predict_label self (Some out) = Ok (label_dict name c0, ranking) ∧
    Forall2 (λ p d, ∃ name, mapping !! p.1 = Some name ∧ d = label_dict name p.2)
      (slice_to
         (zip (reverse (argsort (flatten a)))
            (sort_reversed_view
               (if (0 <? r)%Z
                   && bool_decide (MODEL_CONFIDENCE (component_config self) = SOFTMAX)
                then normalize (flatten a) r else flatten a)))
         (output_length (component_config self)))
      ranking.
Proof.
  intros Hout Hr Hmap Hcover Hnorm Hpos.
  unfold _predict_label, getitem. rewrite Hout. simpl. rewrite Hr. simpl.
  set (scores := flatten a) in *.
  set (ids0 := reverse (argsort scores)).
  set (sims := sort_reversed_view _).
  assert (length ids0 = length scores) as Hlen_ids.
  { unfold ids0. by rewrite length_reverse, argsort_length. }
  assert (length sims = length scores) as Hlen_sims.
  { unfold sims. by rewrite sort_reversed_view_length. }
  assert (∀ i, i ∈ ids0 ↔ i < length scores) as Hids_lt.
  { intros i. unfold ids0. by rewrite elem_of_reverse, argsort_elem_of. }
  clearbody ids0 sims.
  destruct (mapM_label_dicts self mapping
              (slice_to (zip ids0 sims) (output_length (component_config self)))
              Hmap) as (k & Hk & Hall).
  { apply Forall_forall. intros [i c] Hin.
    assert ((i, c) ∈ zip ids0 sims) as Hzip.
    { unfold slice_to in Hin.
      destruct (_ <? 0)%Z; apply elem_of_take in Hin as (p & Hp & _);
        by eapply list_elem_of_lookup_2. }
    apply elem_of_zip_l in Hzip. by apply Hcover, Hids_lt. }
  rewrite bool_decide_eq_true_2 by lia.
  destruct (ids0 !! 0) as [first|] eqn:Hfirst;
    [|apply lookup_ge_None in Hfirst; lia].
  destruct (sims !! 0) as [c0|] eqn:Hc0; [|apply lookup_ge_None in Hc0; lia].
  destruct (Hcover first) as [name Hname].
  { by eapply Hids_lt, list_elem_of_lookup_2. }
  unfold getindex. rewrite Hfirst. simpl.
  rewrite (label_name_Some _ _ _ _ Hmap Hname). simpl.
  rewrite Hc0. simpl. rewrite Hk. simpl.
  by exists first, name, c0, k.
Qed.

Lemma output_length_le (config : ComponentConfig) :
  (output_length config ≤ LABEL_RANKING_LENGTH)%Z.
Proof.
  unfold output_length. destruct (RANKING_LENGTH config) as [r|]; [|lia].
  destruct (bool_decide _); simpl; [|lia].
  destruct (Z.ltb_spec 0 r); simpl; [|lia].
  destruct (Z.ltb_spec r LABEL_RANKING_LENGTH); lia.
Qed.

Lemma output_length_pos (config : ComponentConfig) :
  (0 < LABEL_RANKING_LENGTH)%Z → (0 < output_length config)%Z.
Proof.
  intros Hpos. unfold output_length.
  destruct (RANKING_LENGTH config) as [r|]; [|lia].
  destruct (bool_decide _); simpl; [|lia].
  destruct (Z.ltb_spec 0 r); simpl; [|lia].
  destruct (Z.ltb_spec r LABEL_RANKING_LENGTH); lia.
Qed.

(** X6: for every integer ranking length, when there is a candidate label
    the label that [_predict_label] returns is the first entry of the
    ranking it returns, and it is the label of a candidate whose similarity
    no other candidate exceeds. *)
Theorem predict_label_is_top_of_ranking
    (self : DIETClassifier RasaModel) (out : gmap string Prediction) (a : ndarray)
    (r : Z) (mapping : gmap nat string) :
  out !! "i_scores" = Some (tensor a) →
  RANKING_LENGTH (component_config self) = Some r →
  (0 < LABEL_RANKING_LENGTH)%Z →
  index_label_id_mapping self = Some mapping →
  (∀ i, i < length (flatten a) → is_Some (mapping !! i)) →
  (∀ v n, length (normalize v n) = length v) →
  0 < length (flatten a) →
  ∃ label ranking first name,
    _predict_label self (Some out) = Ok (label, ranking) ∧
    ranking !! 0 = Some label ∧
    label !! "name" = Some (AStr name) ∧
    mapping !! first = Some name ∧
    first < length (flatten a) ∧
    ∀ j, j < length (flatten a) →
      (score (flatten a) j <= score (flatten a) first)%Q.
Proof.
  intros Hout Hr Hpos Hmap Hcover Hnorm Hlen.
  destruct (predict_label_explicit self out a r mapping)
    as (first & name & c0 & ranking & Hfirst & Hname & Hc0 & Hres & Hall);
    [done..|by destruct (_ && _)|done|].
  pose proof (output_length_pos (component_config self) Hpos) as Hout_pos.
  rewrite slice_to_nonneg in Hall by lia.
  exists (label_dict name c0), ranking, first, name.
  split; [done|]. split_and!.
  - assert (take (Z.to_nat (output_length (component_config self)))
      (zip (reverse (argsort (flatten a)))
         (sort_reversed_view
            (if (0 <? r)%Z
                && bool_decide (MODEL_CONFIDENCE (component_config self) = SOFTMAX)
             then normalize (flatten a) r else flatten a))) !! 0
      = Some (first, c0)) as Hzip.
    { apply lookup_take_Some. split; [|lia].
      apply lookup_zip_with_Some. by exists first, c0. }
    destruct (Forall2_lookup_l _ _ _ _ _ Hall Hzip) as (d & Hd & name' & Hname' & ->).
    simpl in Hname'. by simplify_eq.
  - unfold label_dict. rewrite lookup_insert_ne by done. apply lookup_insert_eq.
  - done.
  - apply list_elem_of_lookup_2 in Hfirst.
    by rewrite elem_of_reverse, argsort_elem_of in Hfirst.
  - intros j Hj.
    assert (j ∈ reverse (argsort (flatten a))) as Hin.
    { by rewrite elem_of_reverse, argsort_elem_of. }
    apply list_elem_of_lookup in Hin as [q Hq].
    destruct q as [|q]; [simplify_eq; apply Qle_refl|].
    apply (StronglySorted_lookup
             (λ i j, (score (flatten a) j <= score (flatten a) i)%Q)
             (reverse (argsort (flatten a))) 0 (S q) first j); [|lia|done..].
    apply reverse_argsort_descending.
Qed.

(** With no candidate label the null label and an empty ranking are
    returned. *)
Lemma predict_label_no_candidate
    (self : DIETClassifier RasaModel) (out : gmap string Prediction) (a : ndarray)
    (r : Z) :
  out !! "i_scores" = Some (tensor a) →
  RANKING_LENGTH (component_config self) = Some r →
  flatten a = [] →
  _predict_label self (Some out) = Ok (null_label, []).
Proof.
  intros Hout Hr Hnil. unfold _predict_label, getitem. rewrite Hout. simpl.
  rewrite Hr, Hnil. simpl.
  rewrite bool_decide_eq_false_2; [done|].
  rewrite length_reverse, argsort_length. simpl. lia.
Qed.

(** X7: for every integer ranking length, be it zero, negative or above
    [LABEL_RANKING_LENGTH], the ranking has no more entries than
    [LABEL_RANKING_LENGTH], and its entries are the labels of candidates
    that differ from one another, one entry for a candidate at most, so
    that it has no more entries than there are candidates; for a ranking
    length outside the range from 1 to [LABEL_RANKING_LENGTH - 1] it has
    exactly the smaller of the two numbers of entries. With no candidate
    the null label comes with an empty ranking. *)
Theorem predict_label_ranking_bounded
    (self : DIETClassifier RasaModel) (out : gmap string Prediction) (a : ndarray)
    (r : Z) (mapping : gmap nat string) :
  out !! "i_scores" = Some (tensor a) →
  RANKING_LENGTH (component_config self) = Some r →
  (0 ≤ LABEL_RANKING_LENGTH)%Z →
  index_label_id_mapping self = Some mapping →
  (∀ i, i < length (flatten a) → is_Some (mapping !! i)) →
  (∀ v n, length (normalize v n) = length v) →
  ∃ label ranking ids,
    _predict_label self (Some out) = Ok (label, ranking) ∧
    length ranking ≤ Z.to_nat LABEL_RANKING_LENGTH ∧
    length ranking ≤ length (flatten a) ∧
    length ids = length ranking ∧
    NoDup ids ∧
    (∀ p d, ranking !! p = Some d →
       ∃ i name c, ids !! p = Some i ∧ i < length (flatten a) ∧
         mapping !! i = Some name ∧ d = label_dict name c) ∧
    ((r ≤ 0 ∨ LABEL_RANKING_LENGTH ≤ r)%Z →
       length ranking = Z.to_nat LABEL_RANKING_LENGTH `min` length (flatten a)) ∧
    (length (flatten a) = 0 → label = null_label ∧ ranking = []).
Proof.
  intros Hout Hr Hpos Hmap Hcover Hnorm.
  pose proof (output_length_le (component_config self)) as Hle.
  assert (0 ≤ output_length (component_config self))%Z as Hnonneg.
  { unfold output_length. rewrite Hr. destruct (bool_decide _); simpl; [|lia].
    destruct (Z.ltb_spec 0 r); simpl; [|lia].
    destruct (Z.ltb_spec r LABEL_RANKING_LENGTH); lia. }
  destruct (predict_label_ranking_cut self out a r mapping)
    as (label & ranking & ids & confidences & Hres & Hlength & Hlen_ids &
        Hlen_conf & Hnodup & Hids & Hentries & _); [done..|].
  exists label, ranking, ids. split; [done|].
  split_and!; [lia|lia|done|done| | |].
  - intros p d Hd.
    destruct (lookup_lt_is_Some_2 ids p) as [i Hi].
    { rewrite Hlen_ids. by eapply lookup_lt_Some. }
    destruct (lookup_lt_is_Some_2 confidences p) as [c Hc].
    { rewrite Hlen_conf. by eapply lookup_lt_Some. }
    destruct (Hentries p i c Hi Hc) as (name & Hname & Hp).
    exists i, name, c. split_and!; [done| |done|congruence].
    by eapply Hids, list_elem_of_lookup_2.
  - intros Hrange. by rewrite Hlength, (output_length_default _ _ Hr Hrange).
  - intros Hnil%nil_length_inv.
    rewrite (predict_label_no_candidate self out a r Hout Hr Hnil) in Hres.
    by simplify_eq.
Qed.

(** X8: when the similarities are not renormalised (the ranking length
    is not positive, or the confidence is not the softmax one), every entry
    of the ranking carries the name of a candidate label together with the
    similarity of that very label, and the entries follow the reverse of
    [argsort]. This holds whatever order [argsort] gives to candidates with
    equal similarities. *)
Theorem ranking_confidence_is_similarity
    (self : DIETClassifier RasaModel) (out : gmap string Prediction) (a : ndarray)
    (r : Z) (mapping : gmap nat string) :
  out !! "i_scores" = Some (tensor a) →
  RANKING_LENGTH (component_config self) = Some r →
  (r ≤ 0)%Z ∨ MODEL_CONFIDENCE (component_config self) ≠ SOFTMAX →
  index_label_id_mapping self = Some mapping →
  (∀ i, i < length (flatten a) → is_Some (mapping !! i)) →
  ∃ label ranking,
    _predict_label self (Some out) = Ok (label, ranking) ∧
    ∀ p d, ranking !! p = Some d →
      ∃ i name c,
        reverse (argsort (flatten a)) !! p = Some i ∧
        mapping !! i = Some name ∧
        d = label_dict name c ∧
        (c == score (flatten a) i)%Q.
Proof.
  intros Hout Hr Hraw Hmap Hcover.
  assert ((0 <? r)%Z
          && bool_decide (MODEL_CONFIDENCE (component_config self) = SOFTMAX)
          = false) as Hoff.
  { destruct Hraw as [Hr0|Hconf].
    - by rewrite (proj2 (Z.ltb_ge 0 r)).
    - rewrite (bool_decide_eq_false_2 _ Hconf). apply andb_false_r. }
  destruct (decide (0 < length (flatten a))) as [Hlen|Hlen].
  - destruct (predict_label_explicit self out a r mapping)
      as (first & name & c0 & ranking & _ & _ & _ & Hres & Hall);
      [done..|by rewrite Hoff|done|].
    rewrite Hoff in Hall.
    exists (label_dict name c0), ranking. split; [done|].
    intros p d Hd.
    destruct (Forall2_lookup_r _ _ _ _ _ Hall Hd)
      as ([i c] & Hzip & name' & Hname' & ->).
    assert (zip (reverse (argsort (flatten a))) (sort_reversed_view (flatten a))
              !! p = Some (i, c)) as Hp.
    { unfold slice_to in Hzip.
      destruct (_ <? 0)%Z; by apply lookup_take_Some in Hzip as [? _]. }
    apply lookup_zip_with_Some in Hp as (i' & c' & [= <- <-] & Hi & Hc).
    exists i, name', c. split_and!; try done.
    by apply sort_reversed_view_score with p.
  - assert (flatten a = []) as Hnil by (apply nil_length_inv; lia).
    exists null_label, []. split.
    + by apply (predict_label_no_candidate self out a r).
    + intros p d Hd. by rewrite lookup_nil in Hd.
Qed.

End ranking_properties.

(** ** What [process] changes in a message *)

Section process_properties.
Context `{Constants} `{Numpy} {RasaModel : Type} `{!Collaborators RasaModel}.

Lemma data_set_ne message prop prop' v :
  prop' ≠ prop → data (set message prop' v) !! prop = data message !! prop.
Proof. intros. unfold set. simpl. by rewrite lookup_insert_ne. Qed.

Lemma predict_log (self : DIETClassifier RasaModel) log message out log' :
  _predict self log message = Ok (out, log') →
  (model self = None ∧ out = None ∧ log' = log ++ [(DEBUG, no_model_message)]) ∨
  (is_Some (model self) ∧ is_Some out ∧ log' = log).
Proof.
  unfold _predict. destruct (model self) as [m|].
  - intros (md & _ & Hrest)%bind_Ok. apply bind_Ok in Hrest as (out' & _ & ?).
    simplify_eq. right. by split_and!.
  - intros ?. simplify_eq. by left.
Qed.

(** X9: [process] leaves every property of the message other than the
    intent, the intent ranking and the entities as it was; it leaves the
    intent and the intent ranking as they were when intent classification
    is off, and the entities when entity recognition is off; it touches no
    diagnostic data but that under the name of the component; and it logs
    nothing when there is a trained model, one debug record when there is
    none. *)
Theorem process_frame
    (self : DIETClassifier RasaModel) (log log' : list LogRecord)
    (message message' : Message) :
  process self log message = Ok (message', log') →
  (∀ prop, prop ≠ INTENT → prop ≠ "intent_ranking" → prop ≠ ENTITIES →
     data message' !! prop = data message !! prop) ∧
  (INTENT_CLASSIFICATION (component_config self) = false →
   ∀ prop, prop ≠ ENTITIES → data message' !! prop = data message !! prop) ∧
  (ENTITY_RECOGNITION (component_config self) = false →
   ∀ prop, prop ≠ INTENT → prop ≠ "intent_ranking" →
     data message' !! prop = data message !! prop) ∧
  (∀ origin, origin ≠ unique_name self →
     diagnostic_data message' !! origin = diagnostic_data message !! origin) ∧
  log' = match model self with
         | Some _ => log
         | None => log ++ [(DEBUG, no_model_message)]
         end.
Proof.
  unfold process. intros ([out log''] & Hout & Hrest)%bind_Ok.
  apply bind_Ok in Hrest as (message1 & Hintent & Hrest).
  apply bind_Ok in Hrest as (message2 & Hentities & Hrest).
  injection Hrest as <- <-.
  assert (diagnostic_data message1 = diagnostic_data message ∧
    ∀ prop,
      (INTENT_CLASSIFICATION (component_config self) = false ∨
       (prop ≠ INTENT ∧ prop ≠ "intent_ranking")) →
      data message1 !! prop = data message !! prop) as [Hdiag1 Hdata1].
  { destruct (INTENT_CLASSIFICATION _).
    - apply bind_Ok in Hintent as ([label ranking] & _ & ?). simplify_eq.
      split; [done|]. intros prop [?|[??]]; [done|].
      by rewrite !data_set_ne.
    - by simplify_eq. }
  assert (diagnostic_data message2 = diagnostic_data message1 ∧
    ∀ prop,
      (ENTITY_RECOGNITION (component_config self) = false ∨ prop ≠ ENTITIES) →
      data message2 !! prop = data message1 !! prop) as [Hdiag2 Hdata2].
  { destruct (ENTITY_RECOGNITION _).
    - apply bind_Ok in Hentities as (entities & _ & ?). simplify_eq.
      split; [done|]. intros prop [?|?]; [done|]. by rewrite data_set_ne.
    - by simplify_eq. }
  assert (∀ m : Message,
    data (match out ≫= λ out, out !! DIAGNOSTIC_DATA with
          | Some d => add_diagnostic_data m (unique_name self) d
          | None => m
          end) = data m) as Hdata3.
  { intros m. by destruct (out ≫= _). }
  rewrite Hdata3. split_and!.
  - intros prop ???. rewrite Hdata2, Hdata1; auto.
  - intros Hoff prop ?. rewrite Hdata2, Hdata1; auto.
  - intros Hoff prop ??. rewrite Hdata2, Hdata1; auto.
  - intros origin Hne. destruct (out ≫= _); simpl.
    + rewrite lookup_insert_ne by done. by rewrite Hdiag2, Hdiag1.
    + by rewrite Hdiag2, Hdiag1.
  - apply predict_log in Hout as [(-> & _ & ->)|([m ->] & _ & ->)]; done.
Qed.

(** X10: a classifier without a trained model that has intent
    classification on writes the null intent and an empty intent ranking
    over whatever intent the message carried, and does not raise. *)
Theorem process_untrained_resets_intent
    (self : DIETClassifier RasaModel) (log : list LogRecord) (message : Message) :
  model self = None →
  INTENT_CLASSIFICATION (component_config self) = true →
  INTENT ≠ "intent_ranking" → ENTITIES ≠ INTENT → ENTITIES ≠ "intent_ranking" →
  ∃ message',
    process self log message = Ok (message', log ++ [(DEBUG, no_model_message)]) ∧
    data message' !! INTENT = Some (VDict null_label) ∧
    data message' !! "intent_ranking" = Some (VList []).
Proof.
  intros Hmodel Hintent Hne1 Hne2 Hne3.
  unfold process, _predict. rewrite Hmodel, Hintent. simpl.
  destruct (ENTITY_RECOGNITION _); simpl; eexists; (split; [done|]);
    unfold set; simpl.
  - rewrite lookup_insert_ne, lookup_insert_ne, lookup_insert_eq by done.
    by rewrite lookup_insert_ne, lookup_insert_eq.
  - rewrite lookup_insert_ne, lookup_insert_eq by done.
    by rewrite lookup_insert_eq.
Qed.

End process_properties.

(** ** The outcomes of [train] *)

Section train_outcomes.
Context `{Constants} {RasaModel : Type} `{!Collaborators RasaModel}.

Lemma label_index_empty (training_data : TrainingData) (attribute : string) :
  _label_id_index_mapping training_data attribute = ∅ ↔
  ∀ example, example ∈ intent_examples training_data →
    get_text example attribute = None.
Proof.
  split.
  - intros Hempty example Hin.
    destruct (get_text example attribute) as [s|] eqn:Hs; [|done].
    assert (s ∈ sorted (list_to_set (label_values training_data attribute)
                          ∖ {[None]})) as Hsorted.
    { apply sorted_elem_of, elem_of_distinct_labels, list_elem_of_fmap.
      by exists example. }
    apply list_elem_of_lookup in Hsorted as [i Hi].
    apply label_index_lookup in Hi. by rewrite Hempty, lookup_empty in Hi.
  - intros Hnone. apply map_eq. intros s. rewrite lookup_empty.
    destruct (_label_id_index_mapping training_data attribute !! s) as [i|] eqn:Hi;
      [|done].
    apply label_index_lookup, list_elem_of_lookup_2 in Hi.
    apply sorted_elem_of, elem_of_distinct_labels in Hi.
    apply list_elem_of_fmap in Hi as (example & Hs & Hin).
    rewrite (Hnone example Hin) in Hs. done.
Qed.

(** X11: on a corpus none of whose intent examples carries an intent,
    [train] returns without raising and without calling anything that
    could raise: the instance is left exactly as it was, tag specs and
    label index included, and one debug record is logged. This holds
    whether intent classification is on or not, so that a corpus with
    entity annotations only trains no entity recogniser. *)
Theorem train_without_intent_labels
    (self : DIETClassifier RasaModel) (log : list LogRecord)
    (training_data : TrainingData) :
  (∀ example,
     example ∈ intent_examples
       (if BILOU_FLAG (component_config self)
        then apply_bilou_schema training_data else training_data) →
     get_text example INTENT = None) →
  train self log training_data = Ok (self, log ++ [(DEBUG, no_data_message)]).
Proof.
  intros Hnone%label_index_empty. unfold train, preprocess_train_data.
  rewrite decide_True by done. done.
Qed.


End train_outcomes.

(** ** The feature dictionary of a message *)

Section extract_features_content.
Context `{Constants}.
Context (get_sparse_features get_dense_features :
  Message → string → list string → option Features * option Features).

Lemma feature_key_inj kind a b : kind +:+ "_" +:+ a = kind +:+ "_" +:+ b → a = b.
Proof. induction kind as [|c kind IH]; simpl; intros [=]; auto. Qed.

Lemma feature_key_kind a b : SPARSE +:+ "_" +:+ a ≠ DENSE +:+ "_" +:+ b.
Proof. unfold SPARSE, DENSE. simpl. discriminate. Qed.

Lemma lookup_put_features key key' f (out : gmap string Matrix) :
  put_features key' f out !! key =
  if decide (key = key') then
    match f with Some f => Some (features f) | None => out !! key end
  else out !! key.
Proof.
  unfold put_features. destruct f as [f|]; case_decide; subst; try done.
  - apply lookup_insert_eq.
  - by apply lookup_insert_ne.
Qed.

Lemma check_first_dimension_Ok dense sparse error d s :
  check_first_dimension dense sparse error = Ok () →
  dense = Some d → sparse = Some s →
  shape0 (features s) = shape0 (features d).
Proof.
  intros Hcheck -> ->. unfold check_first_dimension in Hcheck.
  case_decide as Hne; [done|].
  destruct (decide (shape0 (features s) = shape0 (features d))) as [?|Hne'];
    [done|].
  destruct Hne. congruence.
Qed.

(** X13: the dictionary that [_extract_features] returns has under the
    four feature names exactly the features the message has: the sentence
    features always, the sequence features unless the model has no
    transformer layer, recognises no entities and the attribute is a text
    attribute, in which case no sequence feature is kept. It has no other
    key, and the sparse and the dense array of one granularity that it
    holds have the same first dimension. The names of the two
    granularities are taken to differ. *)
Theorem extract_features_content
    (config : ComponentConfig) (message : Message) (attribute : string)
    (out : gmap string Matrix) :
  SEQUENCE ≠ SENTENCE →
  _extract_features get_sparse_features get_dense_features config message attribute
    = Ok out →
  let sparse := get_sparse_features message attribute (FEATURIZERS config) in
  let dense := get_dense_features message attribute (FEATURIZERS config) in
  let only_sentence :=
    NUM_TRANSFORMER_LAYERS config = 0%Z ∧ ENTITY_RECOGNITION config = false ∧
    attribute ≠ INTENT ∧ attribute ≠ INTENT_RESPONSE_KEY in
  out !! (SPARSE +:+ "_" +:+ SENTENCE) = features <$> sparse.2 ∧
  out !! (DENSE +:+ "_" +:+ SENTENCE) = features <$> dense.2 ∧
  (only_sentence →
     out !! (SPARSE +:+ "_" +:+ SEQUENCE) = None ∧
     out !! (DENSE +:+ "_" +:+ SEQUENCE) = None) ∧
  (¬ only_sentence →
     out !! (SPARSE +:+ "_" +:+ SEQUENCE) = features <$> sparse.1 ∧
     out !! (DENSE +:+ "_" +:+ SEQUENCE) = features <$> dense.1) ∧
  (∀ key, is_Some (out !! key) →
     key ∈ [SPARSE +:+ "_" +:+ SENTENCE; SPARSE +:+ "_" +:+ SEQUENCE;
            DENSE +:+ "_" +:+ SENTENCE; DENSE +:+ "_" +:+ SEQUENCE]) ∧
  (∀ granularity s d,
     out !! (SPARSE +:+ "_" +:+ granularity) = Some s →
     out !! (DENSE +:+ "_" +:+ granularity) = Some d →
     shape0 s = shape0 d).
Proof.
  intros Hne. unfold _extract_features.
  destruct (get_sparse_features _ _ _) as [sseq ssen].
  destruct (get_dense_features _ _ _) as [dseq dsen].
  intros ([] & Hseq & Hrest)%bind_Ok.
  apply bind_Ok in Hrest as ([] & Hsen & Hrest). simpl.
  set (only := bool_decide _ && _ && _) in Hrest.
  assert (only = true ↔
    NUM_TRANSFORMER_LAYERS config = 0%Z ∧ ENTITY_RECOGNITION config = false ∧
    attribute ≠ INTENT ∧ attribute ≠ INTENT_RESPONSE_KEY) as Honly.
  { unfold only. rewrite !andb_true_iff, !bool_decide_eq_true, negb_true_iff.
    rewrite !not_elem_of_cons. set_solver. }
  assert (SPARSE +:+ "_" +:+ SENTENCE ≠ SPARSE +:+ "_" +:+ SEQUENCE) as Hk1.
  { by intros ?%feature_key_inj. }
  assert (DENSE +:+ "_" +:+ SENTENCE ≠ DENSE +:+ "_" +:+ SEQUENCE) as Hk2.
  { by intros ?%feature_key_inj. }
  pose proof feature_key_kind as Hk3.
  assert (∀ a b, DENSE +:+ "_" +:+ a ≠ SPARSE +:+ "_" +:+ b) as Hk4.
  { intros a b Heq. by apply (Hk3 b a). }
  assert (∀ key, out !! key =
    if decide (key = DENSE +:+ "_" +:+ SEQUENCE) then
      features <$> (if only then None else dseq)
    else if decide (key = DENSE +:+ "_" +:+ SENTENCE) then features <$> dsen
    else if decide (key = SPARSE +:+ "_" +:+ SEQUENCE) then
      features <$> (if only then None else sseq)
    else if decide (key = SPARSE +:+ "_" +:+ SENTENCE) then features <$> ssen
    else None) as Hout.
  { intros key. injection Hrest as <-. rewrite !lookup_put_features.
    repeat case_decide; subst; try done;
      repeat match goal with
      | |- context [match ?f with Some _ => _ | None => _ end] => destruct f
      | |- context [if ?b then _ else _] => destruct b
      end; try done;
      try (by destruct (Hk1 eq_refl)); try (by destruct (Hk2 eq_refl));
      try (by edestruct Hk3); try (by edestruct Hk4);
      exfalso; eauto using eq_sym. }
  clear Hrest. split_and!.
  - rewrite Hout. rewrite decide_False by (intros Heq; by edestruct Hk3).
    rewrite decide_False by (intros Heq; by edestruct Hk3).
    rewrite decide_False by done. by rewrite decide_True.
  - rewrite Hout. rewrite decide_False by done. by rewrite decide_True.
  - intros Hon%Honly. rewrite !Hout, Hon.
    rewrite decide_False by (intros Heq; by edestruct Hk3).
    rewrite decide_False by (intros Heq; by edestruct Hk3).
    rewrite !decide_True by done. done.
  - intros Hoff. assert (only = false) as ->.
    { destruct only; [|done]. destruct Hoff. by apply Honly. }
    rewrite !Hout.
    rewrite decide_False by (intros Heq; by edestruct Hk3).
    rewrite decide_False by (intros Heq; by edestruct Hk3).
    rewrite !decide_True by done. done.
  - intros key [m Hm]. rewrite Hout in Hm. repeat case_decide; subst; set_solver.
  - intros granularity s d. rewrite !Hout.
    rewrite decide_False by apply Hk3. rewrite decide_False by apply Hk3.
    destruct (decide (granularity = SEQUENCE)) as [->|Hg1];
      [|destruct (decide (granularity = SENTENCE)) as [->|Hg2]].
    + rewrite !decide_True by done. destruct only; [done|].
      destruct sseq as [s'|], dseq as [d'|]; simpl; try done.
      intros [= <-] [= <-].
      by apply (check_first_dimension_Ok _ _ _ d' s' Hseq).
    + rewrite decide_False by done. rewrite decide_True by done.
      rewrite decide_False by done. rewrite decide_True by done.
      destruct ssen as [s'|], dsen as [d'|]; simpl; try done.
      intros [= <-] [= <-].
      by apply (check_first_dimension_Ok _ _ _ d' s' Hsen).
    + rewrite decide_False by (by intros ?%feature_key_inj).
      rewrite decide_False by (by intros ?%feature_key_inj). done.
Qed.

End extract_features_content.

(** ** The dictionary that [batch_predict] returns *)

Section batch_predict_properties.
Context `{Constants} {Tensor : Type} `{!TensorOps Tensor}.
Context (_last_token : Tensor → Tensor → Tensor).
Context (_get_mask_for :
  gmap string (gmap string (list Tensor)) → string → string → option Tensor).
Context (DataSignature : Type).
Context (predict_data_signature : DIET.Model Tensor → DataSignature).
Context (batch_to_model_data_format :
  list Tensor → DataSignature → gmap string (gmap string (list Tensor))).
Context (_get_sequence_lengths :
  gmap string (gmap string (list Tensor)) → string → string → Z → Tensor).
Context (_compute_mask : Tensor → Tensor).
Context (_create_sequence :
  DIET.Model Tensor → list Tensor → list Tensor → option Tensor → Tensor →
  string → Result (Tensor * Tensor * Tensor * Tensor * Tensor)).

(** The loop of [_batch_predict_entities] keeps the keys it is given and
    adds both keys of every tag spec that has tags. *)
Lemma predict_loop_complete (self : DIET.Model Tensor) tag_specs sequence_lengths
    text_transformed entity_tags predictions predictions' :
  DIET.predict_loop self tag_specs sequence_lengths text_transformed
    entity_tags predictions = Ok predictions' →
  (∀ key, is_Some (predictions !! key) → is_Some (predictions' !! key)) ∧
  (∀ tag_spec, tag_spec ∈ tag_specs → num_tags tag_spec ≠ 0 →
     is_Some (predictions' !! ("e_" +:+ tag_name tag_spec +:+ "_ids")) ∧
     is_Some (predictions' !! ("e_" +:+ tag_name tag_spec +:+ "_scores"))).
Proof.
  revert entity_tags predictions.
  induction tag_specs as [|tag_spec tag_specs IH]; intros entity_tags predictions.
  { simpl. intros [= <-]. split; [done|]. intros s Hs. by apply elem_of_nil in Hs. }
  simpl. destruct (decide (num_tags tag_spec = 0)) as [Hz|Hnz].
  { intros [Hkeep Hadd]%IH. split; [done|].
    intros s [->|Hs]%elem_of_cons Hnum; [done|by apply Hadd]. }
  destruct (match entity_tags with Some _ => _ | None => _ end) as [_input|];
    simpl; [|done].
  destruct (DIET.call_layer _ _ _) as [_logits|]; simpl; [|done].
  destruct (DIET.call_crf _ _ _ _) as [[pred_ids confidences]|]; simpl; [|done].
  intros [Hkeep Hadd]%IH. split.
  - intros key Hkey. apply Hkeep. rewrite !lookup_insert_is_Some'. auto.
  - intros s [->|Hs]%elem_of_cons Hnum; [|by apply Hadd].
    split; apply Hkeep; rewrite !lookup_insert_is_Some'; auto.
Qed.

Lemma lookup_update_is_Some (predictions : gmap string (DIET.Output Tensor))
    (d : gmap string Tensor) key :
  is_Some (DIET.update predictions d !! key) ↔
  is_Some (d !! key) ∨ is_Some (predictions !! key).
Proof.
  unfold DIET.update. rewrite lookup_union_is_Some, lookup_fmap, fmap_is_Some.
  done.
Qed.

(** X14: the dictionary that [batch_predict] returns has the diagnostic
    data; it has the intent scores exactly when intent classification is
    on, and then the label embedding had been prepared; with entity
    recognition on it has the ids and the scores of every tag spec that
    has tags; and it has no key besides these. The key of the diagnostic
    data is taken to differ from that of the intent scores. *)
Theorem batch_predict_keys
    (self : DIET.Model Tensor) (batch_in : list Tensor)
    (predictions : gmap string (DIET.Output Tensor)) :
  DIAGNOSTIC_DATA ≠ "i_scores" →
  DIET.batch_predict _last_token _get_mask_for DataSignature
    predict_data_signature batch_to_model_data_format _get_sequence_lengths
    _compute_mask _create_sequence self batch_in = Ok predictions →
  is_Some (predictions !! DIAGNOSTIC_DATA) ∧
  (is_Some (predictions !! "i_scores") ↔
   INTENT_CLASSIFICATION (DIET.config self) = true) ∧
  (INTENT_CLASSIFICATION (DIET.config self) = true →
   is_Some (DIET.all_labels_embed self)) ∧
  (ENTITY_RECOGNITION (DIET.config self) = true →
   ∀ tag_spec, tag_spec ∈ DIET._entity_tag_specs self → num_tags tag_spec ≠ 0 →
     is_Some (predictions !! ("e_" +:+ tag_name tag_spec +:+ "_ids")) ∧
     is_Some (predictions !! ("e_" +:+ tag_name tag_spec +:+ "_scores"))) ∧
  (∀ key, is_Some (predictions !! key) →
     key = DIAGNOSTIC_DATA ∨
     (key = "i_scores" ∧ INTENT_CLASSIFICATION (DIET.config self) = true) ∨
     (ENTITY_RECOGNITION (DIET.config self) = true ∧
      ∃ tag_spec, tag_spec ∈ DIET._entity_tag_specs self ∧
        num_tags tag_spec ≠ 0 ∧
        (key = "e_" +:+ tag_name tag_spec +:+ "_ids" ∨
         key = "e_" +:+ tag_name tag_spec +:+ "_scores"))).
Proof.
  intros Hne. unfold DIET.batch_predict.
  intros ([[[[text_transformed ?] ?] ?] attention_weights] & _ & Hrest)%bind_Ok.
  apply bind_Ok in Hrest as (predictions1 & Hintent & Hrest).
  apply bind_Ok in Hrest as (predictions2 & Hentities & Hrest).
  injection Hrest as ->.
  set (sequence_lengths := _get_sequence_lengths _ _ _ _) in *.
  clearbody sequence_lengths.
  (* the keys after the intent scores *)
  assert (is_Some (DIET.all_labels_embed self) ∨
          INTENT_CLASSIFICATION (DIET.config self) = false) as Hprepared.
  { destruct (INTENT_CLASSIFICATION _); [|by right]. left.
    apply bind_Ok in Hintent as (d & Hd & _).
    unfold DIET._batch_predict_intents in Hd.
    by destruct (DIET.all_labels_embed self). }
  assert (∀ key, is_Some (predictions1 !! key) ↔
    key = DIAGNOSTIC_DATA ∨
    (key = "i_scores" ∧ INTENT_CLASSIFICATION (DIET.config self) = true))
    as Hkeys1.
  { intros key. destruct (INTENT_CLASSIFICATION _).
    - apply bind_Ok in Hintent as (d & Hd & [= <-]).
      unfold DIET._batch_predict_intents in Hd.
      destruct (DIET.all_labels_embed self) as [embed|]; [|done].
      apply bind_Ok in Hd as (sentence_vector_embed & _ & Hd).
      apply bind_Ok in Hd as (layer & _ & Hd).
      destruct layer as [| |similarity]; try done.
      destruct (similarity _ _) as [? scores]. injection Hd as <-.
      rewrite lookup_update_is_Some, !lookup_singleton_is_Some. naive_solver.
    - injection Hintent as <-. rewrite lookup_singleton_is_Some. naive_solver. }
  (* the keys after the entities *)
  assert (∀ key, is_Some (predictions1 !! key) → is_Some (predictions !! key))
    as Hkeep.
  { intros key Hkey. destruct (ENTITY_RECOGNITION _).
    - apply bind_Ok in Hentities as (d & _ & [= <-]).
      apply lookup_update_is_Some. by right.
    - by injection Hentities as <-. }
  assert (∀ key, is_Some (predictions !! key) →
    is_Some (predictions1 !! key) ∨
    (ENTITY_RECOGNITION (DIET.config self) = true ∧
     ∃ tag_spec, tag_spec ∈ DIET._entity_tag_specs self ∧
       num_tags tag_spec ≠ 0 ∧
       (key = "e_" +:+ tag_name tag_spec +:+ "_ids" ∨
        key = "e_" +:+ tag_name tag_spec +:+ "_scores"))) as Hsound.
  { intros key Hkey. destruct (ENTITY_RECOGNITION _).
    - apply bind_Ok in Hentities as (d & Hd & [= <-]).
      apply lookup_update_is_Some in Hkey as [Hkey|?]; [|by left].
      right. split; [done|]. unfold DIET._batch_predict_entities in Hd.
      destruct (predict_loop_keys _ _ _ _ _ _ _ _ Hd Hkey) as [Hold|?]; [|done].
      rewrite lookup_empty in Hold. by destruct Hold.
    - injection Hentities as <-. by left. }
  split_and!.
  - apply Hkeep, Hkeys1. by left.
  - split.
    + intros [Hold|(_ & s & _ & _ & [Hkey|Hkey])]%Hsound.
      * apply Hkeys1 in Hold as [?|[_ ?]]; [by destruct Hne|done].
      * discriminate Hkey.
      * discriminate Hkey.
    + intros Hon. apply Hkeep, Hkeys1. by right.
  - intros Hon. destruct Hprepared as [?|Hoff]; [done|congruence].
  - intros Hon tag_spec Hin Hnum. rewrite Hon in Hentities.
    apply bind_Ok in Hentities as (d & Hd & [= <-]).
    unfold DIET._batch_predict_entities in Hd.
    apply predict_loop_complete in Hd as [_ Hadd].
    destruct (Hadd tag_spec Hin Hnum) as [Hids Hscores].
    split; apply lookup_update_is_Some; by left.
  - intros key [Hold|?]%Hsound; [|by right; right].
    apply Hkeys1 in Hold as [?|?]; [by left|by right; left].
Qed.

End batch_predict_properties.

(** ** Further scenarios *)

Section further_scenarios.
Local Existing Instance scenario_constants.
Local Existing Instance scenario_collaborators.
Local Existing Instance insertion_numpy.

Lemma created_city_tag_specs :
  _create_entity_tag_specs (λ _ _, None) (scenario_config (Some 10%Z)) city_corpus =
  [city_tag_spec].
Proof. by_evaluation. Qed.

Lemma created_tag_specs_well_formed_witness :
  tag_name city_tag_spec ∈ POSSIBLE_TAGS ∧
  tags_to_ids city_tag_spec !! NO_ENTITY_TAG = Some 0 ∧
  2 ≤ num_tags city_tag_spec ∧
  (∀ i, i < num_tags city_tag_spec ↔
        ∃ tag, tags_to_ids city_tag_spec !! tag = Some i) ∧
  (∀ tag1 tag2 i, tags_to_ids city_tag_spec !! tag1 = Some i →
     tags_to_ids city_tag_spec !! tag2 = Some i → tag1 = tag2) ∧
  (∀ tag i, ids_to_tags city_tag_spec !! i = Some tag ↔
            tags_to_ids city_tag_spec !! tag = Some i).
Proof.
  apply (created_tag_specs_well_formed (λ _ _, None) (scenario_config (Some 10%Z))
           city_corpus city_tag_spec).
  - reflexivity.
  - rewrite created_city_tag_specs. apply list_elem_of_singleton. reflexivity.
Defined.

(** The role spec given before the type spec: the model puts the type
    spec first. *)
Lemma ordered_tag_specs_crf_order_witness :
  DIET._ordered_tag_specs (Some [role_tag_spec; city_tag_spec]) ≡ₚ
    filter (λ tag_spec, tag_name tag_spec ∈ POSSIBLE_TAGS)
      [role_tag_spec; city_tag_spec] ∧
  DIET._ordered_tag_specs (Some [role_tag_spec; city_tag_spec]) =
    [city_tag_spec; role_tag_spec].
Proof.
  split.
  - apply (ordered_tag_specs_crf_order [role_tag_spec; city_tag_spec]);
      discriminate.
  - by_evaluation.
Defined.

Lemma ordered_tag_specs_of_created_witness :
  DIET._ordered_tag_specs
    (Some (_create_entity_tag_specs (λ _ _, None) (scenario_config (Some 10%Z))
             city_corpus)) =
  _create_entity_tag_specs (λ _ _, None) (scenario_config (Some 10%Z)) city_corpus.
Proof.
  apply (ordered_tag_specs_of_created (λ _ _, None) (scenario_config (Some 10%Z))
           city_corpus); discriminate.
Defined.

Lemma five_intents_cover i :
  i < length (flatten [tied_scores]) → is_Some (five_intents !! i).
Proof.
  intros Hi. do 5 (destruct i as [|i]; [by eexists|]). simpl in Hi. lia.
Qed.

(** Ranking length 0 with the tied similarities: the label is the first
    entry of the ranking. *)
Lemma predict_label_is_top_of_ranking_witness :
  ∃ label ranking first name,
    _predict_label (trained_classifier (Some 0%Z)) (Some tied_prediction)
      = Ok (label, ranking) ∧
    ranking !! 0 = Some label ∧
    label !! "name" = Some (AStr name) ∧
    five_intents !! first = Some name ∧
    first < length (flatten [tied_scores]) ∧
    ∀ j, j < length (flatten [tied_scores]) →
      (score (flatten [tied_scores]) j <= score (flatten [tied_scores]) first)%Q.
Proof.
  apply (predict_label_is_top_of_ranking (trained_classifier (Some 0%Z))
           tied_prediction [tied_scores] 0 five_intents).
  - reflexivity.
  - reflexivity.
  - reflexivity.
  - reflexivity.
  - apply five_intents_cover.
  - apply scenario_normalize_length.
  - simpl. lia.
Defined.

(** Ranking length 20 with five candidates: five entries. *)
Lemma predict_label_ranking_bounded_witness :
  ∃ label ranking ids,
    _predict_label (trained_classifier (Some 20%Z)) (Some tied_prediction)
      = Ok (label, ranking) ∧
    length ranking ≤ Z.to_nat LABEL_RANKING_LENGTH ∧
    length ranking ≤ length (flatten [tied_scores]) ∧
    length ids = length ranking ∧
    NoDup ids ∧
    (∀ p d, ranking !! p = Some d →
       ∃ i name c, ids !! p = Some i ∧ i < length (flatten [tied_scores]) ∧
         five_intents !! i = Some name ∧ d = label_dict name c) ∧
    ((20 ≤ 0 ∨ LABEL_RANKING_LENGTH ≤ 20)%Z →
       length ranking =
         Z.to_nat LABEL_RANKING_LENGTH `min` length (flatten [tied_scores])) ∧
    (length (flatten [tied_scores]) = 0 → label = null_label ∧ ranking = []).
Proof.
  apply (predict_label_ranking_bounded (trained_classifier (Some 20%Z))
           tied_prediction [tied_scores] 20 five_intents).
  - reflexivity.
  - reflexivity.
  - simpl. lia.
  - reflexivity.
  - apply five_intents_cover.
  - apply scenario_normalize_length.
Defined.

Lemma ranking_confidence_is_similarity_witness :
  ∃ label ranking,
    _predict_label (trained_classifier (Some 2%Z)) (Some tied_prediction)
      = Ok (label, ranking) ∧
    ∀ p d, ranking !! p = Some d →
      ∃ i name c,
        reverse (argsort (flatten [tied_scores])) !! p = Some i ∧
        five_intents !! i = Some name ∧
        d = label_dict name c ∧
        (c == score (flatten [tied_scores]) i)%Q.
Proof.
  apply (ranking_confidence_is_similarity (trained_classifier (Some 2%Z))
           tied_prediction [tied_scores] 2 five_intents).
  - reflexivity.
  - reflexivity.
  - right. simpl. discriminate.
  - reflexivity.
  - apply five_intents_cover.
Defined.

(** The message with an entity found upstream, processed by the trained
    classifier: the text is left as it was. *)
Lemma process_frame_witness :
  ∃ message' log',
    process (trained_classifier (Some 2%Z)) [] upstream_message
      = Ok (message', log') ∧
    data message' !! "text" = Some (VStr "a flight to Berlin") ∧
    log' = [].
Proof.
  assert (match process (trained_classifier (Some 2%Z)) [] upstream_message with
          | Ok _ => true
          | Raise _ => false
          end = true) as Hok by (vm_compute; reflexivity).
  destruct (process (trained_classifier (Some 2%Z)) [] upstream_message)
    as [[message' log']|e] eqn:Hrun; [|discriminate Hok].
  exists message', log'. split; [reflexivity|].
  destruct (process_frame (trained_classifier (Some 2%Z)) [] log'
              upstream_message message' Hrun) as (Hdata & _ & _ & _ & Hlog).
  split; [|exact Hlog].
  rewrite (Hdata "text"); [reflexivity|discriminate..].
Defined.

Lemma process_untrained_resets_intent_witness :
  ∃ message',
    process untrained_classifier [] (intent_example "greet")
      = Ok (message', [(DEBUG, no_model_message)]) ∧
    data message' !! INTENT = Some (VDict null_label) ∧
    data message' !! "intent_ranking" = Some (VList []).
Proof.
  apply (process_untrained_resets_intent untrained_classifier []
           (intent_example "greet")); [reflexivity|reflexivity|discriminate..].
Defined.

(** The corpus with city entities and no intent: nothing is trained. *)
Lemma train_without_intent_labels_witness :
  train untrained_classifier [] city_corpus =
    Ok (untrained_classifier, [(DEBUG, no_data_message)]).
Proof.
  apply (train_without_intent_labels untrained_classifier [] city_corpus).
  simpl. intros example Hin. by apply elem_of_nil in Hin.
Defined.


(** Three tokens in the sparse and in the dense sequence features. *)
Lemma extract_features_content_witness :
  ∃ out,
    _extract_features (λ _ _ _, three_token_sparse) (λ _ _ _, three_token_dense)
      (scenario_config (Some 10%Z)) upstream_message "text" = Ok out ∧
    out !! "sparse_sentence" = Some (sparse_matrix 1 4 []) ∧
    out !! "dense_sentence" = Some (dense_matrix [[1%Q]]).
Proof.
  assert (match _extract_features (λ _ _ _, three_token_sparse)
                  (λ _ _ _, three_token_dense) (scenario_config (Some 10%Z))
                  upstream_message "text" with
          | Ok _ => true
          | Raise _ => false
          end = true) as Hok by (vm_compute; reflexivity).
  destruct (_extract_features (λ _ _ _, three_token_sparse)
              (λ _ _ _, three_token_dense) (scenario_config (Some 10%Z))
              upstream_message "text") as [out|e] eqn:Hrun; [|discriminate Hok].
  exists out. split; [reflexivity|].
  destruct (extract_features_content (λ _ _ _, three_token_sparse)
              (λ _ _ _, three_token_dense) (scenario_config (Some 10%Z))
              upstream_message "text" out) as (Hsparse & Hdense & _).
  - discriminate.
  - exact Hrun.
  - split; [exact Hsparse|exact Hdense].
Defined.

(** The model with the tag spec of the entity type, prepared for
    prediction: the intent scores and the ids of the entity type are
    there. *)
Lemma batch_predict_keys_witness :
  ∃ predictions,
    scenario_batch_predict [] = Ok predictions ∧
    is_Some (predictions !! "diagnostic_data") ∧
    is_Some (predictions !! "i_scores") ∧
    is_Some (predictions !! "e_entity_ids").
Proof.
  assert (match scenario_batch_predict [] with
          | Ok _ => true
          | Raise _ => false
          end = true) as Hok by (vm_compute; reflexivity).
  destruct (scenario_batch_predict []) as [predictions|e] eqn:Hrun;
    [|discriminate Hok].
  exists predictions. split; [reflexivity|].
  destruct (batch_predict_keys (TensorOps0 := integer_ops)
              (λ x _, x) (λ _ _ _, None) unit
              (λ _, ()) (λ _ _, ∅) (λ _ _ _ _, 3%Z) (λ x, x)
              (λ _ _ _ _ _ _, Ok (1, 1, 1, 1, 1)%Z)
              scenario_model [] predictions)
    as (Hdiagnostic & Hintent & _ & Hentities & _).
  - discriminate.
  - exact Hrun.
  - split; [exact Hdiagnostic|]. split; [apply Hintent; reflexivity|].
    apply (Hentities eq_refl city_tag_spec); [|discriminate].
    apply list_elem_of_singleton. reflexivity.
Defined.

End further_scenarios.
